(** * Resilient XML-to-text extraction of [fetch_all_drug_approval_data.py]

    A shallow embedding of the document-field pipeline
    ([parse_xml_doc], [handle_complex_xml_parsing],
    [extract_text_from_parsed_doc], [extract_text_from_broken_xml]) and of the
    regular expressions and string methods it is built from.

    Character model.  A Python [str] is embedded as a [string] of 8-bit
    characters; a character outside ASCII is present as the bytes of its
    UTF-8 encoding (this is what a Rocq string literal holds).  The classes
    [\s], [\w] and [\d] are the ASCII parts of the Python classes, so the
    embedding is exact on ASCII input and keeps every other character as
    an opaque non-space, non-word, non-digit character.  [len] and slicing
    count code points ([py_len], [py_take]).

    Library model.  [xml.etree.ElementTree.fromstring] and [html.unescape]
    are library code, and both can raise: the parser [ParseError] or, for
    instance on a lone surrogate, another exception; the decoder
    [ValueError] on a decimal reference that is too long for [int].  The
    pipeline is written in a Section over both, so the general theorems
    hold for every parser and every decoder; two reference models
    ([XmlModel.fromstring], [HtmlModel.unescape]) are given for the
    evaluation of concrete documents.  [print] is not modelled. *)

From Stdlib Require Import String Ascii List Bool Arith Lia DecimalString.
Import ListNotations.
Open Scope list_scope.
Open Scope string_scope.
Open Scope nat_scope.
Set Warnings "-register-all".

(* ------------------------------------------------------------------ *)
(** ** Python string methods *)

Module Py.

Definition nat_of (c : ascii) : nat := nat_of_ascii c.

Definition is_empty (s : string) : bool :=
  match s with EmptyString => true | String _ _ => false end.

(** Truthiness of a [str]: [if s:]. *)
Definition truthy (s : string) : bool := negb (is_empty s).

Fixpoint drop (n : nat) (s : string) : string :=
  match n, s with
  | S k, String _ s' => drop k s'
  | _, _ => s
  end.

(** [sub in s] for a non-empty needle. *)
Fixpoint contains (needle s : string) : bool :=
  if prefix needle s then true
  else match s with
       | EmptyString => false
       | String _ s' => contains needle s'
       end.

(** [s.replace(old, new)] for a non-empty [old]: every occurrence, leftmost
    first, without overlap.  [skip] counts the characters of an occurrence
    that are still to be passed over. *)
Fixpoint replace_from (old new s : string) (skip : nat) : string :=
  match s with
  | EmptyString => EmptyString
  | String c s' =>
      match skip with
      | S k => replace_from old new s' k
      | O =>
          if prefix old s
          then new ++ replace_from old new s' (pred (String.length old))
          else String c (replace_from old new s' 0)
      end
  end.

Definition replace (old new s : string) : string := replace_from old new s 0.

(** [str.isspace] on one ASCII character: TAB, LF, VT, FF, CR, FS, GS, RS,
    US and SPACE.  The characters beyond ASCII that Python counts as well
    (U+0085, U+00A0, U+3000 and the like, and for [is_digit] and [is_word]
    the digits and letters of other scripts) are not in these classes: on
    a text with such characters [strip] and the classes of the patterns
    keep more than the code does.  What is stated of a value of [strip]
    is stated for texts of ASCII characters. *)
Definition is_space (c : ascii) : bool :=
  let n := nat_of c in
  ((9 <=? n) && (n <=? 13)) || ((28 <=? n) && (n <=? 32)).

Definition is_digit (c : ascii) : bool :=
  let n := nat_of c in (48 <=? n) && (n <=? 57).

Definition is_hex (c : ascii) : bool :=
  let n := nat_of c in
  is_digit c || ((65 <=? n) && (n <=? 70)) || ((97 <=? n) && (n <=? 102)).

Definition is_alpha (c : ascii) : bool :=
  let n := nat_of c in
  ((65 <=? n) && (n <=? 90)) || ((97 <=? n) && (n <=? 122)).

(** [\w]: letters, digits and the underscore. *)
Definition is_word (c : ascii) : bool :=
  is_alpha c || is_digit c || (nat_of c =? 95).

Fixpoint lstrip (s : string) : string :=
  match s with
  | EmptyString => EmptyString
  | String c s' => if is_space c then lstrip s' else s
  end.

Fixpoint rstrip (s : string) : string :=
  match s with
  | EmptyString => EmptyString
  | String c s' =>
      let r := rstrip s' in
      if is_space c && is_empty r then EmptyString else String c r
  end.

(** [s.strip()]. *)
Definition strip (s : string) : string := rstrip (lstrip s).

(** [sep.join(parts)]. *)
Fixpoint join (sep : string) (parts : list string) : string :=
  match parts with
  | [] => EmptyString
  | [p] => p
  | p :: rest => p ++ sep ++ join sep rest
  end.

(** A byte that continues a multi-byte UTF-8 character (10xxxxxx). *)
Definition is_continuation (c : ascii) : bool :=
  let n := nat_of c in (128 <=? n) && (n <? 192).

(** [len(s)]: the number of code points. *)
Fixpoint py_len (s : string) : nat :=
  match s with
  | EmptyString => 0
  | String c s' => (if is_continuation c then 0 else 1) + py_len s'
  end.

(** [s[:n]]: the first [n] code points. *)
Fixpoint py_take (n : nat) (s : string) : string :=
  match s with
  | EmptyString => EmptyString
  | String c s' =>
      if is_continuation c then String c (py_take n s')
      else match n with
           | O => EmptyString
           | S k => String c (py_take k s')
           end
  end.

End Py.

(* ------------------------------------------------------------------ *)
(** ** The regular expressions of the pipeline

    Every pattern of the source matches at least one character, so a scan
    is: at each position try the pattern; on a match record it and pass
    over the matched characters, otherwise keep the character and move one
    position.  A matcher gives, for the text at a position, the captured
    group (or what the caller needs of the match) and the length of the
    whole match. *)

Module Re.
Import Py.

Definition matcher := string -> option (string * nat).

Inductive piece : Type :=
| Lit (c : ascii)
| Hit (group : string).

Fixpoint scan_from (m : matcher) (s : string) (skip : nat) : list piece :=
  match s with
  | EmptyString => []
  | String c s' =>
      match skip with
      | S k => scan_from m s' k
      | O =>
          match m s with
          | Some (g, n) => Hit g :: scan_from m s' (pred n)
          | None => Lit c :: scan_from m s' 0
          end
      end
  end.

Definition scan (m : matcher) (s : string) : list piece := scan_from m s 0.

(** [re.sub(pattern, repl, s)], with [repl] a function of the group. *)
Fixpoint subst (repl : string -> string) (ps : list piece) : string :=
  match ps with
  | [] => EmptyString
  | Lit c :: ps' => String c (subst repl ps')
  | Hit g :: ps' => repl g ++ subst repl ps'
  end.

Definition sub (m : matcher) (repl : string -> string) (s : string) : string :=
  subst repl (scan m s).

(** [re.findall(pattern, s)] for a pattern with one group. *)
Fixpoint hits (ps : list piece) : list string :=
  match ps with
  | [] => []
  | Lit _ :: ps' => hits ps'
  | Hit g :: ps' => g :: hits ps'
  end.

Definition findall (m : matcher) (s : string) : list string := hits (scan m s).

(** [re.search(pattern, s)]: group 1 of the first match. *)
Definition search (m : matcher) (s : string) : option string :=
  match findall m s with
  | [] => None
  | g :: _ => Some g
  end.

(** [re.split(pattern, s)] for a pattern without groups. *)
Fixpoint split_pieces (ps : list piece) (cur : string) : list string :=
  match ps with
  | [] => [cur]
  | Lit c :: ps' => split_pieces ps' (cur ++ String c EmptyString)
  | Hit _ :: ps' => cur :: split_pieces ps' EmptyString
  end.

Definition split (m : matcher) (s : string) : list string :=
  split_pieces (scan m s) EmptyString.

(** *** Pattern fragments *)

Definition newline : ascii := ascii_of_nat 10.
Definition dquote : ascii := ascii_of_nat 34.

(** [(.*?)close]: the shortest text up to [close]; without DOTALL the dot
    does not match a newline. *)
Fixpoint lazy_until (close : string) (dotall : bool) (s : string) : option string :=
  if prefix close s then Some EmptyString
  else match s with
       | EmptyString => None
       | String c s' =>
           if negb dotall && Ascii.eqb c newline then None
           else option_map (String c) (lazy_until close dotall s')
       end.

(** [[^x]*x]: the text up to the first [x], which has to be there. *)
Fixpoint until_char (x : ascii) (s : string) : option string :=
  match s with
  | EmptyString => None
  | String c s' =>
      if Ascii.eqb c x then Some EmptyString
      else option_map (String c) (until_char x s')
  end.

(** A greedy run [[class]*]. *)
Fixpoint span (cls : ascii -> bool) (s : string) : string :=
  match s with
  | EmptyString => EmptyString
  | String c s' => if cls c then String c (span cls s') else EmptyString
  end.

Definition lit_then (lit : string) (k : string -> option (string * nat)) : matcher :=
  fun s =>
    if prefix lit s
    then match k (drop (String.length lit) s) with
         | Some (g, n) => Some (g, String.length lit + n)
         | None => None
         end
    else None.

(** *** The patterns *)

(** [<sub>(.*?)</sub>], [<sup>(.*?)</sup>], [<!\[CDATA\[(.*?)\]\]>]. *)
Definition wrapped (opening closing : string) (dotall : bool) : matcher :=
  lit_then opening (fun s =>
    match lazy_until closing dotall s with
    | Some inner => Some (inner, String.length inner + String.length closing)
    | None => None
    end).

Definition sub_tag : matcher := wrapped "<sub>" "</sub>" false.
Definition sup_tag : matcher := wrapped "<sup>" "</sup>" false.
Definition cdata : matcher := wrapped "<![CDATA[" "]]>" true.

(** [<br\s*/?>]. *)
Definition br_tag : matcher :=
  lit_then "<br" (fun s =>
    let ws := span is_space s in
    match drop (String.length ws) s with
    | String "/" (String ">" _) => Some (EmptyString, String.length ws + 2)
    | String ">" _ => Some (EmptyString, String.length ws + 1)
    | _ => None
    end).

(** [#\d+;] and [#x[0-9a-fA-F]+;] after the ampersand. *)
Definition run_then_semicolon (cls : ascii -> bool) (s : string) : bool :=
  let run := span cls s in
  negb (is_empty run) && prefix ";" (drop (String.length run) s).

(** The alternatives of the negative lookahead
    [(amp;|lt;|gt;|apos;|quot;|#\d+;|#x[0-9a-fA-F]+;)]. *)
Definition entity_follows (s : string) : bool :=
  prefix "amp;" s || prefix "lt;" s || prefix "gt;" s ||
  prefix "apos;" s || prefix "quot;" s ||
  (prefix "#" s && run_then_semicolon is_digit (drop 1 s)) ||
  (prefix "#x" s && run_then_semicolon is_hex (drop 2 s)).

(** [&(?!(amp;|lt;|gt;|apos;|quot;|#\d+;|#x[0-9a-fA-F]+;))]. *)
Definition bare_amp : matcher :=
  fun s =>
    match s with
    | String c rest =>
        if Ascii.eqb c "&"
        then if entity_follows rest then None else Some (EmptyString, 1)
        else None
    | EmptyString => None
    end.

(** [<[^>]+>] when [at_least_one], [<[^>]*>] otherwise. *)
Definition any_tag (at_least_one : bool) : matcher :=
  lit_then "<" (fun s =>
    match until_char ">" s with
    | Some inner =>
        if at_least_one && is_empty inner then None
        else Some (EmptyString, String.length inner + 1)
    | None => None
    end).

(** [ +]. *)
Definition spaces : matcher :=
  fun s =>
    match span (Ascii.eqb " ") s with
    | EmptyString => None
    | run => Some (EmptyString, String.length run)
    end.

(** [\s+]. *)
Definition whitespace : matcher :=
  fun s =>
    match span is_space s with
    | EmptyString => None
    | run => Some (EmptyString, String.length run)
    end.

(** [[.!?]\s+]. *)
Definition sentence_end : matcher :=
  fun s =>
    match s with
    | String c rest =>
        if Ascii.eqb c "." || Ascii.eqb c "!" || Ascii.eqb c "?"
        then match span is_space rest with
             | EmptyString => None
             | run => Some (EmptyString, 1 + String.length run)
             end
        else None
    | EmptyString => None
    end.

(** A literal prefix that ends in a double quote, then the group
    [([^q]+)] and the closing quote [q], where [q] is the double quote: the
    patterns for [title=] and [<ARTICLE title=]. *)
Definition quoted_after (lit : string) : matcher :=
  lit_then (lit ++ String dquote EmptyString) (fun s =>
    match until_char dquote s with
    | Some EmptyString => None
    | Some v => Some (v, String.length v + 1)
    | None => None
    end).

Definition title_attr : matcher := quoted_after "title=".
Definition article_title : matcher := quoted_after "<ARTICLE title=".

(** [<PARAGRAPH[^>]*>(.*?)</PARAGRAPH>] with DOTALL. *)
Definition paragraph : matcher :=
  lit_then "<PARAGRAPH" (fun s =>
    match until_char ">" s with
    | Some attrs =>
        match lazy_until "</PARAGRAPH>" true (drop (String.length attrs + 1) s) with
        | Some inner =>
            Some (inner, String.length attrs + 1 + String.length inner + 12)
        | None => None
        end
    | None => None
    end).

(** The pattern of [opened_tags]: [<], the group [(\w+)], optionally
    [\s+] and a run of [[^>]], then [>], then [[^<]*$]: an opening tag after
    which the text has no [<] up to its end.  The match runs to the end of
    the text. *)
Definition open_tag_at_end : matcher :=
  lit_then "<" (fun s =>
    let name := span is_word s in
    let tail_of (t : string) :=
      if contains "<" t then None else Some (name, String.length s) in
    if is_empty name then None
    else match drop (String.length name) s with
         | String c t =>
             if Ascii.eqb c ">" then tail_of t
             else if is_space c then
               match until_char ">" t with
               | Some inner => tail_of (drop (String.length inner + 1) t)
               | None => None
               end
             else None
         | EmptyString => None
         end).

(** No ampersand in [s]. *)
Fixpoint no_amp (s : string) : bool :=
  match s with
  | EmptyString => true
  | String c s' => negb (Ascii.eqb c "&") && no_amp s'
  end.

End Re.

(* ------------------------------------------------------------------ *)
(** ** Element trees

    What the pipeline reads of an [xml.etree.ElementTree.Element]: the tag,
    the attributes, the text before the first child, the children in
    document order and the text after the end tag. *)

Module ET.

Inductive Element : Type :=
| mkElement (tag : string) (attrib : list (string * string))
            (text : option string) (children : list Element)
            (tail : option string).

Definition tag (e : Element) : string :=
  match e with mkElement t _ _ _ _ => t end.
Definition attrib (e : Element) : list (string * string) :=
  match e with mkElement _ a _ _ _ => a end.
Definition text (e : Element) : option string :=
  match e with mkElement _ _ x _ _ => x end.
Definition children (e : Element) : list Element :=
  match e with mkElement _ _ _ c _ => c end.
Definition tail (e : Element) : option string :=
  match e with mkElement _ _ _ _ x => x end.

Fixpoint lookup (key : string) (a : list (string * string)) : option string :=
  match a with
  | [] => None
  | (k, v) :: rest => if String.eqb k key then Some v else lookup key rest
  end.

(** [e.get(key, default)]. *)
Definition get (e : Element) (key default : string) : string :=
  match lookup key (attrib e) with
  | Some v => v
  | None => default
  end.

(** [e.findall(name)]: the direct children with that tag. *)
Definition findall (e : Element) (name : string) : list Element :=
  filter (fun c => String.eqb (tag c) name) (children e).

End ET.

(* ------------------------------------------------------------------ *)
(** ** Exceptions *)

Module Exc.

(** [ET.ParseError] is told apart from every other [Exception]. *)
Inductive exn : Type :=
| ParseError (msg : string)
| Fault (msg : string).

(** [str(e)]. *)
Definition str (e : exn) : string :=
  match e with ParseError m => m | Fault m => m end.

Inductive outcome (A : Type) : Type :=
| Ret (a : A)
| Raise (e : exn).
Arguments Ret {A} a.
Arguments Raise {A} e.

Definition bind {A B : Type} (m : outcome A) (k : A -> outcome B) : outcome B :=
  match m with
  | Ret a => k a
  | Raise e => Raise e
  end.

(** A loop that extends a list with what each step yields; the first
    exception ends it. *)
Fixpoint collect {A B : Type} (f : A -> outcome (list B)) (l : list A)
  : outcome (list B) :=
  match l with
  | [] => Ret []
  | x :: rest =>
      bind (f x) (fun ys =>
      bind (collect f rest) (fun more => Ret (app ys more)))
  end.

(** [try: body  except Exception as e: handler]. *)
Definition try_except {A : Type} (body : outcome A) (handler : exn -> outcome A)
  : outcome A :=
  match body with
  | Ret a => Ret a
  | Raise e => handler e
  end.

(** [try: body  except ET.ParseError as e: handler]. *)
Definition try_except_ParseError {A : Type} (body : outcome A)
    (handler : string -> outcome A) : outcome A :=
  match body with
  | Raise (ParseError m) => handler m
  | other => other
  end.

End Exc.

Notation "x <- m ;; k" := (Exc.bind m (fun x => k))
  (at level 61, m at next level, right associativity).

(* ------------------------------------------------------------------ *)
(** ** The result dictionaries *)

(** [article_data]: keys [title] and [paragraphs]. *)
Record article_data : Type := mkArticle {
  art_title : string;
  art_paragraphs : list string
}.

(** [section_data]: keys [title] and [articles]. *)
Record section_data : Type := mkSection {
  sec_title : string;
  sec_articles : list article_data
}.

(** A result dictionary; a key that is not set is [None]. *)
Record parsed_doc : Type := mkDoc {
  doc_title : string;
  doc_type : string;
  doc_sections : option (list section_data);
  doc_text : option string;
  doc_error : option string;
  doc_raw : option string
}.

Definition set_text (t : string) (d : parsed_doc) : parsed_doc :=
  mkDoc (doc_title d) (doc_type d) (doc_sections d) (Some t)
        (doc_error d) (doc_raw d).

Definition LF : string := String (ascii_of_nat 10) EmptyString.
Definition CR : string := String (ascii_of_nat 13) EmptyString.
Definition TAB : string := String (ascii_of_nat 9) EmptyString.

Definition CDATA_OPEN : string := "<![CDATA[".
Definition CDATA_CLOSE : string := "]]>".

(** [f"【{t}】"]. *)
Definition title_header (t : string) : string := "【" ++ t ++ "】".

(* ------------------------------------------------------------------ *)
(** ** Steps that do not call the libraries *)

Definition identity (s : string) : string := s.
Definition const (r : string) (_ : string) : string := r.

(** Lines 43-44, 152-153, 271-272: the [sub] and [sup] wrappers are replaced
    by their content. *)
Definition unwrap_sub_sup (xml_string : string) : string :=
  Re.sub Re.sup_tag identity (Re.sub Re.sub_tag identity xml_string).

(** Lines 52 and 157: every ampersand that does not start one of the
    listed entities becomes [&amp;]. *)
Definition escape_bare_ampersands (s : string) : string :=
  Re.sub Re.bare_amp (const "&amp;") s.

(** Lines 48-54: the blocks are collected once, then each one is replaced,
    wherever its text occurs in the current string, by its repaired text. *)
Definition repair_cdata_blocks (xml_string : string) : string :=
  fold_left
    (fun xml block =>
       Py.replace (CDATA_OPEN ++ block ++ CDATA_CLOSE)
                  (CDATA_OPEN ++ escape_bare_ampersands block ++ CDATA_CLOSE)
                  xml)
    (Re.findall Re.cdata xml_string)
    xml_string.

(** Lines 43-54 of [parse_xml_doc]: the entity sanitizer. *)
Definition sanitize (xml_string : string) : string :=
  repair_cdata_blocks (unwrap_sub_sup xml_string).

(** Lines 149, 268: [re.sub] of a CDATA block by its content. *)
Definition strip_cdata_markers (s : string) : string :=
  Re.sub Re.cdata identity s.

(** Line 161. *)
Definition opened_tags (xml_string : string) : list string :=
  Re.findall Re.open_tag_at_end xml_string.

(** Lines 162-163. *)
Definition close_tags (tags : list string) (xml_string : string) : string :=
  fold_left (fun xml tag => xml ++ "</" ++ tag ++ ">") (rev tags) xml_string.

(** Lines 149-157 of [handle_complex_xml_parsing]: CDATA markers removed,
    wrappers and line breaks replaced, bare ampersands escaped in the
    whole text. *)
Definition flatten_markup (xml_string : string) : string :=
  let xml_string := strip_cdata_markers xml_string in
  let xml_string := unwrap_sub_sup xml_string in
  let xml_string := Re.sub Re.br_tag (const " ") xml_string in
  escape_bare_ampersands xml_string.

(** Lines 149-163 of [handle_complex_xml_parsing]: the tag repair that
    precedes the second parse. *)
Definition tag_repair (xml_string : string) : string :=
  let xml_string := flatten_markup xml_string in
  close_tags (opened_tags xml_string) xml_string.

(** [extract_text_from_parsed_doc]. *)
Definition extract_text_from_parsed_doc (doc_data : parsed_doc) : string :=
  let title_part :=
    if Py.truthy (doc_title doc_data)
    then [title_header (doc_title doc_data)] else [] in
  let sections :=
    match doc_sections doc_data with Some l => l | None => [] end in
  let body :=
    flat_map (fun section =>
      flat_map (fun article =>
        app (if Py.truthy (art_title article)
             then [LF ++ "■ " ++ art_title article] else [])
            (map (fun paragraph => "- " ++ paragraph) (art_paragraphs article)))
        (sec_articles section))
      sections in
  Py.join LF (app title_part body).

(* ------------------------------------------------------------------ *)
(** ** The pipeline, over the XML parser and the entity decoder *)

Section Pipeline.

Import Exc.

(** [ET.fromstring]: an element tree, [ET.ParseError], or another fault. *)
Variable fromstring : string -> outcome ET.Element.

(** [html.unescape]: the decoded text, or an exception. *)
Variable unescape : string -> outcome string.

(** Lines 96-108, 201-209 and 307-313, the same in the three tiers: tags
    are removed, entities decoded, carriage returns removed, tabs turned
    into spaces, runs of spaces collapsed, and the ends stripped. *)
Definition clean_text (text : string) : outcome string :=
  let text := Re.sub (Re.any_tag true) (const "") text in
  text <- unescape text ;;
  let text := Py.replace TAB " " (Py.replace CR "" text) in
  let text := Re.sub Re.spaces (const " ") text in
  Ret (Py.strip text).

(** Lines 88-112 (first parse, [cdata_step]) and 198-213 (second parse):
    the text of one [PARAGRAPH], kept when it is not empty. *)
Definition paragraph_text (cdata_step : bool) (paragraph : ET.Element)
  : outcome (list string) :=
  let text := match ET.text paragraph with Some t => t | None => "" end in
  let text :=
    if cdata_step && Py.contains "![CDATA[" text
    then strip_cdata_markers text else text in
  text <- clean_text text ;;
  Ret (if Py.truthy text then [text] else []).

(** Lines 79-116 and 189-217: the articles of one [SECTION]. *)
Definition articles_of (cdata_step : bool) (section : ET.Element)
  : outcome (list article_data) :=
  collect (fun article =>
    paragraphs <- collect (paragraph_text cdata_step)
                          (ET.findall article "PARAGRAPH") ;;
    let article_data := mkArticle (ET.get article "title" "") paragraphs in
    Ret (if negb (Nat.eqb (List.length (art_paragraphs article_data)) 0)
            || Py.truthy (art_title article_data)
         then [article_data] else []))
    (ET.findall section "ARTICLE").

(** Lines 72-120 and 182-221: the sections of the document. *)
Definition sections_of (cdata_step : bool) (root : ET.Element)
  : outcome (list section_data) :=
  collect (fun section =>
    articles <- articles_of cdata_step section ;;
    let section_data := mkSection (ET.get section "title" "") articles in
    Ret (if negb (Nat.eqb (List.length (sec_articles section_data)) 0)
         then [section_data] else []))
    (ET.findall root "SECTION").

(** Lines 60-126 and 170-227: the result built from a parsed tree. *)
Definition tree_result (cdata_step : bool) (root : ET.Element) : outcome parsed_doc :=
  sections <- sections_of cdata_step root ;;
  let result :=
    mkDoc (ET.get root "title" "") (ET.get root "type" "")
          (Some sections) None None None in
  Ret (set_text (extract_text_from_parsed_doc result) result).

(** Lines 324-330: the sentences of more than ten characters in the
    character stream without its tags. *)
Definition meaningful_sentences (xml_string : string) : outcome (list string) :=
  let plain_text := Re.sub (Re.any_tag false) (const " ") xml_string in
  plain_text <- unescape plain_text ;;
  let plain_text := Py.strip (Re.sub Re.whitespace (const " ") plain_text) in
  let sentences := Re.split Re.sentence_end plain_text in
  Ret (flat_map (fun s =>
         if 10 <? Py.py_len (Py.strip s) then [Py.strip s ++ "."] else [])
         sentences).

(** Lines 332-335: the text of the plain-text fallback. *)
Definition plain_text_fallback (doc_title xml_string : string) : outcome string :=
  sentences <- meaningful_sentences xml_string ;;
  Ret (match sentences with
       | _ :: _ =>
           title_header doc_title ++ LF ++ LF
             ++ Py.join (LF ++ "- ") ("" :: sentences)
       | [] => title_header doc_title ++ LF ++ LF ++ "- 텍스트 추출 실패"
       end).

(** Lines 268-337: the body of the [try] of [extract_text_from_broken_xml]. *)
Definition salvage (xml_string : string) : outcome parsed_doc :=
  let xml_string := strip_cdata_markers xml_string in
  let xml_string := unwrap_sub_sup xml_string in
  let xml_string := Re.sub Re.br_tag (const " ") xml_string in
  let doc_title :=
    match Re.search Re.title_attr xml_string with
    | Some t => t
    | None => "제목 없음"
    end in
  let article_titles := Re.findall Re.article_title xml_string in
  let paragraph_contents := Re.findall Re.paragraph xml_string in
  let title_lines :=
    flat_map (fun title =>
      if Py.truthy (Py.strip title) then [LF ++ "■ " ++ title] else [])
      article_titles in
  paragraph_lines <-
    collect (fun content =>
      content <- clean_text content ;;
      Ret (if Py.truthy content then ["- " ++ content] else []))
      paragraph_contents ;;
  let text_parts := app [title_header doc_title] (app title_lines paragraph_lines) in
  let text := Py.join LF text_parts in
  text <- (if String.eqb text (title_header doc_title)
           then plain_text_fallback doc_title xml_string
           else Ret text) ;;
  Ret (mkDoc doc_title "text_extraction" None (Some text) None None).

(** Lines 344-352: the [try] in the handler of
    [extract_text_from_broken_xml]. *)
Definition raw_text_result (original_xml : string) : outcome parsed_doc :=
  let text := Re.sub (Re.any_tag false) (const " ") original_xml in
  text <- unescape text ;;
  let text := Py.strip (Re.sub Re.whitespace (const " ") text) in
  Ret (mkDoc "텍스트 추출" "raw_text" None (Some text) None None).

(** Lines 354-358. *)
Definition extraction_failed_result : parsed_doc :=
  mkDoc "추출 실패" "error" None (Some "텍스트 추출에 실패했습니다.") None None.

Definition extract_text_from_broken_xml (xml_string : string) : outcome parsed_doc :=
  let original_xml := xml_string in
  try_except
    (salvage xml_string)
    (fun _ =>
       try_except
         (raw_text_result original_xml)
         (fun _ => Ret extraction_failed_result)).

Definition handle_complex_xml_parsing (xml_string : string) : outcome parsed_doc :=
  let xml_string := tag_repair xml_string in
  try_except
    (try_except_ParseError
       (root <- fromstring xml_string ;;
        tree_result false root)
       (fun _ => extract_text_from_broken_xml xml_string))
    (fun _ => extract_text_from_broken_xml xml_string).

(** Lines 135-141: the result of the outermost handler. *)
Definition fault_result (e : exn) (xml_string : string) : parsed_doc :=
  mkDoc "처리 오류" "error" None
        (Some ("처리 오류: " ++ str e))
        (Some (str e))
        (Some (Py.py_take 500 xml_string
               ++ (if 500 <? Py.py_len xml_string then "..." else ""))).

(** [None] is Python's [None]. *)
Definition parse_xml_doc (xml_string : string) : outcome (option parsed_doc) :=
  if negb (Py.truthy xml_string) then Ret None
  else
    let xml_string := sanitize xml_string in
    try_except
      (try_except_ParseError
         (root <- fromstring xml_string ;;
          result <- tree_result true root ;;
          Ret (Some result))
         (fun _ =>
            r <- handle_complex_xml_parsing xml_string ;;
            Ret (Some r)))
      (fun e => Ret (Some (fault_result e xml_string))).

(** Lines 498-519 of [fetch_drug_approval_data] for one document field:
    the value of the record ([None] when the key is absent), and what is
    stored under the [_PARSED] key ([None] when nothing is stored). *)
Definition parsed_field (item_value : option string)
  : outcome (option (option parsed_doc)) :=
  let value := match item_value with Some v => v | None => "" end in
  if Py.truthy value
  then
    try_except
      (parsed_doc <- parse_xml_doc value ;; Ret (Some parsed_doc))
      (fun _ => r <- extract_text_from_broken_xml value ;; Ret (Some (Some r)))
  else Ret None.

(** *** The tiers by name *)

(** The first parse and the tree built from it. *)
Definition first_tier (s : string) : outcome parsed_doc :=
  root <- fromstring (sanitize s) ;; tree_result true root.

(** The parse of the repaired text and the tree built from it. *)
Definition second_tier (s : string) : outcome parsed_doc :=
  root <- fromstring (tag_repair (sanitize s)) ;; tree_result false root.

(** What [extract_text_from_broken_xml] returns. *)
Definition broken_xml_result (x : string) : parsed_doc :=
  match salvage x with
  | Ret d => d
  | Raise _ =>
      match raw_text_result x with
      | Ret d => d
      | Raise _ => extraction_failed_result
      end
  end.

(** What [parse_xml_doc] returns for a string that is not empty. *)
Definition pipeline_result (s : string) : parsed_doc :=
  match first_tier s with
  | Ret d => d
  | Raise (ParseError _) =>
      match second_tier s with
      | Ret d => d
      | Raise _ => broken_xml_result (tag_repair (sanitize s))
      end
  | Raise (Fault m) => fault_result (Fault m) (sanitize s)
  end.

End Pipeline.

(* ------------------------------------------------------------------ *)
(** ** A reference model of [ET.fromstring]

    The model reads documents made of one root element with start tags,
    end tags, empty-element tags, attributes in single or double quotes,
    character data, CDATA sections, the five predefined entities and
    numeric character references below 128.  It reports [ParseError] for
    a text that is not well-formed within this fragment (a bare [&], an
    unclosed or mismatched tag, text outside the root, a repeated
    attribute) and also for what it does not cover (comments, processing
    instructions, declarations, references to other characters).  As the
    library does, it builds the tree from the events of a tokenizer: text
    before the first child is the [text] of an element, text after an end
    tag the [tail] of the element that ended. *)

Module XmlModel.
Import Py Re Exc.

Definition squote : ascii := ascii_of_nat 39.

Definition name_start (c : ascii) : bool :=
  is_alpha c || Ascii.eqb c "_" || Ascii.eqb c ":" || (128 <=? nat_of c).

Definition name_char (c : ascii) : bool :=
  name_start c || is_digit c || Ascii.eqb c "-" || Ascii.eqb c ".".

Definition xml_space (c : ascii) : bool :=
  let n := nat_of c in (n =? 32) || (n =? 9) || (n =? 10) || (n =? 13).

Definition skip_space (s : string) : string :=
  drop (String.length (span xml_space s)) s.

Definition parse_name (s : string) : option string :=
  match s with
  | String c _ => if name_start c then Some (span name_char s) else None
  | EmptyString => None
  end.

Definition digit_value (c : ascii) : nat :=
  let n := nat_of c in
  if is_digit c then n - 48
  else if (97 <=? n) then n - 87 else n - 55.

Fixpoint number_of (base : nat) (s : string) (acc : nat) : nat :=
  match s with
  | EmptyString => acc
  | String c s' => number_of base s' (acc * base + digit_value c)
  end.

(** The value of a run of digits; [None] when, without its leading
    zeros, the run has more than seven digits (no character has such a
    number). *)
Definition bounded_number (base : nat) (digits : string) : option nat :=
  let significant := drop (String.length (span (Ascii.eqb "0") digits)) digits in
  if 7 <? String.length significant then None
  else Some (number_of base significant 0).

Definition xml_char (n : nat) : bool :=
  (n =? 9) || (n =? 10) || (n =? 13) || ((32 <=? n) && (n <? 128)).

Definition char_of_number (base : nat) (digits : string) : option string :=
  match bounded_number base digits with
  | Some n => if xml_char n then Some (String (ascii_of_nat n) EmptyString) else None
  | None => None
  end.

(** The text after an ampersand: the character referred to and the
    length of the reference. *)
Definition reference (s : string) : option (string * nat) :=
  if prefix "amp;" s then Some ("&", 4)
  else if prefix "lt;" s then Some ("<", 3)
  else if prefix "gt;" s then Some (">", 3)
  else if prefix "apos;" s then Some (String squote EmptyString, 5)
  else if prefix "quot;" s then Some (String dquote EmptyString, 5)
  else match s with
       | String "#" (String "x" s2) =>
           let run := span is_hex s2 in
           if negb (is_empty run) && prefix ";" (drop (String.length run) s2)
           then option_map (fun t => (t, String.length run + 3))
                           (char_of_number 16 run)
           else None
       | String "#" s1 =>
           let run := span is_digit s1 in
           if negb (is_empty run) && prefix ";" (drop (String.length run) s1)
           then option_map (fun t => (t, String.length run + 2))
                           (char_of_number 10 run)
           else None
       | _ => None
       end.

Definition cons_fst (t : string) (r : option (string * string)) : option (string * string) :=
  match r with
  | Some (v, rest) => Some (t ++ v, rest)
  | None => None
  end.

(** An attribute value up to the closing quote [q]: the value, with its
    references replaced and its white space normalised, and the text
    after the quote. *)
Fixpoint attr_value (q : ascii) (s : string) (skip : nat) : option (string * string) :=
  match s with
  | EmptyString => None
  | String c s' =>
      match skip with
      | S k => attr_value q s' k
      | O =>
          if Ascii.eqb c q then Some (EmptyString, s')
          else if Ascii.eqb c "<" then None
          else if Ascii.eqb c "&" then
            match reference s' with
            | Some (t, n) => cons_fst t (attr_value q s' n)
            | None => None
            end
          else cons_fst (String (if xml_space c then " "%char else c) EmptyString)
                        (attr_value q s' 0)
      end
  end.

(** The attributes of a tag, from the character after its name: the
    attributes, whether the tag is an empty-element tag, and the text
    after the tag. *)
Fixpoint attributes (fuel : nat) (s : string) (acc : list (string * string))
  : option (list (string * string) * bool * string) :=
  match fuel with
  | O => None
  | S fuel' =>
      let s1 := skip_space s in
      match s1 with
      | String ">" rest => Some (rev acc, false, rest)
      | String "/" (String ">" rest) => Some (rev acc, true, rest)
      | _ =>
          if String.length s1 =? String.length s then None
          else match parse_name s1 with
               | None => None
               | Some name =>
                   match skip_space (drop (String.length name) s1) with
                   | String "=" s3 =>
                       match skip_space s3 with
                       | String q s5 =>
                           if Ascii.eqb q dquote || Ascii.eqb q squote then
                             match attr_value q s5 0 with
                             | Some (v, rest) =>
                                 match ET.lookup name acc with
                                 | Some _ => None
                                 | None => attributes fuel' rest ((name, v) :: acc)
                                 end
                             | None => None
                             end
                           else None
                       | EmptyString => None
                       end
                   | _ => None
                   end
               end
      end
  end.

Inductive token : Type :=
| TStart (name : string) (attrs : list (string * string))
| TEmpty (name : string) (attrs : list (string * string))
| TEnd (name : string)
| TText (data : string) (from_markup : bool).

(** The token at the start of [s] and its length. *)
Definition token_at (s : string) : option (token * nat) :=
  match s with
  | EmptyString => None
  | String c s' =>
      if Ascii.eqb c "<" then
        if prefix "![CDATA[" s' then
          match lazy_until "]]>" true (drop 8 s') with
          | Some inner => Some (TText inner true, String.length inner + 12)
          | None => None
          end
        else match s' with
             | String "/" s2 =>
                 match parse_name s2 with
                 | Some name =>
                     match skip_space (drop (String.length name) s2) with
                     | String ">" rest =>
                         Some (TEnd name, String.length s - String.length rest)
                     | _ => None
                     end
                 | None => None
                 end
             | _ =>
                 match parse_name s' with
                 | Some name =>
                     match attributes (S (String.length s'))
                                      (drop (String.length name) s') [] with
                     | Some (attrs, true, rest) =>
                         Some (TEmpty name attrs, String.length s - String.length rest)
                     | Some (attrs, false, rest) =>
                         Some (TStart name attrs, String.length s - String.length rest)
                     | None => None
                     end
                 | None => None
                 end
             end
      else if Ascii.eqb c "&" then
        match reference s' with
        | Some (t, n) => Some (TText t true, S n)
        | None => None
        end
      else if prefix "]]>" s then None
      else if Ascii.eqb c (ascii_of_nat 13) then
        (* a line end is passed on as one line feed *)
        if prefix LF s' then Some (TText LF false, 2) else Some (TText LF false, 1)
      else Some (TText (String c EmptyString) false, 1)
  end.

Fixpoint tokens (s : string) (skip : nat) : option (list token) :=
  match s with
  | EmptyString => Some []
  | String _ s' =>
      match skip with
      | S k => tokens s' k
      | O =>
          match token_at s with
          | Some (t, n) => option_map (cons t) (tokens s' (pred n))
          | None => None
          end
      end
  end.

(** An element under construction: tag, attributes, text so far, and the
    children so far, last one first. *)
Record frame : Type := mkFrame {
  f_tag : string;
  f_attrib : list (string * string);
  f_text : option string;
  f_children : list ET.Element
}.

Definition add_data (o : option string) (t : string) : option string :=
  Some (match o with Some x => x | None => "" end ++ t).

Definition add_text (t : string) (f : frame) : frame :=
  match f_children f with
  | [] => mkFrame (f_tag f) (f_attrib f) (add_data (f_text f) t) []
  | ET.mkElement n a x c tl :: older =>
      mkFrame (f_tag f) (f_attrib f) (f_text f)
              (ET.mkElement n a x c (add_data tl t) :: older)
  end.

Definition close_frame (f : frame) : ET.Element :=
  ET.mkElement (f_tag f) (f_attrib f) (f_text f) (rev (f_children f)) None.

Definition add_child (e : ET.Element) (f : frame) : frame :=
  mkFrame (f_tag f) (f_attrib f) (f_text f) (e :: f_children f).

Fixpoint all_space (s : string) : bool :=
  match s with
  | EmptyString => true
  | String c s' => xml_space c && all_space s'
  end.

(** The tree builder: the stack of open elements and the root once it is
    closed. *)
Fixpoint build (ts : list token) (stack : list frame) (root : option ET.Element)
  : option ET.Element :=
  match ts with
  | [] => match stack with [] => root | _ :: _ => None end
  | t :: ts' =>
      let finish (e : ET.Element) (outer : list frame) :=
        match outer with
        | [] => build ts' [] (Some e)
        | parent :: up => build ts' (add_child e parent :: up) root
        end in
      match t, stack with
      | TText d m, [] => if negb m && all_space d then build ts' [] root else None
      | TText d _, f :: up => build ts' (add_text d f :: up) root
      | TStart n a, [] =>
          match root with
          | Some _ => None
          | None => build ts' [mkFrame n a None []] root
          end
      | TStart n a, _ :: _ => build ts' (mkFrame n a None [] :: stack) root
      | TEmpty n a, [] =>
          match root with
          | Some _ => None
          | None => finish (close_frame (mkFrame n a None [])) []
          end
      | TEmpty n a, _ :: _ => finish (close_frame (mkFrame n a None [])) stack
      | TEnd n, [] => None
      | TEnd n, f :: up =>
          if String.eqb (f_tag f) n then finish (close_frame f) up else None
      end
  end.

Definition fromstring (s : string) : outcome ET.Element :=
  match tokens s 0 with
  | Some ts =>
      match build ts [] None with
      | Some root => Ret root
      | None => Raise (ParseError "not well-formed")
      end
  | None => Raise (ParseError "not well-formed")
  end.

End XmlModel.

(* ------------------------------------------------------------------ *)
(** ** A reference model of [html.unescape]

    The scan of the library ([&], then a decimal or hexadecimal number or a
    name of up to 32 characters, then an optional semicolon) with a short
    table of names: [amp], [lt], [gt], [quot] with or without the
    semicolon, and [apos;].  A name outside the table is kept as it is,
    which is what the library does for an unknown name.  A number is
    replaced when it is a printable ASCII character, a tab or a line feed;
    the other numbers are outside the model, which keeps them as they are.
    A decimal number of more than 4300 digits makes [int] raise
    [ValueError] (CPython 3.11 and later), and with it the decoder. *)

Module HtmlModel.
Import Py Re Exc.

Definition table : list (string * string) :=
  [ ("amp;", "&"); ("amp", "&"); ("lt;", "<"); ("lt", "<");
    ("gt;", ">"); ("gt", ">");
    ("quot;", String dquote EmptyString); ("quot", String dquote EmptyString);
    ("apos;", String XmlModel.squote EmptyString) ].

Definition name_class (c : ascii) : bool :=
  let n := nat_of c in
  negb ((n =? 9) || (n =? 10) || (n =? 12) || (n =? 32)
        || Ascii.eqb c "<" || Ascii.eqb c "&" || Ascii.eqb c "#" || Ascii.eqb c ";").

Fixpoint span_upto (limit : nat) (cls : ascii -> bool) (s : string) : string :=
  match limit, s with
  | S k, String c s' => if cls c then String c (span_upto k cls s') else EmptyString
  | _, _ => EmptyString
  end.

Fixpoint take (n : nat) (s : string) : string :=
  match n, s with
  | S k, String c s' => String c (take k s')
  | _, _ => EmptyString
  end.

(** The longest proper prefix of [g], of two characters or more, that is
    in the table: its value followed by the rest of [g]. *)
Fixpoint longest_prefix (x : nat) (g : string) : option string :=
  match x with
  | S (S _ as x') =>
      if x <? String.length g then
        match ET.lookup (take x g) table with
        | Some v => Some (v ++ drop x g)
        | None => longest_prefix x' g
        end
      else longest_prefix x' g
  | _ => None
  end.

Definition replace_name (g : string) : string :=
  match ET.lookup g table with
  | Some v => v
  | None =>
      match longest_prefix (String.length g) g with
      | Some r => r
      | None => "&" ++ g
      end
  end.

Definition printable (n : nat) : bool :=
  (n =? 9) || (n =? 10) || ((32 <=? n) && (n <? 127)).

Definition replace_number (base : nat) (digits whole : string) : string :=
  match XmlModel.bounded_number base digits with
  | Some n => if printable n then String (ascii_of_nat n) EmptyString else "&" ++ whole
  | None => "&" ++ whole
  end.

Definition int_limit_message (digits : nat) : string :=
  "Exceeds the limit (4300 digits) for integer string conversion: value has "
  ++ NilEmpty.string_of_uint (Nat.to_uint digits)
  ++ " digits; use sys.set_int_max_str_digits() to increase the limit".

(** The replacement of one reference, given the text after its [&]. *)
Definition replace_charref (g : string) : outcome string :=
  match g with
  | String "#" rest =>
      if prefix "x" rest || prefix "X" rest then
        Ret (replace_number 16 (span is_hex (drop 1 rest)) g)
      else
        let digits := span is_digit rest in
        if 4300 <? String.length digits
        then Raise (Fault (int_limit_message (String.length digits)))
        else Ret (replace_number 10 digits g)
  | _ => Ret (replace_name g)
  end.

Definition with_semicolon (body rest : string) : string :=
  if prefix ";" rest then body ++ ";" else body.

(** One character reference: the text after its [&], and its length. *)
Definition charref : matcher :=
  fun s =>
    match s with
    | String "&" s1 =>
        let numeric (cls : ascii -> bool) (lead s2 : string) :=
          match span cls s2 with
          | EmptyString => None
          | run =>
              let whole := with_semicolon (lead ++ run) (drop (String.length run) s2) in
              Some (whole, S (String.length whole))
          end in
        match s1 with
        | String "#" (String x s3 as s2) =>
            if Ascii.eqb x "x" || Ascii.eqb x "X"
            then numeric is_hex (String "#" (String x EmptyString)) s3
            else numeric is_digit "#" s2
        | String "#" EmptyString => None
        | _ =>
            match span_upto 32 name_class s1 with
            | EmptyString => None
            | run =>
                let whole := with_semicolon run (drop (String.length run) s1) in
                Some (whole, S (String.length whole))
            end
        end
    | _ => None
    end.

(** [re.sub] with a replacement function that can raise. *)
Fixpoint replace_all (ps : list piece) : outcome string :=
  match ps with
  | [] => Ret EmptyString
  | Lit c :: ps' => bind (replace_all ps') (fun r => Ret (String c r))
  | Hit g :: ps' =>
      bind (replace_charref g) (fun t =>
      bind (replace_all ps') (fun r => Ret (t ++ r)))
  end.

Definition unescape (s : string) : outcome string := replace_all (Re.scan charref s).

End HtmlModel.

(** The pipeline over the two reference models. *)
Module Ref.
Definition parse_xml_doc := parse_xml_doc XmlModel.fromstring HtmlModel.unescape.
Definition first_tier := first_tier XmlModel.fromstring HtmlModel.unescape.
Definition second_tier := second_tier XmlModel.fromstring HtmlModel.unescape.
Definition handle_complex_xml_parsing :=
  handle_complex_xml_parsing XmlModel.fromstring HtmlModel.unescape.
Definition extract_text_from_broken_xml :=
  extract_text_from_broken_xml HtmlModel.unescape.
Definition parsed_field := parsed_field XmlModel.fromstring HtmlModel.unescape.
End Ref.

(* ------------------------------------------------------------------ *)
(** ** Documents used in the examples *)

Definition Q : string := String Re.dquote EmptyString.

(** The document of the scenario with a bare ampersand in a paragraph. *)
Definition ampersand_doc : string :=
  "<DOC title=" ++ Q ++ "T" ++ Q ++ "><SECTION><ARTICLE title=" ++ Q ++ "A" ++ Q
  ++ "><PARAGRAPH>hello & world</PARAGRAPH></ARTICLE></SECTION></DOC>".

(** The same document after the ampersand has been escaped. *)
Definition ampersand_doc_escaped : string :=
  "<DOC title=" ++ Q ++ "T" ++ Q ++ "><SECTION><ARTICLE title=" ++ Q ++ "A" ++ Q
  ++ "><PARAGRAPH>hello &amp; world</PARAGRAPH></ARTICLE></SECTION></DOC>".

(** A document cut off inside a paragraph: four tags are open at its end. *)
Definition truncated_doc : string :=
  "<DOC title=" ++ Q ++ "T" ++ Q ++ "><SECTION><ARTICLE title=" ++ Q ++ "B" ++ Q
  ++ "><PARAGRAPH>some text".

(** A document whose end tags are in the wrong order. *)
Definition mismatched_doc : string :=
  "<DOC><SECTION><ARTICLE title=" ++ Q ++ "C" ++ Q
  ++ "><PARAGRAPH>note</PARAGRAPH></SECTION></ARTICLE></DOC>".

(** A document with an article that has neither a title nor a paragraph
    with content, a second article, and a section without articles. *)
Definition blank_article : ET.Element :=
  ET.mkElement "ARTICLE" [("title", "")] None
    [ET.mkElement "PARAGRAPH" [] (Some "  ") [] None] None.

Definition kept_article : ET.Element :=
  ET.mkElement "ARTICLE" [("title", "A")] None
    [ET.mkElement "PARAGRAPH" [] (Some "p") [] None] None.

Definition dropping_doc : string :=
  "<DOC title='T'><SECTION title='S'><ARTICLE title=''><PARAGRAPH>  </PARAGRAPH></ARTICLE><ARTICLE title='A'><PARAGRAPH>p</PARAGRAPH></ARTICLE></SECTION><SECTION/></DOC>".

(** A document with a wrapper and a bare ampersand in a CDATA block. *)
Definition cdata_doc : string :=
  "<DOC><PARAGRAPH><![CDATA[H<sub>2</sub>O & salt &lt; 5]]></PARAGRAPH></DOC>".

Fixpoint ones (n : nat) : string :=
  match n with
  | O => EmptyString
  | S k => String "1" (ones k)
  end.

(** A decimal reference of 4301 digits, which the decoder cannot read. *)
Definition long_reference : string := "&#" ++ ones 4301 ++ ";".

(** A well-formed document with that reference in a paragraph. *)
Definition long_reference_doc : string :=
  "<DOC><SECTION><ARTICLE title='A'><PARAGRAPH><![CDATA[" ++ long_reference
  ++ "]]></PARAGRAPH></ARTICLE></SECTION></DOC>".

(** A document that is not well-formed (a bare ampersand) and has that
    reference behind an escaped ampersand: the reference appears only in
    the text of the tree built from the repaired string. *)
Definition absorbed_fault_doc : string :=
  "<DOC title='T'><SECTION><ARTICLE title='A'><PARAGRAPH>a & b &amp;#"
  ++ ones 4301 ++ ";</PARAGRAPH></ARTICLE></SECTION></DOC>".

(** The paragraph alone. *)
Definition long_reference_paragraph : string :=
  "<PARAGRAPH>" ++ long_reference ++ "</PARAGRAPH>".

(** The same paragraph in a document whose root is not closed. *)
Definition long_reference_broken_doc : string :=
  "<DOC><PARAGRAPH><![CDATA[" ++ long_reference ++ "]]></PARAGRAPH>".

(** Here the digits are in one piece only once the tag between them is
    removed. *)
Definition split_reference_text : string :=
  "<PARAGRAPH>&#1<b>" ++ ones 4300 ++ ";</b></PARAGRAPH>".

(** The value a call returned, when it returned. *)
Definition returned {A : Type} (r : Exc.outcome (option A)) : option A :=
  match r with Exc.Ret (Some a) => Some a | _ => None end.



(** The invariants of the retained structure. *)
Definition article_ok (a : article_data) : Prop :=
  (art_title a <> "" \/ art_paragraphs a <> []) /\
  Forall (fun p => p <> "") (art_paragraphs a).

Definition section_ok (s : section_data) : Prop :=
  sec_articles s <> [] /\ Forall article_ok (sec_articles s).

(* ------------------------------------------------------------------ *)
(** ** Records: the item loop of [fetch_drug_approval_data] and the pure
    part of [process_and_save_data]

    A value of the feed is a JSON string or [null].  An item of a response
    is a dictionary of such values.  A record made by the item loop holds
    the twelve required fields and, beside them, the parsed documents.
    Requests, retries, files and [print] are not modelled. *)

Module Feed.

Inductive jval : Type :=
| JNull
| JStr (s : string).

Definition jval_eqb (a b : jval) : bool :=
  match a, b with
  | JNull, JNull => true
  | JStr x, JStr y => String.eqb x y
  | _, _ => false
  end.

(** Truthiness of a value. *)
Definition truthy (v : jval) : bool :=
  match v with
  | JNull => false
  | JStr s => Py.truthy s
  end.

(** [d.get(key)]: [None] when the key is missing. *)
Fixpoint get {V : Type} (key : string) (d : list (string * V)) : option V :=
  match d with
  | [] => None
  | (k, v) :: rest => if String.eqb k key then Some v else get key rest
  end.

(** [d.get(key, default)]. *)
Definition get_or {V : Type} (key : string) (default : V) (d : list (string * V)) : V :=
  match get key d with
  | Some v => v
  | None => default
  end.

(** [d[key] = v]: the binding is replaced where it is, or added at the
    end. *)
Fixpoint set {V : Type} (key : string) (v : V) (d : list (string * V))
  : list (string * V) :=
  match d with
  | [] => [(key, v)]
  | (k, w) :: rest =>
      if String.eqb k key then (k, v) :: rest else (k, w) :: set key v rest
  end.

(** [x in seen]. *)
Definition mem (x : jval) (seen : list jval) : bool := existsb (jval_eqb x) seen.

(** Lines 27-30. *)
Definition REQUIRED_FIELDS : list string :=
  ["ITEM_SEQ"; "ITEM_NAME"; "ENTP_NAME"; "ETC_OTC_CODE"; "ETC_OTC_NAME"; "CHART";
   "EE_DOC_DATA"; "UD_DOC_DATA"; "NB_DOC_DATA"; "STORAGE_METHOD"; "VALID_TERM";
   "CANCEL_DATE"].

(** Line 506. *)
Definition DOC_FIELDS : list string := ["EE_DOC_DATA"; "UD_DOC_DATA"; "NB_DOC_DATA"].

Definition EXPORT_MARK : string := "(수출용)".

(** An item of a response. *)
Definition item : Type := list (string * jval).

(** [filtered_item]: the required fields and the [_PARSED] fields. *)
Record record : Type := mkRecord {
  rec_fields : list (string * jval);
  rec_parsed : list (string * option parsed_doc)
}.

(** The string of a value for the document pipeline; a [null] is not a
    document, like the empty string. *)
Definition document_of (v : jval) : option string :=
  match v with
  | JNull => None
  | JStr s => Some s
  end.

Definition not_iterable : Exc.exn :=
  Exc.Fault "argument of type 'NoneType' is not iterable".

Definition no_strip : Exc.exn :=
  Exc.Fault "'NoneType' object has no attribute 'strip'".

Section Records.

Import Exc.

Variable fromstring : string -> outcome ET.Element.
Variable unescape : string -> outcome string.

(** Lines 496-504: the required fields of an item, a missing one as the
    empty string, and the name of the class taken from its code when the
    name is missing. *)
Definition required_fields (it : item) : list (string * jval) :=
  let filtered_item :=
    map (fun key => (key, get_or key (JStr "") it)) REQUIRED_FIELDS in
  if truthy (get_or "ETC_OTC_CODE" JNull filtered_item)
     && negb (truthy (get_or "ETC_OTC_NAME" JNull filtered_item))
  then set "ETC_OTC_NAME" (get_or "ETC_OTC_CODE" JNull filtered_item) filtered_item
  else filtered_item.

(** Lines 506-519: the parsed documents of the three document fields. *)
Definition parsed_documents (fields : list (string * jval))
  : outcome (list (string * option parsed_doc)) :=
  collect (fun field =>
    stored <- parsed_field fromstring unescape
                (document_of (get_or field JNull fields)) ;;
    Ret (match stored with
         | Some parsed_doc => [(field ++ "_PARSED", parsed_doc)]
         | None => []
         end))
    DOC_FIELDS.

(** Lines 496-521: the record of an item that is kept. *)
Definition filtered_item_of (it : item) : outcome record :=
  let fields := required_fields it in
  parsed <- parsed_documents fields ;;
  Ret (mkRecord fields parsed).

(** The variables of the item loop. *)
Record loop_state : Type := mkLoop {
  seen_item_sequences : list jval;
  filtered_canceled_count : nat;
  filtered_export_count : nat;
  processed_items : list record;
  new_item_count : nat
}.

(** Lines 473-521: the body of the loop over the items of a page. *)
Definition item_step (st : loop_state) (it : item) : outcome loop_state :=
  let item_seq := get_or "ITEM_SEQ" (JStr "") it in
  if mem item_seq (seen_item_sequences st) then Ret st
  else if truthy (get_or "CANCEL_DATE" JNull it) then
    Ret (mkLoop (seen_item_sequences st) (S (filtered_canceled_count st))
                (filtered_export_count st) (processed_items st) (new_item_count st))
  else
    match get_or "ITEM_NAME" (JStr "") it with
    | JNull => Raise not_iterable
    | JStr item_name =>
        if Py.contains EXPORT_MARK item_name then
          Ret (mkLoop (seen_item_sequences st) (filtered_canceled_count st)
                      (S (filtered_export_count st)) (processed_items st)
                      (new_item_count st))
        else
          filtered_item <- filtered_item_of it ;;
          Ret (mkLoop (app (seen_item_sequences st) [item_seq])
                      (filtered_canceled_count st) (filtered_export_count st)
                      (app (processed_items st) [filtered_item])
                      (S (new_item_count st)))
    end.

(** Lines 470-521: the loop over the items of a page; the first exception
    ends it. *)
Fixpoint item_loop (items : list item) (st : loop_state) : outcome loop_state :=
  match items with
  | [] => Ret st
  | it :: rest => st' <- item_step st it ;; item_loop rest st'
  end.

(** The state at the start of a page: what was seen and counted so far,
    and nothing processed yet (lines 470-471). *)
Definition page_start (seen : list jval) (canceled exported : nat) : loop_state :=
  mkLoop seen canceled exported [] 0.

(** Lines 461-465: every serial number of the page has been seen. *)
Definition all_seen (items : list item) (seen : list jval) : bool :=
  forallb (fun it => mem (get_or "ITEM_SEQ" (JStr "") it) seen) items.

(** Lines 598-611 of [process_and_save_data]: the second filter. *)
Definition refilter (data : list record) : outcome (list record) :=
  collect (fun it =>
    if truthy (get_or "CANCEL_DATE" JNull (rec_fields it)) then Ret []
    else match get_or "ITEM_NAME" (JStr "") (rec_fields it) with
         | JNull => Raise not_iterable
         | JStr item_name =>
             Ret (if Py.contains EXPORT_MARK item_name then [] else [it])
         end)
    data.

(** Lines 631-651: the text of one document field of a record. *)
Definition document_text (it : record) (field : string) : outcome string :=
  match get (field ++ "_PARSED") (rec_parsed it) with
  | Some (Some parsed) =>
      Ret (match doc_text parsed with Some t => t | None => "" end)
  | _ =>
      match get field (rec_fields it) with
      | Some (JStr original) =>
          if Py.truthy original then
            try_except
              (d <- extract_text_from_broken_xml unescape original ;;
               Ret (match doc_text d with Some t => t | None => "" end))
              (fun e => Ret ("텍스트 추출 실패: " ++ Py.py_take 100 (str e)))
          else Ret ""
      | _ => Ret ""
      end
  end.

(** Lines 620-651: [text_item]. *)
Definition text_item_of (it : record) : outcome (list (string * jval)) :=
  let fields := rec_fields it in
  storage <- match get_or "STORAGE_METHOD" (JStr "") fields with
             | JStr s => Ret (JStr (Py.strip s))
             | JNull => Raise no_strip
             end ;;
  effectiveness <- document_text it "EE_DOC_DATA" ;;
  usage <- document_text it "UD_DOC_DATA" ;;
  precautions <- document_text it "NB_DOC_DATA" ;;
  Ret [ ("ITEM_SEQ", get_or "ITEM_SEQ" (JStr "") fields);
        ("ITEM_NAME", get_or "ITEM_NAME" (JStr "") fields);
        ("ENTP_NAME", get_or "ENTP_NAME" (JStr "") fields);
        ("ETC_OTC_NAME", get_or "ETC_OTC_NAME" (JStr "") fields);
        ("CHART", get_or "CHART" (JStr "") fields);
        ("STORAGE_METHOD", storage);
        ("VALID_TERM", get_or "VALID_TERM" (JStr "") fields);
        ("EFFECTIVENESS", JStr effectiveness);
        ("USAGE_DOSAGE", JStr usage);
        ("PRECAUTIONS", JStr precautions) ].

(** Lines 653-658: a text of more than ten characters in one of the three
    fields. *)
Definition has_content (text_item : list (string * jval)) : bool :=
  existsb (fun field =>
    match get field text_item with
    | Some (JStr t) => Py.truthy t && (10 <? Py.py_len t)
    | _ => false
    end)
    ["EFFECTIVENESS"; "USAGE_DOSAGE"; "PRECAUTIONS"].

(** Line 661. *)
Definition worth_keeping (text_item : list (string * jval)) : bool :=
  has_content text_item
  || (truthy (get_or "ITEM_NAME" JNull text_item)
      && truthy (get_or "ENTP_NAME" JNull text_item)).

(** Lines 617-664: [text_data]. *)
Definition text_data_of (filtered_data : list record)
  : outcome (list (list (string * jval))) :=
  collect (fun it =>
    text_item <- text_item_of it ;;
    Ret (if worth_keeping text_item then [text_item] else []))
    filtered_data.

(** Line 707: the message of a result without an [error] key. *)
Definition UNKNOWN_ERROR : string := "알 수 없는 오류".

(** Lines 702-708: the document fields of a record with a result of the
    type [error], each with the message of the result.  The source walks
    the [_PARSED] keys and removes the suffix for the report. *)
Definition error_fields_of (it : record) : list (string * string) :=
  flat_map (fun field =>
    match get (field ++ "_PARSED") (rec_parsed it) with
    | Some (Some parsed) =>
        if String.eqb (doc_type parsed) "error"
        then [(field, match doc_error parsed with
                      | Some e => e
                      | None => UNKNOWN_ERROR
                      end)]
        else []
    | _ => []
    end)
    DOC_FIELDS.

(** An entry of the error report. *)
Record error_record : Type := mkError {
  err_seq : jval;
  err_name : jval;
  err_fields : list (string * string)
}.

(** Lines 697-716: [error_records]. *)
Definition error_records_of (filtered_data : list record) : list error_record :=
  flat_map (fun it =>
    match error_fields_of it with
    | [] => []
    | (_ :: _) as error_fields =>
        [mkError (get_or "ITEM_SEQ" (JStr "") (rec_fields it))
                 (get_or "ITEM_NAME" (JStr "") (rec_fields it))
                 error_fields]
    end)
    filtered_data.

(** What the caller stores for a document field with the value [v], and
    the text that is read from it later. *)
Definition stored_document (v : jval) : option (option parsed_doc) :=
  match v with
  | JStr s =>
      if Py.truthy s then Some (Some (pipeline_result fromstring unescape s)) else None
  | JNull => None
  end.

Definition stored_text (v : jval) : string :=
  match stored_document v with
  | Some (Some d) => match doc_text d with Some t => t | None => "" end
  | _ => ""
  end.

(** [process_and_save_data] without its files: the records that are kept
    and the text items made of them. *)
Definition process_data (data : list record)
  : outcome (list record * list (list (string * jval))) :=
  filtered_data <- refilter data ;;
  text_data <- text_data_of filtered_data ;;
  Ret (filtered_data, text_data).

End Records.

(** The serial number of a record. *)
Definition rec_seq (r : record) : jval := get_or "ITEM_SEQ" (JStr "") (rec_fields r).

(** A record that neither filter removes: no cancellation date, and a
    name that is a string without the export mark. *)
Definition passes_filters (r : record) : Prop :=
  truthy (get_or "CANCEL_DATE" JNull (rec_fields r)) = false /\
  exists name,
    get_or "ITEM_NAME" (JStr "") (rec_fields r) = JStr name /\
    Py.contains EXPORT_MARK name = false.

(** Items for the examples. *)
Definition sample_item (seq name : string) : item :=
  [("ITEM_SEQ", JStr seq); ("ITEM_NAME", JStr name); ("ENTP_NAME", JStr "maker");
   ("ETC_OTC_CODE", JStr "02"); ("EE_DOC_DATA", JStr "<DOC title='T'><SECTION><ARTICLE title='use'/></SECTION></DOC>");
   ("STORAGE_METHOD", JStr " cool and dry "); ("CANCEL_DATE", JNull);
   ("EXTRA", JStr "ignored")].

(** An item with a document that says of itself that it is an error, and
    a parser that raises [ParseError] only: the reference parser with its
    other exceptions turned into [ParseError]. *)
Definition typed_error_item : item :=
  [("ITEM_SEQ", JStr "3"); ("ITEM_NAME", JStr "gamma");
   ("UD_DOC_DATA", JStr "<DOC title='T' type='error'><SECTION><ARTICLE title='dose'/></SECTION></DOC>")].

Definition parse_error_only (x : string) : Exc.outcome ET.Element :=
  match XmlModel.fromstring x with
  | Exc.Raise (Exc.Fault m) => Exc.Raise (Exc.ParseError m)
  | r => r
  end.

Definition canceled_item : item :=
  [("ITEM_SEQ", JStr "9"); ("ITEM_NAME", JStr "gone"); ("CANCEL_DATE", JStr "20200101")].

Definition export_item : item :=
  [("ITEM_SEQ", JStr "8"); ("ITEM_NAME", JStr ("pill" ++ EXPORT_MARK))].

Definition sample_page : list item :=
  [sample_item "1" "alpha"; canceled_item; sample_item "1" "alpha again";
   export_item; sample_item "2" "beta"].

End Feed.

(* ------------------------------------------------------------------ *)
(** ** Notions used to state further properties of the pipeline *)

(** Elements for the examples of the order of the walk. *)
Definition paragraph_el (text : string) : ET.Element :=
  ET.mkElement "PARAGRAPH" [] (Some text) [] None.

Definition article_el (title : string) (paragraphs : list ET.Element) : ET.Element :=
  ET.mkElement "ARTICLE" [("title", title)] None paragraphs None.

Definition section_el (title : string) (articles : list ET.Element) : ET.Element :=
  ET.mkElement "SECTION" [("title", title)] None articles None.

(** Every character of the text is an ASCII character; on such a text
    [Py.strip] removes what [str.strip] removes. *)
Fixpoint ascii_only (s : string) : bool :=
  match s with
  | EmptyString => true
  | String c rest => (nat_of_ascii c <? 128) && ascii_only rest
  end.

(** The lines [extract_text_from_parsed_doc] writes for a list of sections
    (lines 246-255). *)
Definition section_lines (sections : list section_data) : list string :=
  flat_map (fun section =>
    flat_map (fun article =>
      app (if Py.truthy (art_title article)
           then [LF ++ "■ " ++ art_title article] else [])
          (map (fun paragraph => "- " ++ paragraph) (art_paragraphs article)))
      (sec_articles section))
    sections.

(** The title line it writes (lines 242-243). *)
Definition title_lines (title : string) : list string :=
  if Py.truthy title then [title_header title] else [].

(** No [PARAGRAPH] of the tree has the text [![CDATA[] in its text. *)
Definition no_cdata_marker (root : ET.Element) : bool :=
  forallb (fun section =>
    forallb (fun article =>
      forallb (fun paragraph =>
        negb (Py.contains "![CDATA["
                (match ET.text paragraph with Some t => t | None => "" end)))
        (ET.findall article "PARAGRAPH"))
      (ET.findall section "ARTICLE"))
    (ET.findall root "SECTION").

(** The character [c] occurs in [s]. *)
Fixpoint has_char (c : ascii) (s : string) : bool :=
  match s with
  | EmptyString => false
  | String a s' => Ascii.eqb a c || has_char c s'
  end.

(** Two spaces in a row occur in [s]. *)
Fixpoint has_double_space (s : string) : bool :=
  match s with
  | EmptyString => false
  | String a s' =>
      (Ascii.eqb a " " && match s' with
                          | String b _ => Ascii.eqb b " "
                          | EmptyString => false
                          end)
      || has_double_space s'
  end.

(** [s] begins with a space. *)
Definition starts_with_space (s : string) : bool :=
  match s with
  | String b _ => Ascii.eqb b " "
  | EmptyString => false
  end.

(** What a paragraph of a result looks like after the cleaning of lines
    96-108: no carriage return, no tab, no two spaces in a row, no white
    space at either end. *)
Definition cleaned (p : string) : Prop :=
  has_char (ascii_of_nat 13) p = false /\
  has_char (ascii_of_nat 9) p = false /\
  has_double_space p = false /\
  Py.strip p = p.

(** A document with a paragraph that needs cleaning. *)
Definition messy_doc : string :=
  "<DOC><SECTION><ARTICLE><PARAGRAPH>  two   spaces" ++ TAB
  ++ "and a tab  </PARAGRAPH></ARTICLE></SECTION></DOC>".

(** Line 533 of [fetch_drug_approval_data]: the number of pages for
    [total_count] records, [(total_count + page_size - 1) // page_size]. *)
Definition estimated_pages (total_count page_size : nat) : nat :=
  (total_count + page_size - 1) / page_size.

(* ------------------------------------------------------------------ *)
(** ** Checks of the models on small inputs *)

Example fromstring_bare_ampersand :
  XmlModel.fromstring "<A>x & y</A>" = Exc.Raise (Exc.ParseError "not well-formed").
Proof. reflexivity. Qed.

Example fromstring_text_and_tail :
  XmlModel.fromstring "<A k='v'>t<B/>u &amp; <![CDATA[<&>]]>&#0065;</A> "
  = Exc.Ret (ET.mkElement "A" [("k", "v")] (Some "t")
               [ET.mkElement "B" [] None [] (Some "u & <&>A")] None).
Proof. reflexivity. Qed.

Example fromstring_unclosed :
  XmlModel.fromstring "<A><B>x</B>" = Exc.Raise (Exc.ParseError "not well-formed").
Proof. reflexivity. Qed.

Example unescape_references :
  HtmlModel.unescape "a &amp; b &lt c &#65; &foo; &ampx &#x41"
  = Exc.Ret "a & b < c A &foo; &x A".
Proof. reflexivity. Qed.

Example unescape_long_reference :
  HtmlModel.unescape long_reference
  = Exc.Raise (Exc.Fault "Exceeds the limit (4300 digits) for integer string conversion: value has 4301 digits; use sys.set_int_max_str_digits() to increase the limit").
Proof. vm_compute. reflexivity. Qed.

Example opened_tags_last_only :
  opened_tags "<A><B>x" = ["B"] /\ opened_tags "<a />" = ["a"] /\
  opened_tags "x<a>y<" = [] /\ opened_tags "<a b>c>d" = ["a"].
Proof. repeat split; reflexivity. Qed.

Example any_tag_removal :
  Re.sub (Re.any_tag true) (const "") "a<>b<x>c< >d<<y>e" = "a<>bcde".
Proof. reflexivity. Qed.

Example br_removal :
  Re.sub Re.br_tag (const " ") "a<br>b<br/>c<br />d<br/ >" = "a b c d<br/ >".
Proof. reflexivity. Qed.

Example split_sentences :
  Re.split Re.sentence_end "a. b.  c." = ["a"; "b"; "c."] /\
  Re.split Re.sentence_end "" = [""].
Proof. split; reflexivity. Qed.

Example plain_prose :
  option_map doc_text
    (returned (Ref.parse_xml_doc "This is plain prose. It has two sentences here! ok?"))
  = Some (Some ("【제목 없음】" ++ LF ++ LF ++ LF ++ "- This is plain prose." ++ LF
                ++ "- It has two sentences here.")).
Proof. vm_compute. reflexivity. Qed.

Example long_reference_tiers :
  option_map doc_type (returned (Ref.parse_xml_doc long_reference_doc)) = Some "error" /\
  returned (Ref.parse_xml_doc long_reference_broken_doc)
  = Some (mkDoc "추출 실패" "error" None (Some "텍스트 추출에 실패했습니다.") None None) /\
  match Ref.extract_text_from_broken_xml split_reference_text with
  | Exc.Ret d => doc_type d
  | Exc.Raise _ => ""
  end = "raw_text".
Proof. repeat split; vm_compute; reflexivity. Qed.

(* ------------------------------------------------------------------ *)
(** ** The control flow of [parse_xml_doc] *)

Import Exc.

Section Flow.

Variable fromstring : string -> outcome ET.Element.
Variable unescape : string -> outcome string.

Lemma truthy_nonempty (s : string) : s <> "" -> Py.truthy s = true.
Proof. destruct s; [congruence | reflexivity]. Qed.

Lemma bind_ret {A : Type} (m : outcome A) : bind m (fun a => Ret a) = m.
Proof. destruct m; reflexivity. Qed.

Lemma extract_text_from_broken_xml_returns (x : string) :
  extract_text_from_broken_xml unescape x = Ret (broken_xml_result unescape x).
Proof.
  unfold extract_text_from_broken_xml, broken_xml_result.
  destruct (salvage unescape x) as [d | e]; [reflexivity |].
  destruct (raw_text_result unescape x) as [d | e']; reflexivity.
Qed.

Lemma handle_complex_xml_parsing_returns (x : string) :
  handle_complex_xml_parsing fromstring unescape x
  = Ret (match (root <- fromstring (tag_repair x) ;; tree_result unescape false root) with
         | Ret d => d
         | Raise _ => broken_xml_result unescape (tag_repair x)
         end).
Proof.
  unfold handle_complex_xml_parsing. cbv zeta.
  destruct (root <- fromstring (tag_repair x) ;; tree_result unescape false root)
    as [d | [m | m]]; cbn [try_except try_except_ParseError];
    rewrite ?extract_text_from_broken_xml_returns; reflexivity.
Qed.

(** On a non-empty string the pipeline returns the result of the earliest
    tier that succeeds. *)
Lemma parse_xml_doc_nonempty (s : string) :
  s <> "" ->
  parse_xml_doc fromstring unescape s
  = Ret (Some (pipeline_result fromstring unescape s)).
Proof.
  intros Hs. unfold parse_xml_doc, pipeline_result, first_tier, second_tier.
  rewrite (truthy_nonempty s Hs). cbn [negb]. cbv zeta.
  destruct (fromstring (sanitize s)) as [root | e]; cbn [bind].
  - destruct (tree_result unescape true root) as [d | [m | m]];
      cbn [bind try_except try_except_ParseError]; try reflexivity.
    rewrite handle_complex_xml_parsing_returns. reflexivity.
  - destruct e as [m | m]; cbn [bind try_except try_except_ParseError];
      [| reflexivity].
    rewrite handle_complex_xml_parsing_returns. reflexivity.
Qed.

End Flow.

(* ------------------------------------------------------------------ *)
(** ** Empty input *)

(** C9. For the empty string [parse_xml_doc] returns [None] whatever the
    parser and the decoder are, so no tier takes part in the result; for a
    record whose field is absent or empty the caller does not call the
    pipeline and stores nothing.  The result is neither a document nor an
    error result. *)
Theorem empty_input_short_circuits :
  forall (fromstring : string -> outcome ET.Element)
         (unescape : string -> outcome string),
    parse_xml_doc fromstring unescape "" = Ret None /\
    parsed_field fromstring unescape None = Ret None /\
    parsed_field fromstring unescape (Some "") = Ret None.
Proof. intros. repeat split. Qed.

(* ------------------------------------------------------------------ *)
(** ** No exception leaves the pipeline *)

(** The type and the fields of the results of the regex salvage and of
    the raw text. *)
Lemma salvage_type (unescape : string -> outcome string) (x : string) (d : parsed_doc) :
  salvage unescape x = Ret d ->
  doc_type d = "text_extraction" /\ doc_sections d = None /\
  doc_error d = None /\ doc_raw d = None.
Proof.
  unfold salvage. cbv zeta.
  destruct (collect _ _) as [ls | e]; [| discriminate]. cbn [bind].
  match goal with |- context [if ?c then _ else _] => destruct c end.
  - destruct (plain_text_fallback unescape _ _) as [t | e]; [| discriminate].
    cbn [bind]. intros H. injection H as <-. repeat split.
  - cbn [bind]. intros H. injection H as <-. repeat split.
Qed.

Lemma raw_text_type (unescape : string -> outcome string) (x : string) (d : parsed_doc) :
  raw_text_result unescape x = Ret d ->
  doc_type d = "raw_text" /\ doc_sections d = None /\
  doc_error d = None /\ doc_raw d = None.
Proof.
  unfold raw_text_result. cbv zeta.
  destruct (unescape _) as [t | e]; [| discriminate].
  cbn [bind]. intros H. injection H as <-. repeat split.
Qed.

(** C2, the claim as it stands fails: a fault need not end in a result of
    the type [error].  In this document the first parse fails with
    [ParseError] on the bare ampersand; the repaired text parses, and the
    decoder raises on the long reference in the text of the paragraph;
    the handler of lines 233-235 hands the repaired text to the regex
    salvage, where the decoder reads [&amp;] and stops before the digits.
    The result has the type [text_extraction] and no trace of the
    fault. *)
Lemma second_tier_fault_is_absorbed :
  (exists m, Ref.first_tier absorbed_fault_doc = Raise (ParseError m)) /\
  Ref.second_tier absorbed_fault_doc
  = Raise (Fault (HtmlModel.int_limit_message 4301)) /\
  option_map doc_type (returned (Ref.parse_xml_doc absorbed_fault_doc))
  = Some "text_extraction" /\
  option_map doc_error (returned (Ref.parse_xml_doc absorbed_fault_doc))
  = Some None.
Proof.
  split; [eexists; vm_compute; reflexivity |].
  split; [vm_compute; reflexivity |].
  split; vm_compute; reflexivity.
Qed.

(** C2, amended.  For every parser, every decoder and every input string
    [parse_xml_doc] returns a value and raises nothing, whatever the
    parser and the decoder raise; so do the two recovery functions it
    calls.  (The calls of [print] in the handlers are not part of the
    model: the statement is for a [print] that does not raise.)  A fault
    gives the result of type [error] with the placeholder text only when
    it is met in the first tier: when the first tier fails with an
    exception other than [ParseError], the value is a result of type
    [error] whose text is the placeholder followed by the message of the
    exception.  When the first tier fails with [ParseError] and the
    second tier fails with any exception, the fault is absorbed: the
    value is what [extract_text_from_broken_xml] returns for the repaired
    text, without an [error] field and with the type [text_extraction],
    [raw_text] or, when both attempts of that function fail, [error] with
    the fixed placeholder text. *)
Theorem parse_xml_doc_never_raises :
  forall (fromstring : string -> outcome ET.Element)
         (unescape : string -> outcome string) (s : string),
    (exists r, parse_xml_doc fromstring unescape s = Ret r) /\
    (exists d, handle_complex_xml_parsing fromstring unescape s = Ret d) /\
    (exists d, extract_text_from_broken_xml unescape s = Ret d) /\
    (forall msg,
        s <> "" ->
        first_tier fromstring unescape s = Raise (Fault msg) ->
        exists d,
          parse_xml_doc fromstring unescape s = Ret (Some d) /\
          doc_type d = "error" /\
          doc_text d = Some ("처리 오류: " ++ msg)) /\
    (forall e1 e2,
        salvage unescape s = Raise e1 ->
        raw_text_result unescape s = Raise e2 ->
        extract_text_from_broken_xml unescape s
        = Ret (mkDoc "추출 실패" "error" None (Some "텍스트 추출에 실패했습니다.") None None)) /\
    (forall m e,
        s <> "" ->
        first_tier fromstring unescape s = Raise (ParseError m) ->
        second_tier fromstring unescape s = Raise e ->
        exists d,
          parse_xml_doc fromstring unescape s = Ret (Some d) /\
          extract_text_from_broken_xml unescape (tag_repair (sanitize s)) = Ret d /\
          doc_error d = None /\
          (doc_type d = "text_extraction" \/
           doc_type d = "raw_text" \/
           d = mkDoc "추출 실패" "error" None (Some "텍스트 추출에 실패했습니다.") None None)).
Proof.
  intros fromstring unescape s.
  split; [| split; [| split; [| split; [| split]]]].
  - destruct s as [| c s'].
    + exists None. reflexivity.
    + eexists. apply parse_xml_doc_nonempty. discriminate.
  - eexists. apply handle_complex_xml_parsing_returns.
  - eexists. apply extract_text_from_broken_xml_returns.
  - intros msg Hs Hfault.
    exists (fault_result (Fault msg) (sanitize s)).
    rewrite (parse_xml_doc_nonempty _ _ _ Hs).
    unfold pipeline_result. rewrite Hfault. repeat split.
  - intros e1 e2 Hsalvage Hraw.
    unfold extract_text_from_broken_xml. rewrite Hsalvage, Hraw. reflexivity.
  - intros m e Hs Hfirst Hsecond.
    exists (broken_xml_result unescape (tag_repair (sanitize s))).
    rewrite (parse_xml_doc_nonempty _ _ _ Hs).
    unfold pipeline_result. rewrite Hfirst, Hsecond.
    split; [reflexivity |].
    split; [apply extract_text_from_broken_xml_returns |].
    unfold broken_xml_result.
    destruct (salvage unescape (tag_repair (sanitize s))) as [d | e1] eqn:Hsalvage.
    + destruct (salvage_type _ _ _ Hsalvage) as (Htype & _ & Herror & _).
      split; [exact Herror | left; exact Htype].
    + destruct (raw_text_result unescape (tag_repair (sanitize s))) as [d | e2] eqn:Hraw.
      * destruct (raw_text_type _ _ _ Hraw) as (Htype & _ & Herror & _).
        split; [exact Herror | right; left; exact Htype].
      * split; [reflexivity | right; right; reflexivity].
Qed.

Lemma parse_xml_doc_never_raises_witness :
  (exists r, Ref.parse_xml_doc long_reference_doc = Ret r) /\
  (exists d, Ref.handle_complex_xml_parsing long_reference_doc = Ret d) /\
  (exists d, Ref.extract_text_from_broken_xml long_reference_doc = Ret d) /\
  (exists d,
    Ref.parse_xml_doc long_reference_doc = Ret (Some d) /\
    doc_type d = "error" /\
    doc_text d = Some ("처리 오류: " ++ HtmlModel.int_limit_message 4301)) /\
  Ref.extract_text_from_broken_xml long_reference_paragraph
  = Ret (mkDoc "추출 실패" "error" None (Some "텍스트 추출에 실패했습니다.") None None) /\
  (exists d,
    Ref.parse_xml_doc absorbed_fault_doc = Ret (Some d) /\
    Ref.extract_text_from_broken_xml (tag_repair (sanitize absorbed_fault_doc)) = Ret d /\
    doc_error d = None /\
    (doc_type d = "text_extraction" \/
     doc_type d = "raw_text" \/
     d = mkDoc "추출 실패" "error" None (Some "텍스트 추출에 실패했습니다.") None None)).
Proof.
  destruct (parse_xml_doc_never_raises XmlModel.fromstring HtmlModel.unescape
              long_reference_doc) as (Hret & Hcomplex & Hbroken & Hfault & _).
  split; [exact Hret |]. split; [exact Hcomplex |]. split; [exact Hbroken |].
  split; [| split].
  - apply (Hfault (HtmlModel.int_limit_message 4301)).
    + intros Hempty. vm_compute in Hempty. discriminate Hempty.
    + vm_compute. reflexivity.
  - destruct (parse_xml_doc_never_raises XmlModel.fromstring HtmlModel.unescape
                long_reference_paragraph) as (_ & _ & _ & _ & Hlast & _).
    apply (Hlast (Fault (HtmlModel.int_limit_message 4301))
                 (Fault (HtmlModel.int_limit_message 4301)));
      vm_compute; reflexivity.
  - destruct (parse_xml_doc_never_raises XmlModel.fromstring HtmlModel.unescape
                absorbed_fault_doc) as (_ & _ & _ & _ & _ & Habsorbed).
    apply (Habsorbed "not well-formed"
                     (Fault (HtmlModel.int_limit_message 4301))).
    + intros Hempty. vm_compute in Hempty. discriminate Hempty.
    + vm_compute. reflexivity.
    + vm_compute. reflexivity.
Defined.

(* ------------------------------------------------------------------ *)
(** ** The [type] of a result *)



Lemma tree_result_type (unescape : string -> outcome string) (c : bool)
    (root : ET.Element) (d : parsed_doc) :
  tree_result unescape c root = Ret d ->
  doc_type d = ET.get root "type" "" /\ doc_title d = ET.get root "title" "" /\
  exists secs, doc_sections d = Some secs.
Proof.
  unfold tree_result.
  destruct (sections_of unescape c root) as [secs | e]; [| discriminate].
  cbn [bind]. intros H. injection H as <-. repeat split. eexists. reflexivity.
Qed.



(* ------------------------------------------------------------------ *)
(** ** Results of type [error] *)

(** C8, as stated, fails.  A well-formed document whose root declares
    [type='error'] is read by the first tier: the result has the type
    [error] and neither an [error] message nor a copy of the input.  The
    same holds for the result of the last handler of
    [extract_text_from_broken_xml], which is reached when the document is
    not well-formed and the decoder raises on its text. *)
Lemma error_type_without_diagnostics :
  returned (Ref.parse_xml_doc "<DOC type='error'/>")
  = Some (mkDoc "" "error" (Some []) (Some "") None None) /\
  returned (Ref.parse_xml_doc long_reference_broken_doc)
  = Some (mkDoc "추출 실패" "error" None (Some "텍스트 추출에 실패했습니다.") None None).
Proof. split; vm_compute; reflexivity. Qed.

(** C8, amended.  When the first tier fails with an exception other than
    [ParseError], the result has the type [error], its [error] is the
    message of the exception and its [raw] is the first 500 characters of
    the sanitized input, followed by three dots when that text is longer.
    Every other result of type [error] (a tree whose root declares that
    type, or the result of the last handler of
    [extract_text_from_broken_xml]) has neither field. *)
Theorem error_result_diagnostics :
  forall (fromstring : string -> outcome ET.Element)
         (unescape : string -> outcome string) (s : string) (d : parsed_doc),
    parse_xml_doc fromstring unescape s = Ret (Some d) ->
    (forall msg,
        first_tier fromstring unescape s = Raise (Fault msg) ->
        doc_type d = "error" /\
        doc_error d = Some msg /\
        doc_raw d = Some (Py.py_take 500 (sanitize s)
                          ++ (if 500 <? Py.py_len (sanitize s) then "..." else ""))) /\
    (doc_type d = "error" ->
     (exists msg, first_tier fromstring unescape s = Raise (Fault msg)) \/
     (doc_error d = None /\ doc_raw d = None)).
Proof.
  intros fromstring unescape s d Hres.
  assert (Hs : s <> "").
  { intros ->. discriminate Hres. }
  rewrite (parse_xml_doc_nonempty _ _ _ Hs) in Hres.
  injection Hres as <-. unfold pipeline_result. split.
  - intros msg Hfault. rewrite Hfault. repeat split.
  - intros _.
    assert (Htier : forall c x d0,
               (root <- fromstring x ;; tree_result unescape c root) = Ret d0 ->
               doc_error d0 = None /\ doc_raw d0 = None).
    { intros c x d0. destruct (fromstring x) as [root | e]; cbn [bind]; [| discriminate].
      unfold tree_result.
      destruct (sections_of unescape c root) as [secs | e]; [| discriminate].
      cbn [bind]. intros H. injection H as <-. split; reflexivity. }
    destruct (first_tier fromstring unescape s) as [d | [m | m]] eqn:Hfirst.
    + right. exact (Htier _ _ _ Hfirst).
    + right.
      destruct (second_tier fromstring unescape s) as [d | e] eqn:Hsecond.
      * exact (Htier _ _ _ Hsecond).
      * unfold broken_xml_result.
        destruct (salvage unescape (tag_repair (sanitize s))) as [d | e1] eqn:Hsalv.
        -- apply salvage_type in Hsalv. split; apply Hsalv.
        -- destruct (raw_text_result unescape (tag_repair (sanitize s)))
             as [d | e2] eqn:Hraw.
           ++ apply raw_text_type in Hraw. split; apply Hraw.
           ++ split; reflexivity.
    + left. exists m. reflexivity.
Qed.

Lemma error_result_diagnostics_witness :
  exists d,
    Ref.parse_xml_doc long_reference_doc = Ret (Some d) /\
    doc_type d = "error" /\
    doc_error d = Some (HtmlModel.int_limit_message 4301) /\
    doc_raw d = Some (Py.py_take 500 (sanitize long_reference_doc) ++ "...").
Proof.
  exists (fault_result (Fault (HtmlModel.int_limit_message 4301))
                       (sanitize long_reference_doc)).
  assert (Hres : Ref.parse_xml_doc long_reference_doc
                 = Ret (Some (fault_result (Fault (HtmlModel.int_limit_message 4301))
                                           (sanitize long_reference_doc)))).
  { vm_compute. reflexivity. }
  split; [exact Hres |].
  destruct (error_result_diagnostics XmlModel.fromstring HtmlModel.unescape
              long_reference_doc _ Hres) as [Hfault _].
  destruct (Hfault (HtmlModel.int_limit_message 4301)) as (Htype & Herror & Hraw).
  { vm_compute. reflexivity. }
  split; [exact Htype |]. split; [exact Herror |].
  rewrite Hraw. vm_compute. reflexivity.
Defined.
(* ------------------------------------------------------------------ *)
(** ** The scenario with a bare ampersand *)

(** C6, as stated, fails.  The ampersand of the document is outside any
    CDATA block, so the sanitizer leaves it, the first parse fails, and
    the type of the result is the empty string. *)
Lemma ampersand_doc_fails_first_parse :
  sanitize ampersand_doc = ampersand_doc /\
  XmlModel.fromstring (sanitize ampersand_doc) = Raise (ParseError "not well-formed") /\
  option_map doc_type (returned (Ref.parse_xml_doc ampersand_doc)) = Some "" /\
  "" <> "structured".
Proof.
  split; [vm_compute; reflexivity |].
  split; [vm_compute; reflexivity |].
  split; [vm_compute; reflexivity | discriminate].
Qed.

(** C6, amended.  For the document of the scenario the sanitizer changes
    nothing and the first parse fails with [ParseError]; the tag repair
    escapes the ampersand, the second parse succeeds, and the result has
    the title [T], the empty type, one section with the article [A] and
    its paragraph, and the text of the scenario, where the ampersand is
    decoded again. *)
Theorem ampersand_doc_result :
  sanitize ampersand_doc = ampersand_doc /\
  Ref.first_tier ampersand_doc = Raise (ParseError "not well-formed") /\
  tag_repair (sanitize ampersand_doc) = ampersand_doc_escaped /\
  Ref.parse_xml_doc ampersand_doc
  = Ret (Some (mkDoc "T" ""
                 (Some [mkSection "" [mkArticle "A" ["hello & world"]]])
                 (Some ("【T】" ++ LF ++ LF ++ "■ A" ++ LF ++ "- hello & world"))
                 None None)).
Proof. repeat split; vm_compute; reflexivity. Qed.

(* ------------------------------------------------------------------ *)
(** ** The renderer *)

Lemma flat_map_through_map {A B C : Type} (f : A -> B) (g : B -> list C) (l : list A) :
  flat_map (fun x => g (f x)) l = flat_map g (map f l).
Proof.
  induction l as [| x l IH]; simpl; [reflexivity | rewrite IH; reflexivity].
Qed.

(** C10. Two document dictionaries with the same title and, section by
    section, the same articles in the same order are rendered to the same
    text, whatever the titles of their sections are. *)
Theorem render_ignores_section_titles :
  forall d1 d2 : parsed_doc,
    doc_title d1 = doc_title d2 ->
    option_map (map sec_articles) (doc_sections d1)
    = option_map (map sec_articles) (doc_sections d2) ->
    extract_text_from_parsed_doc d1 = extract_text_from_parsed_doc d2.
Proof.
  intros d1 d2 Htitle Hsecs.
  unfold extract_text_from_parsed_doc. rewrite Htitle.
  f_equal. f_equal.
  set (lines := fun articles : list article_data =>
         flat_map (fun article =>
           app (if Py.truthy (art_title article)
                then [LF ++ "■ " ++ art_title article] else [])
               (map (fun paragraph => "- " ++ paragraph) (art_paragraphs article)))
           articles).
  change (flat_map (fun section => lines (sec_articles section))
            match doc_sections d1 with Some l => l | None => [] end
          = flat_map (fun section => lines (sec_articles section))
              match doc_sections d2 with Some l => l | None => [] end).
  rewrite !(flat_map_through_map sec_articles lines).
  destruct (doc_sections d1) as [l1 |], (doc_sections d2) as [l2 |];
    simpl in Hsecs; try discriminate; [| reflexivity].
  injection Hsecs as ->. reflexivity.
Qed.

Lemma render_ignores_section_titles_witness :
  extract_text_from_parsed_doc
    (mkDoc "T" "" (Some [mkSection "first" [mkArticle "A" ["p"; "q"]];
                         mkSection "second" [mkArticle "" ["r"]]]) None None None)
  = extract_text_from_parsed_doc
      (mkDoc "T" "EE" (Some [mkSection "" [mkArticle "A" ["p"; "q"]];
                             mkSection "other" [mkArticle "" ["r"]]]) None None None).
Proof.
  apply render_ignores_section_titles; reflexivity.
Defined.


(* ------------------------------------------------------------------ *)
(** ** What is kept of the tree *)

Lemma collect_Forall {A B : Type} (P : B -> Prop) (f : A -> outcome (list B))
    (l : list A) (ys : list B) :
  (forall x r, In x l -> f x = Ret r -> Forall P r) ->
  collect f l = Ret ys -> Forall P ys.
Proof.
  revert ys. induction l as [| x l IH]; intros ys Hf; cbn [collect].
  - intros H. injection H as <-. constructor.
  - destruct (f x) as [r | e] eqn:Hx; [| discriminate]. cbn [bind].
    destruct (collect f l) as [more | e]; [| discriminate]. cbn [bind].
    intros H. injection H as <-. apply Forall_app. split.
    + apply (Hf x r); [left; reflexivity | exact Hx].
    + apply IH; [| reflexivity].
      intros y r' Hy. apply Hf. right. exact Hy.
Qed.

Lemma collect_app {A B : Type} (f : A -> outcome (list B)) (l1 l2 : list A) :
  collect f (l1 ++ l2)%list
  = (ys1 <- collect f l1 ;; ys2 <- collect f l2 ;; Ret (app ys1 ys2)).
Proof.
  induction l1 as [| x l1 IH]; cbn [app collect bind].
  - destruct (collect f l2); reflexivity.
  - destruct (f x) as [r | e]; cbn [bind]; [| reflexivity].
    rewrite IH.
    destruct (collect f l1) as [ys1 | e]; cbn [bind]; [| reflexivity].
    destruct (collect f l2) as [ys2 | e]; cbn [bind]; [| reflexivity].
    rewrite app_assoc. reflexivity.
Qed.

Lemma collect_all_nil {A B : Type} (f : A -> outcome (list B)) (l : list A) :
  (forall x, In x l -> f x = Ret []) -> collect f l = Ret [].
Proof.
  induction l as [| x l IH]; intros H; cbn [collect]; [reflexivity |].
  rewrite (H x (or_introl eq_refl)). cbn [bind].
  rewrite IH; [reflexivity |].
  intros y Hy. apply H. right. exact Hy.
Qed.

Lemma collect_skip {A B : Type} (f : A -> outcome (list B)) (x : A) (l : list A) :
  f x = Ret [] -> collect f (x :: l) = collect f l.
Proof.
  intros Hx. cbn [collect]. rewrite Hx. cbn [bind].
  destruct (collect f l); reflexivity.
Qed.

Section Dropping.

Variable unescape : string -> outcome string.

Lemma truthy_true_nonempty (s : string) : Py.truthy s = true -> s <> "".
Proof. destruct s; [discriminate | discriminate]. Qed.

Lemma truthy_false_empty (s : string) : Py.truthy s = false -> s = "".
Proof. destruct s; [reflexivity | discriminate]. Qed.

Lemma length_zero_nil {A : Type} (l : list A) :
  negb (Nat.eqb (List.length l) 0) = true -> l <> [].
Proof. destruct l; [discriminate | discriminate]. Qed.

Lemma paragraph_text_kept (cdata_step : bool) (p : ET.Element) (r : list string) :
  paragraph_text unescape cdata_step p = Ret r -> Forall (fun t => t <> "") r.
Proof.
  unfold paragraph_text. cbv zeta.
  destruct (clean_text unescape _) as [t | e]; [| discriminate]. cbn [bind].
  intros H. injection H as <-.
  destruct (Py.truthy t) eqn:Ht; constructor.
  - apply truthy_true_nonempty. exact Ht.
  - constructor.
Qed.

Lemma articles_of_kept (cdata_step : bool) (section : ET.Element)
    (articles : list article_data) :
  articles_of unescape cdata_step section = Ret articles ->
  Forall article_ok articles.
Proof.
  unfold articles_of. apply collect_Forall. intros article r _.
  destruct (collect (paragraph_text unescape cdata_step) _) as [ps | e] eqn:Hps;
    [| discriminate].
  cbn [bind art_paragraphs art_title]. intros H. injection H as <-.
  destruct (negb (Nat.eqb (List.length ps) 0) || Py.truthy (ET.get article "title" ""))
    eqn:Hkeep; constructor; [| constructor].
  split; cbn [art_paragraphs art_title].
  - apply orb_true_iff in Hkeep. destruct Hkeep as [Hne | Ht].
    + right. apply length_zero_nil. exact Hne.
    + left. apply truthy_true_nonempty. exact Ht.
  - revert Hps. apply collect_Forall. intros p r _. apply paragraph_text_kept.
Qed.

Lemma sections_of_kept (cdata_step : bool) (root : ET.Element)
    (sections : list section_data) :
  sections_of unescape cdata_step root = Ret sections ->
  Forall section_ok sections.
Proof.
  unfold sections_of. apply collect_Forall. intros section r _.
  destruct (articles_of unescape cdata_step section) as [arts | e] eqn:Harts;
    [| discriminate].
  cbn [bind sec_articles]. intros H. injection H as <-.
  destruct (negb (Nat.eqb (List.length arts) 0)) eqn:Hkeep; constructor; [| constructor].
  split; cbn [sec_articles].
  - apply length_zero_nil. exact Hkeep.
  - apply (articles_of_kept _ _ _ Harts).
Qed.

(** An [ARTICLE] without a title whose paragraphs are all empty after the
    cleaning adds nothing to the articles of its section. *)
Lemma articles_of_without_empty_article
    (cdata_step : bool) (st : string) (sa : list (string * string))
    (sx stl : option string) (apre apost : list ET.Element) (article : ET.Element) :
  ET.get article "title" "" = "" ->
  (forall p, In p (ET.findall article "PARAGRAPH") ->
             paragraph_text unescape cdata_step p = Ret []) ->
  articles_of unescape cdata_step
    (ET.mkElement st sa sx (apre ++ article :: apost) stl)
  = articles_of unescape cdata_step (ET.mkElement st sa sx (apre ++ apost) stl).
Proof.
  intros Htitle Hparas. unfold articles_of, ET.findall. cbn [ET.children].
  rewrite !filter_app, !collect_app. f_equal.
  cbn [filter]. destruct (String.eqb (ET.tag article) "ARTICLE"); [| reflexivity].
  rewrite collect_skip; [reflexivity |].
  change (filter (fun c => String.eqb (ET.tag c) "PARAGRAPH") (ET.children article))
    with (ET.findall article "PARAGRAPH").
  rewrite (collect_all_nil _ _ Hparas), Htitle. reflexivity.
Qed.

Lemma tree_result_without_empty_article
    (cdata_step : bool) (rt : string) (ra : list (string * string))
    (rx rtl : option string) (spre spost : list ET.Element)
    (st : string) (sa : list (string * string)) (sx stl : option string)
    (apre apost : list ET.Element) (article : ET.Element) :
  ET.get article "title" "" = "" ->
  (forall p, In p (ET.findall article "PARAGRAPH") ->
             paragraph_text unescape cdata_step p = Ret []) ->
  tree_result unescape cdata_step
    (ET.mkElement rt ra rx
       (spre ++ ET.mkElement st sa sx (apre ++ article :: apost) stl :: spost) rtl)
  = tree_result unescape cdata_step
      (ET.mkElement rt ra rx
         (spre ++ ET.mkElement st sa sx (apre ++ apost) stl :: spost) rtl).
Proof.
  intros Htitle Hparas.
  assert (Hsecs :
    sections_of unescape cdata_step
      (ET.mkElement rt ra rx
         (spre ++ ET.mkElement st sa sx (apre ++ article :: apost) stl :: spost) rtl)
    = sections_of unescape cdata_step
        (ET.mkElement rt ra rx
           (spre ++ ET.mkElement st sa sx (apre ++ apost) stl :: spost) rtl)).
  { unfold sections_of, ET.findall. cbn [ET.children].
    rewrite !filter_app, !collect_app. f_equal.
    cbn [filter ET.tag]. destruct (String.eqb st "SECTION"); [| reflexivity].
    cbn [collect].
    rewrite (articles_of_without_empty_article cdata_step st sa sx stl apre apost
               article Htitle Hparas).
    reflexivity. }
  unfold tree_result. rewrite Hsecs. reflexivity.
Qed.

End Dropping.

(** C7. In every result of the pipeline that has sections (the results of
    the first and of the second parse) each section has at least one
    article, each article has a title that is not empty or at least one
    paragraph, and each paragraph is a cleaned text that is not empty.
    An [ARTICLE] element whose title is empty and whose paragraphs are all
    empty after the cleaning leaves no trace: the result, sections and
    text, is the result for the document without that element. *)
Theorem structural_dropping :
  forall (fromstring : string -> outcome ET.Element)
         (unescape : string -> outcome string),
    (forall s d secs,
        parse_xml_doc fromstring unescape s = Ret (Some d) ->
        doc_sections d = Some secs ->
        Forall section_ok secs) /\
    (forall cdata_step rt ra rx rtl spre spost st sa sx stl apre apost article,
        ET.get article "title" "" = "" ->
        (forall p, In p (ET.findall article "PARAGRAPH") ->
                   paragraph_text unescape cdata_step p = Ret []) ->
        tree_result unescape cdata_step
          (ET.mkElement rt ra rx
             (spre ++ ET.mkElement st sa sx (apre ++ article :: apost) stl :: spost) rtl)
        = tree_result unescape cdata_step
            (ET.mkElement rt ra rx
               (spre ++ ET.mkElement st sa sx (apre ++ apost) stl :: spost) rtl)).
Proof.
  intros fromstring unescape. split.
  - intros s d secs Hres Hsecs.
    assert (Hs : s <> "").
    { intros ->. discriminate Hres. }
    rewrite (parse_xml_doc_nonempty _ _ _ Hs) in Hres.
    injection Hres as <-.
    assert (Htier : forall c x d0,
               (root <- fromstring x ;; tree_result unescape c root) = Ret d0 ->
               doc_sections d0 = Some secs -> Forall section_ok secs).
    { intros c x d0. destruct (fromstring x) as [root | e]; cbn [bind]; [| discriminate].
      unfold tree_result.
      destruct (sections_of unescape c root) as [secs0 | e] eqn:Hs0; [| discriminate].
      cbn [bind]. intros H. injection H as <-. cbn. intros H. injection H as <-.
      apply (sections_of_kept _ _ _ _ Hs0). }
    unfold pipeline_result in Hsecs.
    destruct (first_tier fromstring unescape s) as [d | [m | m]] eqn:Hfirst.
    + exact (Htier _ _ _ Hfirst Hsecs).
    + destruct (second_tier fromstring unescape s) as [d | e] eqn:Hsecond.
      * exact (Htier _ _ _ Hsecond Hsecs).
      * unfold broken_xml_result in Hsecs.
        destruct (salvage unescape (tag_repair (sanitize s))) as [d | e1] eqn:Hsalv.
        -- apply salvage_type in Hsalv. destruct Hsalv as (_ & Hnone & _). congruence.
        -- destruct (raw_text_result unescape (tag_repair (sanitize s)))
             as [d | e2] eqn:Hraw.
           ++ apply raw_text_type in Hraw. destruct Hraw as (_ & Hnone & _). congruence.
           ++ discriminate Hsecs.
    + discriminate Hsecs.
  - intros. apply tree_result_without_empty_article; assumption.
Qed.

Lemma structural_dropping_witness :
  Forall section_ok [mkSection "S" [mkArticle "A" ["p"]]] /\
  tree_result HtmlModel.unescape true
    (ET.mkElement "DOC" [("title", "T")] None
       [ET.mkElement "SECTION" [("title", "S")] None [blank_article; kept_article] None]
       None)
  = tree_result HtmlModel.unescape true
      (ET.mkElement "DOC" [("title", "T")] None
         [ET.mkElement "SECTION" [("title", "S")] None [kept_article] None]
         None).
Proof.
  destruct (structural_dropping XmlModel.fromstring HtmlModel.unescape) as [Hkept Hdrop].
  split.
  - apply (Hkept dropping_doc
             (mkDoc "T" "" (Some [mkSection "S" [mkArticle "A" ["p"]]])
                    (Some ("【T】" ++ LF ++ LF ++ "■ A" ++ LF ++ "- p")) None None)).
    + vm_compute. reflexivity.
    + reflexivity.
  - apply (Hdrop true "DOC" [("title", "T")] None None [] []
             "SECTION" [("title", "S")] None None [] [kept_article] blank_article).
    + reflexivity.
    + intros p Hp. vm_compute in Hp. destruct Hp as [<- | []]. vm_compute. reflexivity.
Defined.

(* ------------------------------------------------------------------ *)
(** ** When the text is empty *)

Section Text.

Variable unescape : string -> outcome string.

Lemma append_nonempty_l (a b : string) : a <> "" -> a ++ b <> "".
Proof. destruct a; [congruence | discriminate]. Qed.

Lemma title_header_nonempty (t : string) : title_header t <> "".
Proof. unfold title_header. discriminate. Qed.

Lemma join_head_nonempty (sep p : string) (rest : list string) :
  p <> "" -> Py.join sep (p :: rest) <> "".
Proof.
  intros Hp. destruct rest as [| q rest]; cbn [Py.join]; [exact Hp |].
  apply append_nonempty_l. exact Hp.
Qed.

Lemma plain_text_fallback_nonempty (title x t : string) :
  plain_text_fallback unescape title x = Ret t -> t <> "".
Proof.
  unfold plain_text_fallback.
  destruct (meaningful_sentences unescape x) as [sentences | e]; [| discriminate].
  cbn [bind]. intros H. injection H as <-.
  destruct sentences; unfold title_header; discriminate.
Qed.

Lemma salvage_text_nonempty (x : string) (d : parsed_doc) :
  salvage unescape x = Ret d -> exists t, doc_text d = Some t /\ t <> "".
Proof.
  unfold salvage. cbv zeta.
  destruct (collect _ _) as [ls | e]; [| discriminate]. cbn [bind].
  set (header := title_header _).
  set (lines := app (flat_map _ _) ls).
  assert (Hjoin : Py.join LF (app [header] lines) <> "").
  { cbn [app]. apply join_head_nonempty, title_header_nonempty. }
  set (text := Py.join LF (app [header] lines)) in *.
  destruct (String.eqb text header).
  - destruct (plain_text_fallback unescape _ _) as [t | e] eqn:Hplain; [| discriminate].
    cbn [bind]. intros H. injection H as <-.
    exists t. split; [reflexivity |].
    exact (plain_text_fallback_nonempty _ _ _ Hplain).
  - cbn [bind]. intros H. injection H as <-.
    exists text. split; [reflexivity | exact Hjoin].
Qed.

(** The lines the renderer writes for the sections. *)
Lemma section_lines_start (secs : list section_data) :
  Forall section_ok secs -> secs <> [] ->
  exists l rest,
    l <> "" /\
    flat_map (fun section =>
      flat_map (fun article =>
        app (if Py.truthy (art_title article)
             then [LF ++ "■ " ++ art_title article] else [])
            (map (fun paragraph => "- " ++ paragraph) (art_paragraphs article)))
        (sec_articles section)) secs
    = l :: rest.
Proof.
  intros Hok Hne. destruct secs as [| sec secs]; [congruence |].
  inversion Hok as [| ? ? [Harts Hall] _]; subst.
  destruct (sec_articles sec) as [| a arts] eqn:Ea; [congruence |].
  inversion Hall as [| ? ? [Hcontent _] _]; subst.
  cbn [flat_map]. rewrite Ea. cbn [flat_map].
  destruct (Py.truthy (art_title a)) eqn:Ht.
  - eexists. eexists. split; [| cbn [app]; reflexivity]. discriminate.
  - destruct Hcontent as [Htitle | Hparas].
    + apply truthy_false_empty in Ht. congruence.
    + destruct (art_paragraphs a) as [| p ps]; [congruence |].
      eexists. eexists. split; [| cbn [app map]; reflexivity]. discriminate.
Qed.

Lemma rendered_text_empty_iff (d : parsed_doc) (secs : list section_data) :
  doc_sections d = Some secs ->
  Forall section_ok secs ->
  (extract_text_from_parsed_doc d = "" <-> doc_title d = "" /\ secs = []).
Proof.
  intros Hsecs Hok. unfold extract_text_from_parsed_doc. rewrite Hsecs. split.
  - intros Hempty.
    destruct (Py.truthy (doc_title d)) eqn:Ht.
    + exfalso. cbn [app] in Hempty.
      exact (join_head_nonempty _ _ _ (title_header_nonempty _) Hempty).
    + split; [apply truthy_false_empty; exact Ht |].
      destruct secs as [| sec secs']; [reflexivity | exfalso].
      destruct (section_lines_start (sec :: secs') Hok) as (l & rest & Hl & Hlines);
        [discriminate |].
      rewrite Hlines in Hempty. cbn [app] in Hempty.
      exact (join_head_nonempty _ _ _ Hl Hempty).
  - intros [Htitle ->]. rewrite Htitle. reflexivity.
Qed.

Lemma tree_text_empty_iff (c : bool) (root : ET.Element) (d : parsed_doc)
    (secs : list section_data) :
  tree_result unescape c root = Ret d ->
  doc_sections d = Some secs ->
  exists t, doc_text d = Some t /\ (t = "" <-> doc_title d = "" /\ secs = []).
Proof.
  unfold tree_result.
  destruct (sections_of unescape c root) as [secs0 | e] eqn:Hs0; [| discriminate].
  cbn [bind]. intros H. injection H as <-. cbn. intros H. injection H as <-.
  eexists. split; [reflexivity |].
  apply (rendered_text_empty_iff
           (mkDoc (ET.get root "title" "") (ET.get root "type" "")
                  (Some secs0) None None None));
    [reflexivity | apply (sections_of_kept _ _ _ _ Hs0)].
Qed.

End Text.

(** C3, as stated, fails.  The document is neither empty nor made of
    white space; it is well-formed, its root has no title and no section,
    and the text of the result is the empty string. *)
Lemma empty_text_for_nonblank_input :
  Py.strip "<DOC/>" <> "" /\
  returned (Ref.parse_xml_doc "<DOC/>")
  = Some (mkDoc "" "" (Some []) (Some "") None None).
Proof. split; [discriminate | vm_compute; reflexivity]. Qed.

(** C3, amended.  In every result that is not built from a parsed tree and
    is not the [raw_text] result of the handler (that is: regex salvage,
    its plain-text fallback, and the two results of type [error]) the text
    is not empty; the plain-text fallback writes the literal failure marker
    under the title header when no sentence of more than ten characters is
    left.  In a result built from a parsed tree the text is empty exactly
    when the root has no title and no section is retained. *)
Theorem text_empty_only_for_empty_tree :
  forall (fromstring : string -> outcome ET.Element)
         (unescape : string -> outcome string) (s : string) (d : parsed_doc),
    parse_xml_doc fromstring unescape s = Ret (Some d) ->
    (doc_sections d = None -> doc_type d <> "raw_text" ->
     exists t, doc_text d = Some t /\ t <> "") /\
    (forall secs, doc_sections d = Some secs ->
                  exists t, doc_text d = Some t /\
                            (t = "" <-> doc_title d = "" /\ secs = [])) /\
    (forall title x,
        meaningful_sentences unescape x = Ret [] ->
        plain_text_fallback unescape title x
        = Ret (title_header title ++ LF ++ LF ++ "- 텍스트 추출 실패")).
Proof.
  intros fromstring unescape s d Hres.
  assert (Hs : s <> "").
  { intros ->. discriminate Hres. }
  rewrite (parse_xml_doc_nonempty _ _ _ Hs) in Hres.
  injection Hres as <-.
  assert (Htier : forall c x d0,
             (root <- fromstring x ;; tree_result unescape c root) = Ret d0 ->
             (doc_sections d0 <> None) /\
             (forall secs, doc_sections d0 = Some secs ->
                exists t, doc_text d0 = Some t /\
                          (t = "" <-> doc_title d0 = "" /\ secs = []))).
  { intros c x d0. destruct (fromstring x) as [root | e]; cbn [bind]; [| discriminate].
    intros Htree. split.
    - destruct (tree_result_type _ _ _ _ Htree) as (_ & _ & secs & Hsecs). congruence.
    - intros secs. apply (tree_text_empty_iff _ _ _ _ _ Htree). }
  unfold pipeline_result.
  split; [| split].
  - destruct (first_tier fromstring unescape s) as [d | [m | m]] eqn:Hfirst.
    + intros Hnone. destruct (Htier _ _ _ Hfirst) as [Hsome _]. congruence.
    + destruct (second_tier fromstring unescape s) as [d | e] eqn:Hsecond.
      * intros Hnone. destruct (Htier _ _ _ Hsecond) as [Hsome _]. congruence.
      * unfold broken_xml_result.
        destruct (salvage unescape (tag_repair (sanitize s))) as [d | e1] eqn:Hsalv.
        -- intros _ _. apply (salvage_text_nonempty _ _ _ Hsalv).
        -- destruct (raw_text_result unescape (tag_repair (sanitize s)))
             as [d | e2] eqn:Hraw.
           ++ apply raw_text_type in Hraw. destruct Hraw as (Htype & _). congruence.
           ++ intros _ _. eexists. split; [reflexivity | discriminate].
    + intros _ _. eexists. split; [reflexivity | discriminate].
  - intros secs.
    destruct (first_tier fromstring unescape s) as [d | [m | m]] eqn:Hfirst.
    + apply (Htier _ _ _ Hfirst).
    + destruct (second_tier fromstring unescape s) as [d | e] eqn:Hsecond.
      * apply (Htier _ _ _ Hsecond).
      * unfold broken_xml_result.
        destruct (salvage unescape (tag_repair (sanitize s))) as [d | e1] eqn:Hsalv.
        -- apply salvage_type in Hsalv. destruct Hsalv as (_ & Hnone & _). congruence.
        -- destruct (raw_text_result unescape (tag_repair (sanitize s)))
             as [d | e2] eqn:Hraw.
           ++ apply raw_text_type in Hraw. destruct Hraw as (_ & Hnone & _). congruence.
           ++ discriminate.
    + discriminate.
  - intros title x Hnone. unfold plain_text_fallback. rewrite Hnone. reflexivity.
Qed.

Lemma text_empty_only_for_empty_tree_witness :
  (exists t, Some ("【제목 없음】" ++ LF ++ LF ++ "- 텍스트 추출 실패") = Some t /\ t <> "") /\
  plain_text_fallback HtmlModel.unescape "T" "<a/> short. "
  = Ret (title_header "T" ++ LF ++ LF ++ "- 텍스트 추출 실패").
Proof.
  destruct (text_empty_only_for_empty_tree XmlModel.fromstring HtmlModel.unescape
              "no tags"
              (mkDoc "제목 없음" "text_extraction" None
                     (Some ("【제목 없음】" ++ LF ++ LF ++ "- 텍스트 추출 실패")) None None))
    as (Hflat & _ & Hmarker).
  { vm_compute. reflexivity. }
  split.
  - apply Hflat; [reflexivity | discriminate].
  - apply Hmarker. vm_compute. reflexivity.
Defined.
(* ------------------------------------------------------------------ *)
(** ** The tag repair *)

Lemma scan_from_skip_all (m : Re.matcher) (s : string) (k : nat) :
  String.length s <= k -> Re.scan_from m s k = [].
Proof.
  revert k. induction s as [| c s IH]; intros k Hk; [reflexivity |].
  destruct k as [| k]; cbn [String.length] in Hk; [lia |].
  cbn [Re.scan_from]. apply IH. lia.
Qed.

(** A match of the pattern of [opened_tags] runs to the end of the text. *)
Lemma open_tag_at_end_length (s g : string) (n : nat) :
  Re.open_tag_at_end s = Some (g, n) -> n = String.length s.
Proof.
  unfold Re.open_tag_at_end, Re.lit_then.
  destruct s as [| c s]; [discriminate |].
  cbn [prefix]. destruct (ascii_dec "<" c); [| discriminate].
  destruct s; cbn [prefix String.length Py.drop].
  - cbn. discriminate.
  - set (rest := String a s).
    destruct (Py.is_empty (Re.span Py.is_word rest)); [discriminate |].
    destruct (Py.drop (String.length (Re.span Py.is_word rest)) rest) as [| c' t];
      [discriminate |].
    destruct (Ascii.eqb c' ">").
    + destruct (Py.contains "<" t); [discriminate |].
      intros H. injection H as _ <-. reflexivity.
    + destruct (Py.is_space c'); [| discriminate].
      destruct (Re.until_char ">" t) as [inner |]; [| discriminate].
      destruct (Py.contains "<" _); [discriminate |].
      intros H. injection H as _ <-. reflexivity.
Qed.

Lemma opened_tags_at_most_one (s : string) : List.length (opened_tags s) <= 1.
Proof.
  unfold opened_tags, Re.findall, Re.scan.
  induction s as [| c s IH]; [cbn; lia |].
  cbn [Re.scan_from].
  destruct (Re.open_tag_at_end (String c s)) as [[g n] |] eqn:Hm.
  - apply open_tag_at_end_length in Hm. subst n.
    cbn [String.length pred]. rewrite scan_from_skip_all by lia. cbn. lia.
  - cbn [Re.hits]. exact IH.
Qed.

(** C4: the code does not do what the claim says.  The pattern of
    [opened_tags] is anchored at the end of the text, so it finds at most
    one tag, the last one, whatever the input is.  In the document cut
    off inside a paragraph four tags are open; the repair appends the end
    tag of [PARAGRAPH] only, and the second parse fails as the first one
    did. *)
Theorem tag_repair_closes_last_tag_only :
  (forall s, List.length (opened_tags s) <= 1) /\
  opened_tags (flatten_markup truncated_doc) = ["PARAGRAPH"] /\
  tag_repair truncated_doc = truncated_doc ++ "</PARAGRAPH>" /\
  XmlModel.fromstring (tag_repair truncated_doc) = Raise (ParseError "not well-formed") /\
  XmlModel.fromstring (truncated_doc ++ "</PARAGRAPH></ARTICLE></SECTION></DOC>")
  = Ret (ET.mkElement "DOC" [("title", "T")] None
           [ET.mkElement "SECTION" [] None
              [ET.mkElement "ARTICLE" [("title", "B")] None
                 [ET.mkElement "PARAGRAPH" [] (Some "some text") [] None] None] None]
           None).
Proof.
  split; [exact opened_tags_at_most_one |].
  repeat split; vm_compute; reflexivity.
Qed.

(* ------------------------------------------------------------------ *)
(** ** The entity sanitizer *)

Section Ampersands.

Lemma escape_cons (c : ascii) (s : string) :
  escape_bare_ampersands (String c s)
  = if Ascii.eqb c "&" && negb (Re.entity_follows s)
    then "&amp;" ++ escape_bare_ampersands s
    else String c (escape_bare_ampersands s).
Proof.
  unfold escape_bare_ampersands, Re.sub, Re.scan.
  cbn [Re.scan_from Re.bare_amp].
  destruct (Ascii.eqb c "&"); [destruct (Re.entity_follows s) |]; reflexivity.
Qed.

Lemma escape_cons_other (c : ascii) (s : string) :
  Ascii.eqb c "&" = false -> escape_bare_ampersands (String c s) = String c (escape_bare_ampersands s).
Proof. intros H. rewrite escape_cons, H. reflexivity. Qed.

Lemma prefix_escape (p s : string) :
  Re.no_amp p = true -> prefix p (escape_bare_ampersands s) = prefix p s.
Proof.
  revert s. induction p as [| a p IH]; intros s Hp.
  - destruct s; destruct (escape_bare_ampersands _); reflexivity.
  - cbn [Re.no_amp] in Hp. apply andb_true_iff in Hp. destruct Hp as [Ha Hp].
    apply negb_true_iff in Ha.
    destruct s as [| c s]; [reflexivity |].
    rewrite escape_cons.
    destruct (Ascii.eqb c "&" && negb (Re.entity_follows s)) eqn:Hc.
    + apply andb_true_iff in Hc. destruct Hc as [Hc _].
      apply Ascii.eqb_eq in Hc. subst c.
      cbn [append prefix].
      destruct (ascii_dec a "&") as [-> | _]; [| reflexivity].
      discriminate Ha.
    + cbn [prefix]. destruct (ascii_dec a c); [apply IH; exact Hp | reflexivity].
Qed.

Lemma drop_escape (p s : string) :
  Re.no_amp p = true -> prefix p s = true ->
  Py.drop (String.length p) (escape_bare_ampersands s) = escape_bare_ampersands (Py.drop (String.length p) s).
Proof.
  revert s. induction p as [| a p IH]; intros s Hp Hpre.
  - reflexivity.
  - cbn [Re.no_amp] in Hp. apply andb_true_iff in Hp. destruct Hp as [Ha Hp].
    apply negb_true_iff in Ha.
    destruct s as [| c s]; [discriminate Hpre |].
    cbn [prefix] in Hpre. destruct (ascii_dec a c) as [<- | _]; [| discriminate Hpre].
    rewrite (escape_cons_other _ _ Ha). cbn [String.length Py.drop].
    apply IH; assumption.
Qed.

Lemma span_escape (cls : ascii -> bool) (s : string) :
  cls "&"%char = false -> Re.span cls (escape_bare_ampersands s) = Re.span cls s.
Proof.
  intros Hcls. induction s as [| c s IH]; [reflexivity |].
  rewrite escape_cons.
  destruct (Ascii.eqb c "&" && negb (Re.entity_follows s)) eqn:Hc.
  - apply andb_true_iff in Hc. destruct Hc as [Hc _].
    apply Ascii.eqb_eq in Hc. subst c.
    cbn [append Re.span]. rewrite Hcls. reflexivity.
  - cbn [Re.span]. rewrite IH. reflexivity.
Qed.

Lemma after_span_escape (cls : ascii -> bool) (s : string) :
  cls "&"%char = false ->
  prefix ";" (Py.drop (String.length (Re.span cls s)) (escape_bare_ampersands s))
  = prefix ";" (Py.drop (String.length (Re.span cls s)) s).
Proof.
  intros Hcls. induction s as [| c s IH]; [reflexivity |].
  cbn [Re.span]. destruct (cls c) eqn:Hc.
  - assert (Hne : Ascii.eqb c "&" = false).
    { destruct (Ascii.eqb_spec c "&"); [subst; congruence | reflexivity]. }
    rewrite (escape_cons_other _ _ Hne). cbn [String.length Py.drop]. exact IH.
  - cbn [String.length].
    change (prefix ";" (escape_bare_ampersands (String c s)) = prefix ";" (String c s)).
    apply prefix_escape. reflexivity.
Qed.

Lemma run_then_semicolon_escape (cls : ascii -> bool) (s : string) :
  cls "&"%char = false ->
  Re.run_then_semicolon cls (escape_bare_ampersands s) = Re.run_then_semicolon cls s.
Proof.
  intros Hcls. unfold Re.run_then_semicolon. cbv zeta.
  rewrite (span_escape cls s Hcls), (after_span_escape cls s Hcls). reflexivity.
Qed.

(** The lookahead gives the same answer on a text and on its repair. *)
Lemma entity_follows_escape (s : string) :
  Re.entity_follows (escape_bare_ampersands s) = Re.entity_follows s.
Proof.
  unfold Re.entity_follows.
  rewrite !prefix_escape by reflexivity.
  assert (Hdec :
    prefix "#" s && Re.run_then_semicolon Py.is_digit (Py.drop 1 (escape_bare_ampersands s))
    = prefix "#" s && Re.run_then_semicolon Py.is_digit (Py.drop 1 s)).
  { destruct (prefix "#" s) eqn:Hp; [| reflexivity].
    change 1 with (String.length "#").
    rewrite (drop_escape "#" s eq_refl Hp).
    rewrite run_then_semicolon_escape by reflexivity. reflexivity. }
  assert (Hhex :
    prefix "#x" s && Re.run_then_semicolon Py.is_hex (Py.drop 2 (escape_bare_ampersands s))
    = prefix "#x" s && Re.run_then_semicolon Py.is_hex (Py.drop 2 s)).
  { destruct (prefix "#x" s) eqn:Hp; [| reflexivity].
    change 2 with (String.length "#x").
    rewrite (drop_escape "#x" s eq_refl Hp).
    rewrite run_then_semicolon_escape by reflexivity. reflexivity. }
  rewrite Hdec, Hhex. reflexivity.
Qed.

Lemma escape_idempotent (s : string) : escape_bare_ampersands (escape_bare_ampersands s) = escape_bare_ampersands s.
Proof.
  induction s as [| c s IH]; [reflexivity |].
  rewrite escape_cons.
  destruct (Ascii.eqb c "&" && negb (Re.entity_follows s)) eqn:Hc.
  - cbn [append].
    rewrite escape_cons.
    replace (Re.entity_follows (String "a" (String "m" (String "p" (String ";" (escape_bare_ampersands s))))))
      with true by (destruct (escape_bare_ampersands s); reflexivity).
    cbn [Ascii.eqb Bool.eqb andb negb].
    rewrite !escape_cons_other by reflexivity.
    rewrite IH. reflexivity.
  - rewrite escape_cons, entity_follows_escape, Hc, IH. reflexivity.
Qed.

Lemma escape_keeps_entity (rest : string) :
  Re.entity_follows rest = true -> escape_bare_ampersands ("&" ++ rest) = "&" ++ escape_bare_ampersands rest.
Proof.
  intros H. cbn [append]. rewrite escape_cons, H, andb_false_r. reflexivity.
Qed.

End Ampersands.

Lemma replace_from_same (old s : string) (k : nat) :
  old <> "" -> k <= String.length s ->
  Py.replace_from old old s k = Py.drop k s.
Proof.
  intros Hold. revert k. induction s as [| c s IH]; intros k Hk.
  - destruct k; reflexivity.
  - destruct k as [| k]; cbn [Py.replace_from Py.drop].
    + destruct (prefix old (String c s)) eqn:Hp.
      * destruct old as [| a old']; [congruence |].
        cbn [prefix] in Hp. destruct (ascii_dec a c) as [<- | _]; [| discriminate].
        cbn [String.length pred append]. f_equal.
        assert (Hlen : String.length old' <= String.length s).
        { clear IH Hold Hk. revert s Hp.
          induction old' as [| b o IHo]; intros s Hp; cbn [String.length]; [lia |].
          destruct s as [| d s]; [discriminate |].
          cbn [prefix] in Hp. destruct (ascii_dec b d); [| discriminate].
          cbn [String.length]. apply IHo in Hp. lia. }
        rewrite (IH _ Hlen).
        clear IH Hold Hk Hlen. revert s Hp.
        induction old' as [| b o IHo]; intros s Hp; [destruct s; reflexivity |].
        destruct s as [| d s]; [discriminate |].
        cbn [prefix] in Hp. destruct (ascii_dec b d) as [<- | _]; [| discriminate].
        cbn [String.length Py.drop append]. f_equal. apply IHo. exact Hp.
      * f_equal. apply IH. lia.
    + apply IH. cbn [String.length] in Hk. lia.
Qed.

Lemma replace_same (old s : string) : old <> "" -> Py.replace old old s = s.
Proof.
  intros Hold. unfold Py.replace. rewrite replace_from_same by (assumption || lia).
  destruct s; reflexivity.
Qed.

Lemma repair_of_repaired_blocks (blocks : list string) (x : string) :
  fold_left
    (fun xml block =>
       Py.replace (CDATA_OPEN ++ block ++ CDATA_CLOSE)
                  (CDATA_OPEN ++ escape_bare_ampersands block ++ CDATA_CLOSE) xml)
    (map escape_bare_ampersands blocks) x
  = x.
Proof.
  revert x. induction blocks as [| b blocks IH]; intros x; [reflexivity |].
  cbn [map fold_left]. rewrite escape_idempotent.
  rewrite replace_same by discriminate. apply IH.
Qed.

(** C5, as stated, fails.  Of two nested [sub] wrappers the sanitizer
    removes one at each application, so its output is changed by a second
    application. *)
Lemma sanitize_twice_differs :
  sanitize "<sub><sub>x</sub></sub>" = "<sub>x</sub>" /\
  sanitize (sanitize "<sub><sub>x</sub></sub>") = "x" /\
  sanitize (sanitize "<sub><sub>x</sub></sub>") <> sanitize "<sub><sub>x</sub></sub>".
Proof. repeat split; try (vm_compute; reflexivity). vm_compute. discriminate. Qed.

(** C5, amended.  The ampersand repair is idempotent on every text, and an
    ampersand that is followed by one of the listed entities is kept as it
    is.  The sanitizer repeats its output on every input for which that
    output has no wrapper left to unwrap and has, as its CDATA blocks, the
    repaired blocks of the unwrapped input. *)
Theorem ampersand_repair_idempotent :
  (forall s, escape_bare_ampersands (escape_bare_ampersands s) = escape_bare_ampersands s) /\
  (forall rest,
      Re.entity_follows rest = true ->
      escape_bare_ampersands ("&" ++ rest) = "&" ++ escape_bare_ampersands rest) /\
  (forall s,
      unwrap_sub_sup (sanitize s) = sanitize s ->
      Re.findall Re.cdata (sanitize s)
      = map escape_bare_ampersands (Re.findall Re.cdata (unwrap_sub_sup s)) ->
      sanitize (sanitize s) = sanitize s).
Proof.
  split; [exact escape_idempotent |].
  split; [exact escape_keeps_entity |].
  intros s Hunwrap Hblocks.
  unfold sanitize at 1. rewrite Hunwrap.
  unfold repair_cdata_blocks. rewrite Hblocks.
  apply repair_of_repaired_blocks.
Qed.

Lemma ampersand_repair_idempotent_witness :
  escape_bare_ampersands (escape_bare_ampersands "a & b &amp; c &#38; d &#x; e")
  = escape_bare_ampersands "a & b &amp; c &#38; d &#x; e" /\
  escape_bare_ampersands ("&" ++ "lt; x & y") = "&" ++ escape_bare_ampersands "lt; x & y" /\
  sanitize (sanitize cdata_doc) = sanitize cdata_doc.
Proof.
  destruct ampersand_repair_idempotent as (Hidem & Hkeep & Hsan).
  split; [apply Hidem |].
  split; [apply Hkeep; vm_compute; reflexivity |].
  apply Hsan; vm_compute; reflexivity.
Defined.

Example sanitize_cdata_doc :
  sanitize cdata_doc
  = "<DOC><PARAGRAPH><![CDATA[H2O &amp; salt &lt; 5]]></PARAGRAPH></DOC>".
Proof. vm_compute. reflexivity. Qed.

Example sanitize_skips_nested_block :
  sanitize "<![CDATA[&]]><![CDATA[&<![CDATA[&]]>"
  = "<![CDATA[&amp;]]><![CDATA[&<![CDATA[&amp;]]>" /\
  sanitize (sanitize "<![CDATA[&]]><![CDATA[&<![CDATA[&]]>")
  = "<![CDATA[&amp;]]><![CDATA[&amp;<![CDATA[&amp;]]>".
Proof. split; vm_compute; reflexivity. Qed.

(** * Further properties of the pipeline and of the records *)

(* ------------------------------------------------------------------ *)
(** ** Further properties: the tree tiers *)

Lemma collect_ext {A B : Type} (f g : A -> outcome (list B)) (l : list A) :
  (forall x, In x l -> f x = g x) -> collect f l = collect g l.
Proof.
  induction l as [| x l IH]; intros H; cbn [collect]; [reflexivity |].
  rewrite (H x (or_introl eq_refl)), IH; [reflexivity |].
  intros y Hy. apply H. right. exact Hy.
Qed.

Lemma extract_text_lines (d : parsed_doc) :
  extract_text_from_parsed_doc d
  = Py.join LF (app (title_lines (doc_title d))
                    (section_lines match doc_sections d with
                                   | Some l => l
                                   | None => []
                                   end)).
Proof. reflexivity. Qed.

Lemma section_lines_app (s1 s2 : list section_data) :
  section_lines (s1 ++ s2)%list = (section_lines s1 ++ section_lines s2)%list.
Proof. unfold section_lines. apply flat_map_app. Qed.

Lemma sections_of_app (unescape : string -> outcome string) (c : bool)
    (t : string) (a : list (string * string)) (x tl : option string)
    (l1 l2 : list ET.Element) :
  sections_of unescape c (ET.mkElement t a x (l1 ++ l2) tl)
  = (s1 <- sections_of unescape c (ET.mkElement t a x l1 tl) ;;
     s2 <- sections_of unescape c (ET.mkElement t a x l2 tl) ;;
     Ret (app s1 s2)).
Proof.
  unfold sections_of, ET.findall. cbn [ET.children].
  rewrite filter_app. apply collect_app.
Qed.

Lemma articles_of_app (unescape : string -> outcome string) (c : bool)
    (t : string) (a : list (string * string)) (x tl : option string)
    (l1 l2 : list ET.Element) :
  articles_of unescape c (ET.mkElement t a x (l1 ++ l2) tl)
  = (a1 <- articles_of unescape c (ET.mkElement t a x l1 tl) ;;
     a2 <- articles_of unescape c (ET.mkElement t a x l2 tl) ;;
     Ret (app a1 a2)).
Proof.
  unfold articles_of, ET.findall. cbn [ET.children].
  rewrite filter_app. apply collect_app.
Qed.

Lemma paragraphs_app (unescape : string -> outcome string) (c : bool)
    (t : string) (a : list (string * string)) (x tl : option string)
    (l1 l2 : list ET.Element) :
  collect (paragraph_text unescape c)
          (ET.findall (ET.mkElement t a x (l1 ++ l2) tl) "PARAGRAPH")
  = (p1 <- collect (paragraph_text unescape c)
                   (ET.findall (ET.mkElement t a x l1 tl) "PARAGRAPH") ;;
     p2 <- collect (paragraph_text unescape c)
                   (ET.findall (ET.mkElement t a x l2 tl) "PARAGRAPH") ;;
     Ret (app p1 p2)).
Proof.
  unfold ET.findall. cbn [ET.children]. rewrite filter_app. apply collect_app.
Qed.

(** The walk on a root with one child, and on a section with one child. *)
Lemma sections_of_one (unescape : string -> outcome string) (c : bool)
    (t : string) (a : list (string * string)) (x tl : option string)
    (section : ET.Element) :
  sections_of unescape c (ET.mkElement t a x [section] tl)
  = if String.eqb (ET.tag section) "SECTION"
    then articles <- articles_of unescape c section ;;
         Ret (if negb (Nat.eqb (List.length articles) 0)
              then [mkSection (ET.get section "title" "") articles] else [])
    else Ret [].
Proof.
  unfold sections_of, ET.findall. cbn [ET.children filter].
  destruct (String.eqb (ET.tag section) "SECTION"); [| reflexivity].
  cbn [collect]. destruct (articles_of unescape c section); [| reflexivity].
  cbn [bind sec_articles]. rewrite app_nil_r. reflexivity.
Qed.

Lemma articles_of_one (unescape : string -> outcome string) (c : bool)
    (t : string) (a : list (string * string)) (x tl : option string)
    (article : ET.Element) :
  articles_of unescape c (ET.mkElement t a x [article] tl)
  = if String.eqb (ET.tag article) "ARTICLE"
    then paragraphs <- collect (paragraph_text unescape c)
                               (ET.findall article "PARAGRAPH") ;;
         Ret (if negb (Nat.eqb (List.length paragraphs) 0)
                 || Py.truthy (ET.get article "title" "")
              then [mkArticle (ET.get article "title" "") paragraphs] else [])
    else Ret [].
Proof.
  unfold articles_of.
  replace (ET.findall (ET.mkElement t a x [article] tl) "ARTICLE")
    with (if String.eqb (ET.tag article) "ARTICLE" then [article] else [])
    by (unfold ET.findall; cbn [ET.children filter];
        destruct (String.eqb (ET.tag article) "ARTICLE"); reflexivity).
  destruct (String.eqb (ET.tag article) "ARTICLE"); [| reflexivity].
  cbn [collect].
  destruct (collect (paragraph_text unescape c) (ET.findall article "PARAGRAPH"));
    [| reflexivity].
  cbn [bind art_paragraphs art_title]. rewrite app_nil_r. reflexivity.
Qed.

Lemma kept_section_articles (title : string) (articles : list article_data) :
  flat_map sec_articles
    (if negb (Nat.eqb (List.length articles) 0)
     then [mkSection title articles] else [])
  = articles.
Proof.
  destruct articles as [| article articles]; [reflexivity |].
  cbn [List.length Nat.eqb negb flat_map sec_articles]. apply app_nil_r.
Qed.

Lemma kept_article_paragraphs (title : string) (paragraphs : list string) :
  flat_map art_paragraphs
    (if negb (Nat.eqb (List.length paragraphs) 0) || Py.truthy title
     then [mkArticle title paragraphs] else [])
  = paragraphs.
Proof.
  destruct paragraphs as [| p paragraphs].
  - cbn [List.length Nat.eqb negb orb]. destruct (Py.truthy title); reflexivity.
  - cbn [List.length Nat.eqb negb orb flat_map art_paragraphs]. apply app_nil_r.
Qed.

(** The articles of a section come in the order of its children. *)
Lemma section_keeps_article_order (unescape : string -> outcome string) (c : bool)
    (t st : string) (a sa : list (string * string)) (x tl sx stl : option string)
    (l1 l2 : list ET.Element) (r1 r2 : list section_data) :
  sections_of unescape c
    (ET.mkElement t a x [ET.mkElement st sa sx l1 stl] tl) = Ret r1 ->
  sections_of unescape c
    (ET.mkElement t a x [ET.mkElement st sa sx l2 stl] tl) = Ret r2 ->
  exists r,
    sections_of unescape c
      (ET.mkElement t a x [ET.mkElement st sa sx (l1 ++ l2) stl] tl) = Ret r /\
    flat_map sec_articles r
    = (flat_map sec_articles r1 ++ flat_map sec_articles r2)%list.
Proof.
  rewrite !sections_of_one. cbn [ET.tag].
  destruct (String.eqb st "SECTION").
  - rewrite articles_of_app.
    destruct (articles_of unescape c (ET.mkElement st sa sx l1 stl)) as [a1 | e1];
      cbn [bind]; [| discriminate].
    destruct (articles_of unescape c (ET.mkElement st sa sx l2 stl)) as [a2 | e2];
      cbn [bind]; [| discriminate].
    intros H1 H2. injection H1 as <-. injection H2 as <-.
    eexists. split; [reflexivity |].
    rewrite !kept_section_articles. reflexivity.
  - intros H1 H2. injection H1 as <-. injection H2 as <-.
    exists []. split; reflexivity.
Qed.

(** The paragraphs of an article come in the order of its children. *)
Lemma article_keeps_paragraph_order (unescape : string -> outcome string) (c : bool)
    (t st at' : string) (a sa aa : list (string * string))
    (x tl sx stl ax atl : option string)
    (l1 l2 : list ET.Element) (r1 r2 : list section_data) :
  sections_of unescape c
    (ET.mkElement t a x
       [ET.mkElement st sa sx [ET.mkElement at' aa ax l1 atl] stl] tl) = Ret r1 ->
  sections_of unescape c
    (ET.mkElement t a x
       [ET.mkElement st sa sx [ET.mkElement at' aa ax l2 atl] stl] tl) = Ret r2 ->
  exists r,
    sections_of unescape c
      (ET.mkElement t a x
         [ET.mkElement st sa sx [ET.mkElement at' aa ax (l1 ++ l2) atl] stl] tl)
    = Ret r /\
    flat_map art_paragraphs (flat_map sec_articles r)
    = (flat_map art_paragraphs (flat_map sec_articles r1)
       ++ flat_map art_paragraphs (flat_map sec_articles r2))%list.
Proof.
  rewrite !sections_of_one. cbn [ET.tag].
  destruct (String.eqb st "SECTION").
  - rewrite !articles_of_one. cbn [ET.tag].
    destruct (String.eqb at' "ARTICLE").
    + rewrite paragraphs_app.
      destruct (collect (paragraph_text unescape c)
                  (ET.findall (ET.mkElement at' aa ax l1 atl) "PARAGRAPH"))
        as [p1 | e1]; cbn [bind]; [| discriminate].
      destruct (collect (paragraph_text unescape c)
                  (ET.findall (ET.mkElement at' aa ax l2 atl) "PARAGRAPH"))
        as [p2 | e2]; cbn [bind]; [| discriminate].
      intros H1 H2. injection H1 as <-. injection H2 as <-.
      eexists. split; [reflexivity |].
      rewrite !kept_section_articles.
      change (ET.get (ET.mkElement at' aa ax l1 atl) "title" "")
        with (ET.get (ET.mkElement at' aa ax (l1 ++ l2) atl) "title" "").
      change (ET.get (ET.mkElement at' aa ax l2 atl) "title" "")
        with (ET.get (ET.mkElement at' aa ax (l1 ++ l2) atl) "title" "").
      rewrite !kept_article_paragraphs. reflexivity.
    + cbn [bind]. intros H1 H2. injection H1 as <-. injection H2 as <-.
      exists []. split; reflexivity.
  - intros H1 H2. injection H1 as <-. injection H2 as <-.
    exists []. split; reflexivity.
Qed.

(** X1. Document order is kept at every level of the tree walk.  When the
    children of the root are split in two runs, the sections of the
    result are those of the first run followed by those of the second,
    and the text is the title line, then the lines of the first run, then
    those of the second.  When the children of a section are split in two
    runs, its articles are those of the first run followed by those of
    the second; and when the children of an article are split in two
    runs, its paragraphs are those of the first run followed by those of
    the second. *)
Theorem tree_result_keeps_document_order :
  forall (unescape : string -> outcome string) (c : bool)
         (t : string) (a : list (string * string)) (x tl : option string)
         (l1 l2 : list ET.Element),
    (forall s1 s2,
        sections_of unescape c (ET.mkElement t a x l1 tl) = Ret s1 ->
        sections_of unescape c (ET.mkElement t a x l2 tl) = Ret s2 ->
        exists d,
          tree_result unescape c (ET.mkElement t a x (l1 ++ l2) tl) = Ret d /\
          doc_sections d = Some (s1 ++ s2)%list /\
          doc_text d
          = Some (Py.join LF (title_lines (doc_title d)
                              ++ section_lines s1 ++ section_lines s2)%list)) /\
    (forall st sa sx stl r1 r2,
        sections_of unescape c
          (ET.mkElement t a x [ET.mkElement st sa sx l1 stl] tl) = Ret r1 ->
        sections_of unescape c
          (ET.mkElement t a x [ET.mkElement st sa sx l2 stl] tl) = Ret r2 ->
        exists r,
          sections_of unescape c
            (ET.mkElement t a x [ET.mkElement st sa sx (l1 ++ l2) stl] tl) = Ret r /\
          flat_map sec_articles r
          = (flat_map sec_articles r1 ++ flat_map sec_articles r2)%list) /\
    (forall st sa sx stl at' aa ax atl r1 r2,
        sections_of unescape c
          (ET.mkElement t a x
             [ET.mkElement st sa sx [ET.mkElement at' aa ax l1 atl] stl] tl) = Ret r1 ->
        sections_of unescape c
          (ET.mkElement t a x
             [ET.mkElement st sa sx [ET.mkElement at' aa ax l2 atl] stl] tl) = Ret r2 ->
        exists r,
          sections_of unescape c
            (ET.mkElement t a x
               [ET.mkElement st sa sx [ET.mkElement at' aa ax (l1 ++ l2) atl] stl] tl)
          = Ret r /\
          flat_map art_paragraphs (flat_map sec_articles r)
          = (flat_map art_paragraphs (flat_map sec_articles r1)
             ++ flat_map art_paragraphs (flat_map sec_articles r2))%list).
Proof.
  intros unescape c t a x tl l1 l2. split; [| split].
  - intros s1 s2 H1 H2.
    unfold tree_result. rewrite sections_of_app, H1, H2. cbn [bind].
    eexists. split; [reflexivity |]. split; [reflexivity |].
    cbn [doc_text set_text doc_title]. rewrite extract_text_lines.
    cbn [doc_title doc_sections]. rewrite section_lines_app. reflexivity.
  - intros st sa sx stl r1 r2. apply section_keeps_article_order.
  - intros st sa sx stl at' aa ax atl r1 r2. apply article_keeps_paragraph_order.
Qed.

Lemma tree_result_keeps_document_order_witness :
  (exists d,
     tree_result HtmlModel.unescape true
       (ET.mkElement "DOC" [("title", "T")] None
          ([section_el "S1" [article_el "A1" [paragraph_el "p1"; paragraph_el "p2"];
                             article_el "A2" [paragraph_el "p3"]]]
           ++ [section_el "S2" [article_el "A3" [paragraph_el "p4"]]])
          None) = Ret d /\
     doc_sections d
     = Some ([mkSection "S1" [mkArticle "A1" ["p1"; "p2"]; mkArticle "A2" ["p3"]]]
             ++ [mkSection "S2" [mkArticle "A3" ["p4"]]])%list /\
     doc_text d
     = Some ("【T】" ++ LF ++ LF ++ "■ A1" ++ LF ++ "- p1" ++ LF ++ "- p2" ++ LF
             ++ LF ++ "■ A2" ++ LF ++ "- p3" ++ LF
             ++ LF ++ "■ A3" ++ LF ++ "- p4")) /\
  (exists r,
     sections_of HtmlModel.unescape true
       (ET.mkElement "DOC" [("title", "T")] None
          [section_el "S1" ([article_el "A1" [paragraph_el "p1"; paragraph_el "p2"]]
                            ++ [article_el "A2" [paragraph_el "p3"]])] None) = Ret r /\
     flat_map sec_articles r
     = ([mkArticle "A1" ["p1"; "p2"]] ++ [mkArticle "A2" ["p3"]])%list) /\
  (exists r,
     sections_of HtmlModel.unescape true
       (ET.mkElement "DOC" [("title", "T")] None
          [section_el "S1" [article_el "A1" ([paragraph_el "p1"] ++ [paragraph_el "p2"])]]
          None) = Ret r /\
     flat_map art_paragraphs (flat_map sec_articles r) = (["p1"] ++ ["p2"])%list).
Proof.
  split; [| split].
  - assert (H1 : sections_of HtmlModel.unescape true
                   (ET.mkElement "DOC" [("title", "T")] None
                      [section_el "S1"
                         [article_el "A1" [paragraph_el "p1"; paragraph_el "p2"];
                          article_el "A2" [paragraph_el "p3"]]] None)
                 = Ret [mkSection "S1" [mkArticle "A1" ["p1"; "p2"];
                                        mkArticle "A2" ["p3"]]])
      by (vm_compute; reflexivity).
    assert (H2 : sections_of HtmlModel.unescape true
                   (ET.mkElement "DOC" [("title", "T")] None
                      [section_el "S2" [article_el "A3" [paragraph_el "p4"]]] None)
                 = Ret [mkSection "S2" [mkArticle "A3" ["p4"]]])
      by (vm_compute; reflexivity).
    destruct (proj1 (tree_result_keeps_document_order HtmlModel.unescape true
                       "DOC" [("title", "T")] None None _ _) _ _ H1 H2)
      as (d & Hd & Hsecs & Htext).
    exists d. split; [exact Hd |]. split; [exact Hsecs |].
    rewrite Htext, (proj1 (proj2 (tree_result_type _ _ _ _ Hd))).
    vm_compute. reflexivity.
  - assert (H1 : sections_of HtmlModel.unescape true
                   (ET.mkElement "DOC" [("title", "T")] None
                      [ET.mkElement "SECTION" [("title", "S1")] None
                         [article_el "A1" [paragraph_el "p1"; paragraph_el "p2"]]
                         None] None)
                 = Ret [mkSection "S1" [mkArticle "A1" ["p1"; "p2"]]])
      by (vm_compute; reflexivity).
    assert (H2 : sections_of HtmlModel.unescape true
                   (ET.mkElement "DOC" [("title", "T")] None
                      [ET.mkElement "SECTION" [("title", "S1")] None
                         [article_el "A2" [paragraph_el "p3"]] None] None)
                 = Ret [mkSection "S1" [mkArticle "A2" ["p3"]]])
      by (vm_compute; reflexivity).
    destruct (proj1 (proj2 (tree_result_keeps_document_order HtmlModel.unescape true
                              "DOC" [("title", "T")] None None _ _))
                _ _ _ _ _ _ H1 H2) as (r & Hr & Hflat).
    exists r. split; [exact Hr | rewrite Hflat; reflexivity].
  - assert (H1 : sections_of HtmlModel.unescape true
                   (ET.mkElement "DOC" [("title", "T")] None
                      [ET.mkElement "SECTION" [("title", "S1")] None
                         [ET.mkElement "ARTICLE" [("title", "A1")] None
                            [paragraph_el "p1"] None] None] None)
                 = Ret [mkSection "S1" [mkArticle "A1" ["p1"]]])
      by (vm_compute; reflexivity).
    assert (H2 : sections_of HtmlModel.unescape true
                   (ET.mkElement "DOC" [("title", "T")] None
                      [ET.mkElement "SECTION" [("title", "S1")] None
                         [ET.mkElement "ARTICLE" [("title", "A1")] None
                            [paragraph_el "p2"] None] None] None)
                 = Ret [mkSection "S1" [mkArticle "A1" ["p2"]]])
      by (vm_compute; reflexivity).
    destruct (proj2 (proj2 (tree_result_keeps_document_order HtmlModel.unescape true
                              "DOC" [("title", "T")] None None _ _))
                _ _ _ _ _ _ _ _ _ _ H1 H2) as (r & Hr & Hflat).
    exists r. split; [exact Hr | rewrite Hflat; reflexivity].
Defined.

Lemma paragraph_text_without_marker (unescape : string -> outcome string)
    (p : ET.Element) :
  Py.contains "![CDATA[" (match ET.text p with Some t => t | None => "" end) = false ->
  paragraph_text unescape true p = paragraph_text unescape false p.
Proof.
  intros H. unfold paragraph_text. cbv zeta. rewrite H. reflexivity.
Qed.

(** X2. The two copies of the tree walk agree.  On a tree in which no
    paragraph text contains [![CDATA[] (the parser has already resolved
    the CDATA sections), the walk of the first tier, which removes CDATA
    markers, and the walk of the second tier, which does not, give the
    same result. *)
Theorem tree_tiers_agree :
  forall (unescape : string -> outcome string) (root : ET.Element),
    no_cdata_marker root = true ->
    tree_result unescape true root = tree_result unescape false root.
Proof.
  intros unescape root Hroot.
  unfold no_cdata_marker in Hroot. rewrite forallb_forall in Hroot.
  assert (Hsecs : sections_of unescape true root = sections_of unescape false root).
  { unfold sections_of. apply collect_ext. intros section Hsec.
    specialize (Hroot section Hsec). rewrite forallb_forall in Hroot.
    assert (Harts : articles_of unescape true section
                    = articles_of unescape false section).
    { unfold articles_of. apply collect_ext. intros article Hart.
      specialize (Hroot article Hart). rewrite forallb_forall in Hroot.
      rewrite (collect_ext (paragraph_text unescape true)
                           (paragraph_text unescape false)); [reflexivity |].
      intros p Hp. apply paragraph_text_without_marker.
      apply negb_true_iff. apply Hroot. exact Hp. }
    rewrite Harts. reflexivity. }
  unfold tree_result. rewrite Hsecs. reflexivity.
Qed.

Lemma tree_tiers_agree_witness :
  tree_result HtmlModel.unescape true
    (ET.mkElement "DOC" [("title", "T")] None
       [ET.mkElement "SECTION" [] None [blank_article; kept_article] None] None)
  = tree_result HtmlModel.unescape false
      (ET.mkElement "DOC" [("title", "T")] None
         [ET.mkElement "SECTION" [] None [blank_article; kept_article] None] None).
Proof.
  apply tree_tiers_agree. vm_compute. reflexivity.
Defined.

(* ------------------------------------------------------------------ *)
(** ** Further properties: the outermost handler and the caller *)

Lemma py_len_append (a b : string) : Py.py_len (a ++ b) = Py.py_len a + Py.py_len b.
Proof.
  induction a as [| c a IH]; [reflexivity |].
  cbn [append Py.py_len]. rewrite IH. lia.
Qed.

Lemma py_len_take (n : nat) (s : string) : Py.py_len (Py.py_take n s) <= n.
Proof.
  revert n. induction s as [| c s IH]; intros n; cbn [Py.py_take Py.py_len]; [lia |].
  destruct (Py.is_continuation c) eqn:Hc.
  - cbn [Py.py_len]. rewrite Hc. apply IH.
  - destruct n as [| k]; cbn [Py.py_len]; [lia |].
    rewrite Hc. specialize (IH k). lia.
Qed.

Lemma py_take_all (n : nat) (s : string) : Py.py_len s <= n -> Py.py_take n s = s.
Proof.
  revert n. induction s as [| c s IH]; intros n; cbn [Py.py_take Py.py_len]; [reflexivity |].
  destruct (Py.is_continuation c).
  - intros H. rewrite IH; [reflexivity | lia].
  - destruct n as [| k]; [lia |]. intros H. rewrite IH; [reflexivity | lia].
Qed.

(** X3. The copy of the input in an error result is bounded.  When the
    first tier fails with an exception other than [ParseError], the [raw]
    field has at most 503 characters, and it is the whole sanitized input
    when that has at most 500 characters. *)
Theorem raw_copy_is_bounded :
  forall (fromstring : string -> outcome ET.Element)
         (unescape : string -> outcome string) (s msg : string),
    s <> "" ->
    first_tier fromstring unescape s = Raise (Fault msg) ->
    exists d r,
      parse_xml_doc fromstring unescape s = Ret (Some d) /\
      doc_raw d = Some r /\
      Py.py_len r <= 503 /\
      (Py.py_len (sanitize s) <= 500 -> r = sanitize s).
Proof.
  intros fromstring unescape s msg Hs Hfault.
  rewrite (parse_xml_doc_nonempty _ _ _ Hs).
  unfold pipeline_result. rewrite Hfault.
  eexists. eexists. split; [reflexivity |]. split; [reflexivity |]. split.
  - rewrite py_len_append.
    pose proof (py_len_take 500 (sanitize s)) as Htake.
    assert (Hdots : Py.py_len "..." = 3) by reflexivity.
    destruct (500 <? Py.py_len (sanitize s)); [rewrite Hdots | cbn [Py.py_len]]; lia.
  - intros Hshort.
    destruct (500 <? Py.py_len (sanitize s)) eqn:Hlong.
    + apply Nat.ltb_lt in Hlong. lia.
    + rewrite py_take_all by exact Hshort.
      clear. induction (sanitize s) as [| c x IH]; [reflexivity |].
      cbn [append]. rewrite IH. reflexivity.
Qed.

Lemma raw_copy_is_bounded_witness :
  exists d r,
    Ref.parse_xml_doc long_reference_doc = Ret (Some d) /\
    doc_raw d = Some r /\
    Py.py_len r <= 503 /\
    (Py.py_len (sanitize long_reference_doc) <= 500 -> r = sanitize long_reference_doc).
Proof.
  apply (raw_copy_is_bounded XmlModel.fromstring HtmlModel.unescape long_reference_doc
           (HtmlModel.int_limit_message 4301)).
  - intros Hempty. vm_compute in Hempty. discriminate Hempty.
  - vm_compute. reflexivity.
Defined.

(** X4. The backup branch of the caller is never taken.  For a field with
    a value that is not empty the caller stores what [parse_xml_doc]
    returns, which is the result of the earliest tier that succeeds; the
    call of [extract_text_from_broken_xml] at line 518 is not reached,
    whatever the parser and the decoder raise. *)
Theorem parsed_field_stores_pipeline_result :
  forall (fromstring : string -> outcome ET.Element)
         (unescape : string -> outcome string) (value : string),
    value <> "" ->
    parsed_field fromstring unescape (Some value)
    = Ret (Some (Some (pipeline_result fromstring unescape value))).
Proof.
  intros fromstring unescape value Hv. unfold parsed_field.
  rewrite (truthy_nonempty value Hv).
  rewrite (parse_xml_doc_nonempty _ _ _ Hv). reflexivity.
Qed.

Lemma parsed_field_stores_pipeline_result_witness :
  Ref.parsed_field (Some "<DOC/>")
  = Ret (Some (Some (pipeline_result XmlModel.fromstring HtmlModel.unescape "<DOC/>"))).
Proof.
  apply (parsed_field_stores_pipeline_result XmlModel.fromstring HtmlModel.unescape).
  discriminate.
Defined.

Lemma collect_returns {A B : Type} (f : A -> outcome (list B)) (l : list A) :
  (forall x, exists r, f x = Ret r) -> exists ys, collect f l = Ret ys.
Proof.
  intros Hf. induction l as [| x l [more IH]]; cbn [collect].
  - eexists. reflexivity.
  - destruct (Hf x) as [r Hr]. rewrite Hr, IH. cbn [bind]. eexists. reflexivity.
Qed.

Section TotalDecoder.

Variable unescape : string -> outcome string.
Hypothesis unescape_returns : forall x, exists y, unescape x = Ret y.

Lemma clean_text_returns (x : string) : exists y, clean_text unescape x = Ret y.
Proof.
  unfold clean_text. cbv zeta.
  destruct (unescape_returns (Re.sub (Re.any_tag true) (const "") x)) as [y Hy].
  rewrite Hy. cbn [bind]. eexists. reflexivity.
Qed.

Lemma salvage_returns (s : string) : exists d, salvage unescape s = Ret d.
Proof.
  unfold salvage. cbv zeta.
  match goal with
  | |- context [collect ?f ?l] => destruct (collect_returns f l) as [ls Hls]
  end.
  { intros content. destruct (clean_text_returns content) as [y Hy]. rewrite Hy.
    cbn [bind]. eexists. reflexivity. }
  rewrite Hls. cbn [bind].
  match goal with |- context [if ?c then _ else _] => destruct c end.
  - unfold plain_text_fallback, meaningful_sentences. cbv zeta.
    match goal with
    | |- context [unescape ?x] => destruct (unescape_returns x) as [y Hy]; rewrite Hy
    end.
    cbn [bind]. eexists. reflexivity.
  - cbn [bind]. eexists. reflexivity.
Qed.

Lemma tree_result_returns (c : bool) (root : ET.Element) :
  exists d, tree_result unescape c root = Ret d.
Proof.
  assert (Hparas : forall p, exists r, paragraph_text unescape c p = Ret r).
  { intros p. unfold paragraph_text. cbv zeta.
    match goal with |- context [clean_text unescape ?x] =>
      destruct (clean_text_returns x) as [y Hy]; rewrite Hy end.
    cbn [bind]. eexists. reflexivity. }
  assert (Harts : forall sec, exists r, articles_of unescape c sec = Ret r).
  { intros sec. unfold articles_of. apply collect_returns. intros article.
    destruct (collect_returns (paragraph_text unescape c)
                (ET.findall article "PARAGRAPH") Hparas) as [ps Hps].
    rewrite Hps. cbn [bind]. eexists. reflexivity. }
  assert (Hsecs : exists r, sections_of unescape c root = Ret r).
  { unfold sections_of. apply collect_returns. intros section.
    destruct (Harts section) as [arts Ha]. rewrite Ha. cbn [bind].
    eexists. reflexivity. }
  destruct Hsecs as [secs Hsecs]. unfold tree_result.
  rewrite Hsecs. cbn [bind]. eexists. reflexivity.
Qed.

End TotalDecoder.

(** X5. The handlers of [extract_text_from_broken_xml] serve the decoder
    only.  With a decoder that does not raise, the regex salvage always
    returns, so the result of [extract_text_from_broken_xml] has the type
    [text_extraction] and a text, and the first tier raises only what the
    parser raises. *)
Theorem total_decoder_needs_no_handler :
  forall (fromstring : string -> outcome ET.Element)
         (unescape : string -> outcome string),
    (forall x, exists y, unescape x = Ret y) ->
    (forall s, exists d,
        extract_text_from_broken_xml unescape s = Ret d /\
        salvage unescape s = Ret d /\
        doc_type d = "text_extraction") /\
    (forall s e,
        first_tier fromstring unescape s = Raise e ->
        fromstring (sanitize s) = Raise e).
Proof.
  intros fromstring unescape Htotal.
  split.
  - intros s.
    destruct (salvage_returns unescape Htotal s) as [d Hd]. exists d.
    split; [| split; [exact Hd | apply (salvage_type _ _ _ Hd)]].
    unfold extract_text_from_broken_xml. rewrite Hd. reflexivity.
  - intros s e. unfold first_tier.
    destruct (fromstring (sanitize s)) as [root | e0]; cbn [bind];
      [| intros H; injection H as <-; reflexivity].
    intros Htree.
    destruct (tree_result_returns unescape Htotal true root) as [d Hd].
    rewrite Hd in Htree. discriminate Htree.
Qed.

Lemma total_decoder_needs_no_handler_witness :
  (forall s, exists d,
      extract_text_from_broken_xml (fun x => Ret x) s = Ret d /\
      salvage (fun x => Ret x) s = Ret d /\
      doc_type d = "text_extraction") /\
  (forall s e,
      first_tier XmlModel.fromstring (fun x => Ret x) s = Raise e ->
      XmlModel.fromstring (sanitize s) = Raise e).
Proof.
  apply total_decoder_needs_no_handler.
  intros x. exists x. reflexivity.
Defined.

(* ------------------------------------------------------------------ *)
(** ** Further properties: the page count *)

(** X6. The loop of [fetch_drug_approval_data] stops on the page count
    (line 536, [page_no >= estimated_pages]) exactly when the pages it has
    asked for hold [total_count] records: [estimated_pages] is the ceiling
    of the quotient. *)
Theorem estimated_pages_is_ceiling :
  forall total_count page_size page_no : nat,
    0 < page_size ->
    (estimated_pages total_count page_size <= page_no
     <-> total_count <= page_no * page_size).
Proof.
  intros total_count page_size page_no Hp. unfold estimated_pages.
  pose proof (Nat.div_mod_eq (total_count + page_size - 1) page_size) as Hdm.
  pose proof (Nat.mod_upper_bound (total_count + page_size - 1) page_size) as Hmod.
  set (q := (total_count + page_size - 1) / page_size) in *.
  set (r := (total_count + page_size - 1) mod page_size) in *.
  assert (Hr : r < page_size) by (apply Hmod; lia).
  split; intros H; nia.
Qed.

Lemma estimated_pages_is_ceiling_witness :
  estimated_pages 250 100 <= 3 <-> 250 <= 3 * 100.
Proof. apply estimated_pages_is_ceiling. lia. Defined.

(* ------------------------------------------------------------------ *)
(** ** Further properties: the text passes before the parse *)

Lemma findall_bare_amp_cons (c : ascii) (s : string) :
  Re.findall Re.bare_amp (String c s)
  = if Ascii.eqb c "&" && negb (Re.entity_follows s)
    then "" :: Re.findall Re.bare_amp s
    else Re.findall Re.bare_amp s.
Proof.
  unfold Re.findall, Re.scan. cbn [Re.scan_from Re.bare_amp].
  destruct (Ascii.eqb c "&"); [destruct (Re.entity_follows s) |]; reflexivity.
Qed.

(** X7. After the ampersand repair no bare ampersand is left: in its
    output the pattern of the repair matches nowhere, so every ampersand
    starts one of the listed entities. *)
Theorem no_bare_ampersand_after_repair :
  forall s, Re.findall Re.bare_amp (escape_bare_ampersands s) = [].
Proof.
  induction s as [| c s IH]; [reflexivity |].
  rewrite escape_cons.
  destruct (Ascii.eqb c "&" && negb (Re.entity_follows s)) eqn:Hc.
  - cbn [append]. rewrite findall_bare_amp_cons.
    replace (Re.entity_follows
               (String "a" (String "m" (String "p" (String ";" (escape_bare_ampersands s))))))
      with true by (destruct (escape_bare_ampersands s); reflexivity).
    rewrite andb_false_r.
    rewrite !findall_bare_amp_cons. cbn [Ascii.eqb Bool.eqb andb]. exact IH.
  - rewrite findall_bare_amp_cons, entity_follows_escape, Hc. exact IH.
Qed.

Lemma scan_hits_Forall (P : string -> Prop) (m : Re.matcher) :
  (forall s g n, m s = Some (g, n) -> P g) ->
  forall s k, Forall P (Re.hits (Re.scan_from m s k)).
Proof.
  intros Hm. induction s as [| c s IH]; intros k; cbn [Re.scan_from]; [constructor |].
  destruct k as [| k]; [| apply IH].
  destruct (m (String c s)) as [[g n] |] eqn:Hg; cbn [Re.hits]; [| apply IH].
  constructor; [exact (Hm _ _ _ Hg) | apply IH].
Qed.

Lemma open_tag_at_end_group (s g : string) (n : nat) :
  Re.open_tag_at_end s = Some (g, n) -> g <> "".
Proof.
  unfold Re.open_tag_at_end, Re.lit_then.
  destruct (prefix "<" s); [| discriminate].
  set (rest := Py.drop (String.length "<") s).
  destruct (Re.span Py.is_word rest) as [| w ws] eqn:Hname; cbn [Py.is_empty];
    [discriminate |].
  destruct (Py.drop _ rest) as [| c' t]; [discriminate |].
  destruct (Ascii.eqb c' ">").
  - destruct (Py.contains "<" t); [discriminate |].
    intros H. injection H as <- _. discriminate.
  - destruct (Py.is_space c'); [| discriminate].
    destruct (Re.until_char ">" t) as [inner |]; [| discriminate].
    destruct (Py.contains "<" _); [discriminate |].
    intros H. injection H as <- _. discriminate.
Qed.

(** X8. The tag repair only appends, and at most one end tag: its output
    is the flattened text (CDATA markers removed, wrappers and line breaks
    replaced, ampersands escaped) or that text followed by one end tag
    with a name that is not empty. *)
Theorem tag_repair_appends_at_most_one_tag :
  forall s,
    tag_repair s = flatten_markup s \/
    exists tag, tag <> "" /\ tag_repair s = flatten_markup s ++ "</" ++ tag ++ ">".
Proof.
  intros s. unfold tag_repair. cbv zeta.
  pose proof (opened_tags_at_most_one (flatten_markup s)) as Hlen.
  assert (Hne : Forall (fun g => g <> "") (opened_tags (flatten_markup s))).
  { unfold opened_tags, Re.findall, Re.scan.
    apply scan_hits_Forall. exact open_tag_at_end_group. }
  destruct (opened_tags (flatten_markup s)) as [| tag [| tag2 more]].
  - left. reflexivity.
  - right. exists tag. split; [| reflexivity].
    inversion Hne. assumption.
  - cbn [List.length] in Hlen. lia.
Qed.

Lemma has_char_contains (c : ascii) (rest s : string) :
  has_char c s = false -> Py.contains (String c rest) s = false.
Proof.
  induction s as [| a s IH]; intros H; [reflexivity |].
  cbn [has_char] in H. apply orb_false_iff in H. destruct H as [Ha Hs].
  cbn [Py.contains prefix].
  destruct (ascii_dec c a) as [-> | _].
  - rewrite Ascii.eqb_refl in Ha. discriminate.
  - apply IH. exact Hs.
Qed.

Lemma scan_lit_then_absent (lit : string) (k : string -> option (string * nat))
    (s : string) :
  lit <> "" -> Py.contains lit s = false ->
  Re.sub (Re.lit_then lit k) identity s = s /\
  (forall r, Re.sub (Re.lit_then lit k) (const r) s = s) /\
  Re.findall (Re.lit_then lit k) s = [].
Proof.
  intros Hlit. unfold Re.sub, Re.findall, Re.scan.
  induction s as [| c s IH]; intros Habs.
  - repeat split; reflexivity.
  - cbn [Py.contains] in Habs.
    destruct (prefix lit (String c s)) eqn:Hp; [discriminate |].
    destruct (IH Habs) as (H1 & H2 & H3).
    assert (Hm : Re.lit_then lit k (String c s) = None).
    { unfold Re.lit_then. rewrite Hp. reflexivity. }
    cbn [Re.scan_from]. rewrite Hm.
    cbn [Re.subst Re.hits]. repeat split.
    + rewrite H1. reflexivity.
    + intros r. rewrite H2. reflexivity.
    + exact H3.
Qed.

Lemma escape_without_ampersand (s : string) :
  has_char "&" s = false -> escape_bare_ampersands s = s.
Proof.
  induction s as [| c s IH]; intros H; [reflexivity |].
  cbn [has_char] in H. apply orb_false_iff in H. destruct H as [Hc Hs].
  rewrite (escape_cons_other _ _ Hc), (IH Hs). reflexivity.
Qed.

(** X9. The passes before the parse leave alone what they are not meant
    for.  A text with no [sub] or [sup] opening tag and no CDATA opening
    marker is handed to the first parse as it is; and a text with neither
    [<] nor [&] goes through the tag repair as it is. *)
Theorem text_passes_are_identity_on_plain_text :
  forall s,
    (Py.contains "<sub>" s = false ->
     Py.contains "<sup>" s = false ->
     Py.contains "<![CDATA[" s = false ->
     sanitize s = s) /\
    (has_char "<" s = false -> has_char "&" s = false ->
     sanitize s = s /\ tag_repair s = s).
Proof.
  intros s.
  assert (Hsan : Py.contains "<sub>" s = false ->
                 Py.contains "<sup>" s = false ->
                 Py.contains "<![CDATA[" s = false ->
                 sanitize s = s).
  { intros Hsub Hsup Hcdata. unfold sanitize, unwrap_sub_sup.
    unfold Re.sub_tag, Re.sup_tag, Re.wrapped.
    rewrite (proj1 (scan_lit_then_absent "<sub>" _ s ltac:(discriminate) Hsub)).
    rewrite (proj1 (scan_lit_then_absent "<sup>" _ s ltac:(discriminate) Hsup)).
    unfold repair_cdata_blocks, Re.cdata, Re.wrapped.
    rewrite (proj2 (proj2 (scan_lit_then_absent "<![CDATA[" _ s ltac:(discriminate) Hcdata))).
    reflexivity. }
  split; [exact Hsan |].
  intros Hlt Hamp.
  pose proof (has_char_contains "<" "sub>" s Hlt) as Hsub.
  pose proof (has_char_contains "<" "sup>" s Hlt) as Hsup.
  pose proof (has_char_contains "<" "![CDATA[" s Hlt) as Hcdata.
  pose proof (has_char_contains "<" "br" s Hlt) as Hbr.
  pose proof (has_char_contains "<" "" s Hlt) as Hopen.
  split; [exact (Hsan Hsub Hsup Hcdata) |].
  unfold tag_repair, flatten_markup, strip_cdata_markers, unwrap_sub_sup. cbv zeta.
  unfold Re.sub_tag, Re.sup_tag, Re.cdata, Re.wrapped, Re.br_tag.
  rewrite (proj1 (scan_lit_then_absent "<![CDATA[" _ s ltac:(discriminate) Hcdata)).
  rewrite (proj1 (scan_lit_then_absent "<sub>" _ s ltac:(discriminate) Hsub)).
  rewrite (proj1 (scan_lit_then_absent "<sup>" _ s ltac:(discriminate) Hsup)).
  rewrite (proj1 (proj2 (scan_lit_then_absent "<br" _ s ltac:(discriminate) Hbr))).
  rewrite (escape_without_ampersand s Hamp).
  unfold opened_tags, Re.open_tag_at_end.
  rewrite (proj2 (proj2 (scan_lit_then_absent "<" _ s ltac:(discriminate) Hopen))).
  reflexivity.
Qed.

Lemma text_passes_are_identity_on_plain_text_witness :
  sanitize "<DOC title='T'><br/>a &amp; b</DOC>" = "<DOC title='T'><br/>a &amp; b</DOC>" /\
  sanitize "plain prose, no markup" = "plain prose, no markup" /\
  tag_repair "plain prose, no markup" = "plain prose, no markup".
Proof.
  split.
  - apply (proj1 (text_passes_are_identity_on_plain_text _)); vm_compute; reflexivity.
  - apply (proj2 (text_passes_are_identity_on_plain_text _)); vm_compute; reflexivity.
Defined.

(* ------------------------------------------------------------------ *)
(** ** Further properties: the cleaned text *)

Lemma prefix_nil (s : string) : prefix "" s = true.
Proof. destruct s; reflexivity. Qed.

Lemma has_char_append (c : ascii) (a b : string) :
  has_char c (a ++ b) = has_char c a || has_char c b.
Proof.
  induction a as [| x a IH]; [reflexivity |].
  cbn [append has_char]. rewrite IH, orb_assoc. reflexivity.
Qed.

Lemma replace_from_keeps_absent (c : ascii) (old new s : string) (k : nat) :
  has_char c new = false -> has_char c s = false ->
  has_char c (Py.replace_from old new s k) = false.
Proof.
  intros Hnew. revert k. induction s as [| a s IH]; intros k Hs; [reflexivity |].
  cbn [has_char] in Hs. apply orb_false_iff in Hs. destruct Hs as [Ha Hs].
  cbn [Py.replace_from]. destruct k as [| k]; [| apply IH; exact Hs].
  destruct (prefix old (String a s)).
  - rewrite has_char_append, Hnew. apply IH. exact Hs.
  - cbn [has_char]. rewrite Ha. apply IH. exact Hs.
Qed.

Lemma replace_char_removes (c : ascii) (new s : string) :
  has_char c new = false ->
  has_char c (Py.replace (String c EmptyString) new s) = false.
Proof.
  intros Hnew. unfold Py.replace.
  induction s as [| a s IH]; [reflexivity |].
  cbn [Py.replace_from prefix].
  destruct (ascii_dec c a) as [<- | Hne].
  - rewrite prefix_nil. cbn [String.length pred].
    rewrite has_char_append, Hnew. exact IH.
  - cbn [has_char].
    destruct (Ascii.eqb_spec a c) as [-> | _]; [congruence | exact IH].
Qed.

Lemma subst_const_keeps_absent (c : ascii) (r : string) (m : Re.matcher)
    (s : string) (k : nat) :
  has_char c r = false -> has_char c s = false ->
  has_char c (Re.subst (const r) (Re.scan_from m s k)) = false.
Proof.
  intros Hr. revert k. induction s as [| a s IH]; intros k Hs; [reflexivity |].
  cbn [has_char] in Hs. apply orb_false_iff in Hs. destruct Hs as [Ha Hs].
  cbn [Re.scan_from]. destruct k as [| k]; [| apply IH; exact Hs].
  destruct (m (String a s)) as [[g n] |]; cbn [Re.subst].
  - unfold const at 1. rewrite has_char_append, Hr. apply IH. exact Hs.
  - cbn [has_char]. rewrite Ha. apply IH. exact Hs.
Qed.

Lemma lstrip_keeps_absent (c : ascii) (s : string) :
  has_char c s = false -> has_char c (Py.lstrip s) = false.
Proof.
  induction s as [| a s IH]; intros Hs; [reflexivity |].
  cbn [Py.lstrip]. destruct (Py.is_space a); [| exact Hs].
  cbn [has_char] in Hs. apply orb_false_iff in Hs. apply IH, Hs.
Qed.

Lemma rstrip_keeps_absent (c : ascii) (s : string) :
  has_char c s = false -> has_char c (Py.rstrip s) = false.
Proof.
  induction s as [| a s IH]; intros Hs; [reflexivity |].
  cbn [has_char] in Hs. apply orb_false_iff in Hs. destruct Hs as [Ha Hs].
  cbn [Py.rstrip]. cbv zeta.
  destruct (Py.is_space a && Py.is_empty (Py.rstrip s)); [reflexivity |].
  cbn [has_char]. rewrite Ha. apply IH. exact Hs.
Qed.

Lemma strip_keeps_absent (c : ascii) (s : string) :
  has_char c s = false -> has_char c (Py.strip s) = false.
Proof.
  intros H. unfold Py.strip. apply rstrip_keeps_absent, lstrip_keeps_absent, H.
Qed.

(** *** Runs of spaces *)

Lemma has_double_space_cons (a : ascii) (s : string) :
  has_double_space (String a s)
  = (Ascii.eqb a " " && starts_with_space s) || has_double_space s.
Proof. destruct s; reflexivity. Qed.

Lemma scan_from_drop (m : Re.matcher) (s : string) (k : nat) :
  k <= String.length s -> Re.scan_from m s k = Re.scan_from m (Py.drop k s) 0.
Proof.
  revert k. induction s as [| c s IH]; intros k Hk.
  - destruct k; reflexivity.
  - destruct k as [| k]; [reflexivity |].
    cbn [Re.scan_from Py.drop]. apply IH. cbn [String.length] in Hk. lia.
Qed.

Lemma span_length (cls : ascii -> bool) (s : string) :
  String.length (Re.span cls s) <= String.length s.
Proof.
  induction s as [| c s IH]; [cbn; lia |].
  cbn [Re.span]. destruct (cls c); cbn [String.length]; lia.
Qed.

Lemma drop_length (k : nat) (s : string) :
  String.length (Py.drop k s) <= String.length s.
Proof.
  revert k. induction s as [| c s IH]; intros k.
  - destruct k; cbn; lia.
  - destruct k as [| k]; cbn [Py.drop String.length]; [lia |].
    specialize (IH k). lia.
Qed.

Lemma after_spaces_no_space (s : string) :
  starts_with_space (Py.drop (String.length (Re.span (Ascii.eqb " ") s)) s) = false.
Proof.
  induction s as [| c s IH]; [reflexivity |].
  cbn [Re.span]. destruct (Ascii.eqb " " c) eqn:Hc.
  - cbn [String.length Py.drop]. exact IH.
  - cbn [String.length Py.drop starts_with_space].
    rewrite Ascii.eqb_sym. exact Hc.
Qed.

Lemma collapse_cons_space (s : string) :
  Re.sub Re.spaces (const " ") (String " " s)
  = String " " (Re.sub Re.spaces (const " ")
                  (Py.drop (String.length (Re.span (Ascii.eqb " ") s)) s)).
Proof.
  unfold Re.sub, Re.scan. cbn [Re.scan_from].
  unfold Re.spaces at 1. cbn [Re.span Ascii.eqb Bool.eqb String.length pred Re.subst].
  rewrite scan_from_drop by apply span_length. reflexivity.
Qed.

Lemma collapse_cons_other (c : ascii) (s : string) :
  Ascii.eqb c " " = false ->
  Re.sub Re.spaces (const " ") (String c s)
  = String c (Re.sub Re.spaces (const " ") s).
Proof.
  intros Hc. unfold Re.sub, Re.scan. cbn [Re.scan_from].
  unfold Re.spaces at 1. cbn [Re.span]. rewrite Ascii.eqb_sym, Hc. reflexivity.
Qed.

Lemma collapse_spaces_bounded (n : nat) (s : string) :
  String.length s <= n ->
  has_double_space (Re.sub Re.spaces (const " ") s) = false /\
  (starts_with_space s = false ->
   starts_with_space (Re.sub Re.spaces (const " ") s) = false).
Proof.
  revert s. induction n as [| n IH]; intros s Hn.
  - destruct s; [split; reflexivity | cbn [String.length] in Hn; lia].
  - destruct s as [| c s]; [split; reflexivity |].
    cbn [String.length] in Hn.
    destruct (Ascii.eqb c " ") eqn:Hc.
    + apply Ascii.eqb_eq in Hc. subst c. rewrite collapse_cons_space.
      set (rest := Py.drop (String.length (Re.span (Ascii.eqb " ") s)) s).
      destruct (IH rest) as [Hdouble Hstart].
      { subst rest.
        pose proof (drop_length (String.length (Re.span (Ascii.eqb " ") s)) s). lia. }
      split; [| discriminate].
      rewrite has_double_space_cons, Hdouble.
      rewrite (Hstart (after_spaces_no_space s)). reflexivity.
    + rewrite (collapse_cons_other _ _ Hc).
      destruct (IH s ltac:(lia)) as [Hdouble _].
      split.
      * rewrite has_double_space_cons, Hc, Hdouble. reflexivity.
      * intros _. cbn [starts_with_space]. exact Hc.
Qed.

Lemma collapse_spaces_no_double (s : string) :
  has_double_space (Re.sub Re.spaces (const " ") s) = false.
Proof. apply (collapse_spaces_bounded (String.length s) s). lia. Qed.

Lemma lstrip_keeps_single (s : string) :
  has_double_space s = false -> has_double_space (Py.lstrip s) = false.
Proof.
  induction s as [| a s IH]; intros Hs; [reflexivity |].
  cbn [Py.lstrip]. destruct (Py.is_space a); [| exact Hs].
  rewrite has_double_space_cons in Hs. apply orb_false_iff in Hs. apply IH, Hs.
Qed.

Lemma rstrip_head (s : string) :
  starts_with_space (Py.rstrip s) = true -> starts_with_space s = true.
Proof.
  destruct s as [| a s]; [discriminate |].
  cbn [Py.rstrip]. cbv zeta.
  destruct (Py.is_space a && Py.is_empty (Py.rstrip s)); [discriminate |].
  intros H. exact H.
Qed.

Lemma rstrip_keeps_single (s : string) :
  has_double_space s = false -> has_double_space (Py.rstrip s) = false.
Proof.
  induction s as [| a s IH]; intros Hs; [reflexivity |].
  rewrite has_double_space_cons in Hs. apply orb_false_iff in Hs.
  destruct Hs as [Hhead Hs].
  cbn [Py.rstrip]. cbv zeta.
  destruct (Py.is_space a && Py.is_empty (Py.rstrip s)); [reflexivity |].
  rewrite has_double_space_cons, (IH Hs), orb_false_r.
  destruct (Ascii.eqb a " "); [| reflexivity].
  cbn [andb] in *.
  destruct (starts_with_space (Py.rstrip s)) eqn:Hr; [| reflexivity].
  apply rstrip_head in Hr. congruence.
Qed.

(** *** The ends *)

Lemma rstrip_idempotent (s : string) : Py.rstrip (Py.rstrip s) = Py.rstrip s.
Proof.
  induction s as [| a s IH]; [reflexivity |].
  cbn [Py.rstrip]. cbv zeta.
  destruct (Py.is_space a && Py.is_empty (Py.rstrip s)) eqn:Hc; [reflexivity |].
  cbn [Py.rstrip]. cbv zeta. rewrite IH, Hc. reflexivity.
Qed.

Lemma strip_idempotent (s : string) : Py.strip (Py.strip s) = Py.strip s.
Proof.
  unfold Py.strip.
  assert (Hl : Py.lstrip (Py.rstrip (Py.lstrip s)) = Py.rstrip (Py.lstrip s)).
  { assert (Hhead : forall x, x = Py.lstrip s ->
                      x = "" \/ exists a t, x = String a t /\ Py.is_space a = false).
    { intros x ->. induction s as [| a s IH]; [left; reflexivity |].
      cbn [Py.lstrip]. destruct (Py.is_space a) eqn:Ha; [exact IH |].
      right. exists a, s. split; [reflexivity | exact Ha]. }
    destruct (Hhead _ eq_refl) as [-> | (a & t & -> & Ha)]; [reflexivity |].
    cbn [Py.rstrip]. cbv zeta. rewrite Ha. cbn [andb Py.lstrip]. rewrite Ha.
    reflexivity. }
  rewrite Hl. apply rstrip_idempotent.
Qed.

Lemma clean_text_cleaned (unescape : string -> outcome string) (x y : string) :
  clean_text unescape x = Ret y -> cleaned y.
Proof.
  unfold clean_text. cbv zeta.
  destruct (unescape _) as [u | e]; [| discriminate]. cbn [bind].
  intros H. injection H as <-. unfold cleaned. repeat split.
  - apply strip_keeps_absent. unfold Re.sub, Re.scan.
    apply subst_const_keeps_absent; [reflexivity |].
    apply replace_from_keeps_absent; [reflexivity |].
    apply (replace_char_removes (ascii_of_nat 13) ""). reflexivity.
  - apply strip_keeps_absent. unfold Re.sub, Re.scan.
    apply subst_const_keeps_absent; [reflexivity |].
    apply (replace_char_removes (ascii_of_nat 9) " "). reflexivity.
  - unfold Py.strip. apply rstrip_keeps_single, lstrip_keeps_single.
    apply collapse_spaces_no_double.
  - apply strip_idempotent.
Qed.

Lemma sections_of_paragraphs (unescape : string -> outcome string)
    (P : string -> Prop) (c : bool) (root : ET.Element) (secs : list section_data) :
  (forall x y, clean_text unescape x = Ret y -> P y) ->
  sections_of unescape c root = Ret secs ->
  Forall (fun sec => Forall (fun a => Forall P (art_paragraphs a)) (sec_articles sec))
         secs.
Proof.
  intros HP. unfold sections_of. apply collect_Forall. intros section r _.
  destruct (articles_of unescape c section) as [arts | e] eqn:Harts; [| discriminate].
  cbn [bind sec_articles]. intros H. injection H as <-.
  destruct (negb (Nat.eqb (List.length arts) 0)); constructor; [| constructor].
  cbn [sec_articles]. revert Harts. unfold articles_of.
  apply collect_Forall. intros article r _.
  destruct (collect (paragraph_text unescape c) _) as [ps | e] eqn:Hps; [| discriminate].
  cbn [bind art_paragraphs art_title]. intros H. injection H as <-.
  destruct (_ || _); constructor; [| constructor].
  cbn [art_paragraphs]. revert Hps.
  apply collect_Forall. intros p r _.
  unfold paragraph_text. cbv zeta.
  destruct (clean_text unescape _) as [t | e] eqn:Ht; [| discriminate].
  cbn [bind]. intros H. injection H as <-.
  destruct (Py.truthy t); constructor; [| constructor].
  exact (HP _ _ Ht).
Qed.

(** X10. Every paragraph of a result is normalised: whatever the parser
    and the decoder give, a paragraph kept in the sections of a result
    has no carriage return, no tab, no two spaces in a row and no white
    space at its ends. *)
Theorem retained_paragraphs_are_cleaned :
  forall (fromstring : string -> outcome ET.Element)
         (unescape : string -> outcome string)
         (s : string) (d : parsed_doc) (secs : list section_data),
    parse_xml_doc fromstring unescape s = Ret (Some d) ->
    doc_sections d = Some secs ->
    Forall (fun sec =>
              Forall (fun a => Forall cleaned (art_paragraphs a)) (sec_articles sec))
           secs.
Proof.
  intros fromstring unescape s d secs Hres Hsecs.
  assert (Hs : s <> "").
  { intros ->. discriminate Hres. }
  rewrite (parse_xml_doc_nonempty _ _ _ Hs) in Hres.
  injection Hres as <-.
  assert (Htier : forall c x d0,
             (root <- fromstring x ;; tree_result unescape c root) = Ret d0 ->
             doc_sections d0 = Some secs ->
             Forall (fun sec =>
                       Forall (fun a => Forall cleaned (art_paragraphs a))
                              (sec_articles sec)) secs).
  { intros c x d0. destruct (fromstring x) as [root | e]; cbn [bind]; [| discriminate].
    unfold tree_result.
    destruct (sections_of unescape c root) as [secs0 | e] eqn:Hs0; [| discriminate].
    cbn [bind]. intros H. injection H as <-. cbn. intros H. injection H as <-.
    apply (sections_of_paragraphs unescape cleaned c root secs0); [| exact Hs0].
    apply clean_text_cleaned. }
  unfold pipeline_result in Hsecs.
  destruct (first_tier fromstring unescape s) as [d | [m | m]] eqn:Hfirst.
  - exact (Htier _ _ _ Hfirst Hsecs).
  - destruct (second_tier fromstring unescape s) as [d | e] eqn:Hsecond.
    + exact (Htier _ _ _ Hsecond Hsecs).
    + unfold broken_xml_result in Hsecs.
      destruct (salvage unescape (tag_repair (sanitize s))) as [d | e1] eqn:Hsalv.
      * apply salvage_type in Hsalv. destruct Hsalv as (_ & Hnone & _). congruence.
      * destruct (raw_text_result unescape (tag_repair (sanitize s)))
          as [d | e2] eqn:Hraw.
        -- apply raw_text_type in Hraw. destruct Hraw as (_ & Hnone & _). congruence.
        -- discriminate Hsecs.
  - discriminate Hsecs.
Qed.

Lemma retained_paragraphs_are_cleaned_witness :
  Forall (fun sec =>
            Forall (fun a => Forall cleaned (art_paragraphs a)) (sec_articles sec))
         [mkSection "" [mkArticle "" ["two spaces and a tab"]]].
Proof.
  apply (retained_paragraphs_are_cleaned XmlModel.fromstring HtmlModel.unescape
           messy_doc
           (mkDoc "" "" (Some [mkSection "" [mkArticle "" ["two spaces and a tab"]]])
                  (Some "- two spaces and a tab") None None)).
  - vm_compute. reflexivity.
  - reflexivity.
Defined.

(* ------------------------------------------------------------------ *)
(** ** Further properties: the regex salvage *)

Lemma prefix_append (a b : string) : prefix a (a ++ b) = true.
Proof.
  induction a as [| c a IH]; [apply prefix_nil |].
  cbn [append prefix]. destruct (ascii_dec c c); [exact IH | congruence].
Qed.

Lemma prefix_same (a : string) : prefix a a = true.
Proof.
  induction a as [| c a IH]; [reflexivity |].
  cbn [prefix]. destruct (ascii_dec c c); [exact IH | congruence].
Qed.

Lemma prefix_join_head (sep p : string) (rest : list string) :
  prefix p (Py.join sep (p :: rest)) = true.
Proof.
  destruct rest as [| q rest]; cbn [Py.join]; [apply prefix_same | apply prefix_append].
Qed.

Lemma quoted_after_group (lit s g : string) (n : nat) :
  Re.quoted_after lit s = Some (g, n) -> g <> "".
Proof.
  unfold Re.quoted_after, Re.lit_then.
  destruct (prefix _ s); [| discriminate].
  destruct (Re.until_char Re.dquote _) as [[| c v] |]; try discriminate.
  intros H. injection H as <- _. discriminate.
Qed.

(** X11. What the regex salvage always gives: a title that is not empty
    (the first [title] attribute value of the text, or the default
    title), no sections, and a text that begins with the title in its
    brackets. *)
Theorem salvage_text_begins_with_title :
  forall (unescape : string -> outcome string) (x : string) (d : parsed_doc),
    salvage unescape x = Ret d ->
    doc_title d <> "" /\
    doc_sections d = None /\
    exists t, doc_text d = Some t /\ prefix (title_header (doc_title d)) t = true.
Proof.
  intros unescape x d. unfold salvage. cbv zeta.
  destruct (collect _ _) as [ls | e]; [| discriminate]. cbn [bind].
  set (y := Re.sub Re.br_tag (const " ") (unwrap_sub_sup (strip_cdata_markers x))).
  set (title := match Re.search Re.title_attr y with
                | Some t => t
                | None => "제목 없음"
                end).
  assert (Htitle : title <> "").
  { subst title. unfold Re.search.
    pose proof (scan_hits_Forall (fun g => g <> "") Re.title_attr
                  (quoted_after_group "title=") y 0) as Hall.
    unfold Re.findall, Re.scan.
    destruct (Re.hits (Re.scan_from Re.title_attr y 0)) as [| g gs].
    - discriminate.
    - inversion Hall. assumption. }
  set (lines := app (flat_map _ _) ls).
  assert (Hjoin : prefix (title_header title)
                    (Py.join LF (app [title_header title] lines)) = true).
  { cbn [app]. apply prefix_join_head. }
  set (text := Py.join LF (app [title_header title] lines)) in *.
  destruct (String.eqb text (title_header title)).
  - unfold plain_text_fallback.
    destruct (meaningful_sentences unescape y) as [sentences | e]; [| discriminate].
    cbn [bind]. intros H. injection H as <-.
    split; [exact Htitle |]. split; [reflexivity |].
    eexists. split; [reflexivity |].
    destruct sentences; apply prefix_append.
  - cbn [bind]. intros H. injection H as <-.
    split; [exact Htitle |]. split; [reflexivity |].
    exists text. split; [reflexivity | exact Hjoin].
Qed.

Lemma salvage_text_begins_with_title_witness :
  "C" <> "" /\
  @None (list section_data) = None /\
  exists t,
    Some ("【C】" ++ LF ++ LF ++ "■ C" ++ LF ++ "- note") = Some t /\
    prefix (title_header "C") t = true.
Proof.
  apply (salvage_text_begins_with_title HtmlModel.unescape mismatched_doc
           (mkDoc "C" "text_extraction" None
                  (Some ("【C】" ++ LF ++ LF ++ "■ C" ++ LF ++ "- note")) None None)).
  vm_compute. reflexivity.
Defined.

(* ------------------------------------------------------------------ *)
(** ** Further properties: the records *)

Section RecordFacts.

Import Feed.

Variable fromstring : string -> outcome ET.Element.
Variable unescape : string -> outcome string.

Lemma jval_eqb_eq (a b : jval) : jval_eqb a b = true <-> a = b.
Proof.
  destruct a as [| x], b as [| y]; cbn; split; intros H;
    try reflexivity; try discriminate.
  - apply String.eqb_eq in H. congruence.
  - injection H as ->. apply String.eqb_refl.
Qed.

Lemma mem_In (x : jval) (l : list jval) : mem x l = true <-> In x l.
Proof.
  unfold mem. rewrite existsb_exists. split.
  - intros (y & Hy & Heq). apply jval_eqb_eq in Heq. subst. exact Hy.
  - intros H. exists x. split; [exact H | apply jval_eqb_eq; reflexivity].
Qed.

Lemma mem_app (x : jval) (l1 l2 : list jval) :
  mem x (l1 ++ l2) = mem x l1 || mem x l2.
Proof. unfold mem. apply existsb_app. Qed.

(** The value a record has for a required field is the value of the item,
    the name of the class apart. *)
Lemma required_fields_get (it : item) (key : string) :
  In key REQUIRED_FIELDS -> key <> "ETC_OTC_NAME" ->
  get key (required_fields it) = Some (get_or key (JStr "") it).
Proof.
  intros Hin Hne. unfold required_fields. cbv zeta.
  match goal with |- context [if ?c then _ else _] => destruct c end;
    (repeat (destruct Hin as [<- | Hin]; [try reflexivity; congruence |]));
    destruct Hin.
Qed.

Lemma required_fields_keys (it : item) :
  map fst (required_fields it) = REQUIRED_FIELDS.
Proof.
  unfold required_fields. cbv zeta.
  match goal with |- context [if ?c then _ else _] => destruct c end; reflexivity.
Qed.

Lemma required_fields_class_name (it : item) :
  truthy (get_or "ETC_OTC_CODE" JNull (required_fields it)) = true ->
  truthy (get_or "ETC_OTC_NAME" JNull (required_fields it)) = true.
Proof.
  unfold required_fields. cbv zeta.
  match goal with |- context [if ?c then _ else _] => destruct c eqn:Hc end.
  - apply andb_true_iff in Hc. destruct Hc as [Hcode _].
    intros _. exact Hcode.
  - intros Hcode. apply andb_false_iff in Hc. destruct Hc as [Hc | Hc].
    + unfold get_or in Hc, Hcode. cbn in Hc, Hcode. congruence.
    + apply negb_false_iff in Hc. exact Hc.
Qed.


Lemma parsed_field_stored (v : jval) :
  parsed_field fromstring unescape (document_of v)
  = Ret (stored_document fromstring unescape v).
Proof.
  destruct v as [| s]; [reflexivity |].
  cbn [document_of stored_document].
  destruct s as [| c s]; [reflexivity |].
  cbn [Py.truthy Py.is_empty negb].
  unfold parsed_field. cbn [Py.truthy Py.is_empty negb].
  rewrite parse_xml_doc_nonempty by discriminate. reflexivity.
Qed.

Lemma parsed_documents_returns (fields : list (string * jval)) :
  parsed_documents fromstring unescape fields
  = Ret (flat_map (fun field =>
           match stored_document fromstring unescape (get_or field JNull fields) with
           | Some parsed_doc => [(field ++ "_PARSED", parsed_doc)]
           | None => []
           end) DOC_FIELDS).
Proof.
  unfold parsed_documents. generalize DOC_FIELDS as l.
  induction l as [| field l IH]; [reflexivity |].
  cbn [collect flat_map]. rewrite parsed_field_stored. cbn [bind].
  rewrite IH. reflexivity.
Qed.

Lemma filtered_item_of_returns (it : item) :
  filtered_item_of fromstring unescape it
  = Ret (mkRecord (required_fields it)
           (flat_map (fun field =>
              match stored_document fromstring unescape
                      (get_or field JNull (required_fields it)) with
              | Some parsed_doc => [(field ++ "_PARSED", parsed_doc)]
              | None => []
              end) DOC_FIELDS)).
Proof.
  unfold filtered_item_of. cbv zeta. rewrite parsed_documents_returns. reflexivity.
Qed.

Lemma get_or_required (it : item) (key : string) (default : jval) :
  In key REQUIRED_FIELDS -> key <> "ETC_OTC_NAME" ->
  get_or key default (required_fields it) = get_or key (JStr "") it.
Proof.
  intros Hin Hne. unfold get_or at 1.
  rewrite (required_fields_get it key Hin Hne). reflexivity.
Qed.

(** What one item does to the variables of the loop. *)
Lemma item_step_cases (st st' : loop_state) (it : item) :
  item_step fromstring unescape st it = Ret st' ->
  (seen_item_sequences st' = seen_item_sequences st /\
   processed_items st' = processed_items st /\
   new_item_count st' = new_item_count st /\
   filtered_canceled_count st <= filtered_canceled_count st' /\
   filtered_export_count st <= filtered_export_count st' /\
   filtered_canceled_count st' + filtered_export_count st'
   <= S (filtered_canceled_count st + filtered_export_count st)) \/
  (exists r,
     seen_item_sequences st' = (seen_item_sequences st ++ [rec_seq r])%list /\
     processed_items st' = (processed_items st ++ [r])%list /\
     new_item_count st' = S (new_item_count st) /\
     filtered_canceled_count st' = filtered_canceled_count st /\
     filtered_export_count st' = filtered_export_count st /\
     mem (rec_seq r) (seen_item_sequences st) = false /\
     passes_filters r /\
     filtered_item_of fromstring unescape it = Ret r).
Proof.
  unfold item_step. cbv zeta.
  destruct (mem _ (seen_item_sequences st)) eqn:Hseen.
  { intros H. injection H as <-. left. repeat split; lia. }
  destruct (truthy (get_or "CANCEL_DATE" JNull it)) eqn:Hcancel.
  { intros H. injection H as <-. left. cbn. repeat split; lia. }
  destruct (get_or "ITEM_NAME" (JStr "") it) as [| item_name] eqn:Hname; [discriminate |].
  destruct (Py.contains EXPORT_MARK item_name) eqn:Hexport.
  { intros H. injection H as <-. left. cbn. repeat split; lia. }
  rewrite filtered_item_of_returns. cbn [bind]. intros H. injection H as <-.
  right. eexists. cbn.
  assert (Hseq : forall parsed,
             rec_seq (mkRecord (required_fields it) parsed)
             = get_or "ITEM_SEQ" (JStr "") it).
  { intros parsed. unfold rec_seq. cbn [rec_fields].
    apply get_or_required; [cbn; tauto | discriminate]. }
  rewrite Hseq. repeat split; try reflexivity.
  - exact Hseen.
  - cbn [rec_fields]. rewrite get_or_required by (cbn; tauto || discriminate).
    unfold get_or at 1.
    unfold get_or in Hcancel. destruct (get "CANCEL_DATE" it); [exact Hcancel | reflexivity].
  - exists item_name. cbn [rec_fields].
    rewrite get_or_required by (cbn; tauto || discriminate).
    split; [exact Hname | exact Hexport].
Qed.

(** The invariant of the item loop. *)
Lemma item_loop_invariant (items : list item) (st0 st : loop_state) :
  item_loop fromstring unescape items st0 = Ret st ->
  exists new,
    processed_items st = (processed_items st0 ++ new)%list /\
    seen_item_sequences st = (seen_item_sequences st0 ++ map rec_seq new)%list /\
    new_item_count st = new_item_count st0 + List.length new /\
    NoDup (map rec_seq new) /\
    (forall x, In x (map rec_seq new) -> ~ In x (seen_item_sequences st0)) /\
    Forall passes_filters new /\
    filtered_canceled_count st0 <= filtered_canceled_count st /\
    filtered_export_count st0 <= filtered_export_count st /\
    (filtered_canceled_count st - filtered_canceled_count st0)
    + (filtered_export_count st - filtered_export_count st0)
    + List.length new <= List.length items.
Proof.
  revert st0. induction items as [| it items IH]; intros st0; cbn [item_loop].
  - intros H. injection H as <-. exists []. cbn.
    rewrite !app_nil_r. repeat split; try lia; try constructor; try tauto.
  - destruct (item_step fromstring unescape st0 it) as [st1 | e] eqn:Hstep;
      [| discriminate].
    cbn [bind]. intros Hloop.
    destruct (IH st1 Hloop)
      as (new & Hproc & Hseen & Hcount & Hnodup & Hfresh & Hpass & Hc & He & Hlen).
    destruct (item_step_cases _ _ _ Hstep)
      as [(Hs1 & Hp1 & Hn1 & Hc1 & He1 & Hce1)
         | (r & Hs1 & Hp1 & Hn1 & Hc1 & He1 & Hnew & Hr & _)].
    + exists new. rewrite Hproc, Hseen, Hcount, Hs1, Hp1, Hn1.
      repeat split; try reflexivity; try assumption; try lia.
      * intros x Hx. rewrite <- Hs1. apply Hfresh. exact Hx.
      * cbn [List.length]. lia.
    + exists (r :: new). rewrite Hproc, Hseen, Hcount, Hs1, Hp1, Hn1.
      cbn [map List.length]. rewrite <- !app_assoc. cbn [app].
      repeat split; try reflexivity; try lia.
      * constructor; [| exact Hnodup].
        intros Hin. apply (Hfresh _ Hin). rewrite Hs1.
        apply in_or_app. right. left. reflexivity.
      * intros x [<- | Hx].
        -- intros Hin. apply mem_In in Hin. congruence.
        -- intros Hin. apply (Hfresh _ Hx). rewrite Hs1.
           apply in_or_app. left. exact Hin.
      * constructor; assumption.
Qed.

Lemma refilter_keeps (data : list record) :
  Forall passes_filters data -> refilter data = Ret data.
Proof.
  unfold refilter. induction 1 as [| r data [Hcancel (name & Hname & Hexport)] _ IH];
    [reflexivity |].
  cbn [collect]. rewrite Hcancel, Hname, Hexport. cbn [bind]. rewrite IH. reflexivity.
Qed.


Lemma document_text_of_record (it : item) (field : string) :
  In field DOC_FIELDS ->
  document_text unescape
    (mkRecord (required_fields it)
       (flat_map (fun field =>
          match stored_document fromstring unescape
                  (get_or field JNull (required_fields it)) with
          | Some parsed_doc => [(field ++ "_PARSED", parsed_doc)]
          | None => []
          end) DOC_FIELDS))
    field
  = Ret (stored_text fromstring unescape (get_or field (JStr "") it)).
Proof.
  intros Hin.
  assert (Hvals : forall f, In f DOC_FIELDS ->
            get_or f JNull (required_fields it) = get_or f (JStr "") it /\
            get f (required_fields it) = Some (get_or f (JStr "") it)).
  { intros f Hf. split.
    - apply get_or_required; [| intros ->; cbn in Hf; intuition discriminate].
      cbn in Hf. cbn. intuition.
    - apply required_fields_get; [| intros ->; cbn in Hf; intuition discriminate].
      cbn in Hf. cbn. intuition. }
  unfold document_text. cbn [rec_parsed rec_fields DOC_FIELDS flat_map].
  rewrite (proj1 (Hvals "EE_DOC_DATA" ltac:(cbn; tauto))).
  rewrite (proj1 (Hvals "UD_DOC_DATA" ltac:(cbn; tauto))).
  rewrite (proj1 (Hvals "NB_DOC_DATA" ltac:(cbn; tauto))).
  rewrite (proj2 (Hvals field Hin)).
  unfold stored_text.
  assert (Hplain : forall v,
            stored_document fromstring unescape v = None ->
            match v with
            | JStr original =>
                if Py.truthy original
                then try_except
                       (d <- extract_text_from_broken_xml unescape original ;;
                        Ret match doc_text d with Some t => t | None => "" end)
                       (fun e => Ret ("텍스트 추출 실패: " ++ Py.py_take 100 (str e)))
                else Ret ""
            | JNull => Ret ""
            end = Ret "").
  { intros [| s]; [reflexivity |]. cbn [stored_document].
    destruct (Py.truthy s); [discriminate | reflexivity]. }
  assert (Hsome : forall v, stored_document fromstring unescape v <> Some None).
  { intros [| s]; cbn [stored_document]; [discriminate |].
    destruct (Py.truthy s); discriminate. }
  cbn in Hin.
  destruct (stored_document fromstring unescape (get_or "EE_DOC_DATA" (JStr "") it))
    as [[d1 |] |] eqn:H1; try (exfalso; apply (Hsome _ H1));
  destruct (stored_document fromstring unescape (get_or "UD_DOC_DATA" (JStr "") it))
    as [[d2 |] |] eqn:H2; try (exfalso; apply (Hsome _ H2));
  destruct (stored_document fromstring unescape (get_or "NB_DOC_DATA" (JStr "") it))
    as [[d3 |] |] eqn:H3; try (exfalso; apply (Hsome _ H3));
  destruct Hin as [<- | [<- | [<- | []]]];
    cbn [get append app String.eqb Ascii.eqb Bool.eqb];
    rewrite ?H1, ?H2, ?H3; try reflexivity;
    first [ exact (Hplain _ H1) | exact (Hplain _ H2) | exact (Hplain _ H3) ].
Qed.

Lemma document_text_returns (r : record) (field : string) :
  exists t, document_text unescape r field = Ret t.
Proof.
  unfold document_text.
  assert (Hplain : exists t,
            match get field (rec_fields r) with
            | Some (JStr original) =>
                if Py.truthy original
                then try_except
                       (d <- extract_text_from_broken_xml unescape original ;;
                        Ret match doc_text d with Some t => t | None => "" end)
                       (fun e => Ret ("텍스트 추출 실패: " ++ Py.py_take 100 (str e)))
                else Ret ""
            | _ => Ret ""
            end = Ret t).
  { destruct (get field (rec_fields r)) as [[| original] |];
      try (eexists; reflexivity).
    destruct (Py.truthy original); [| eexists; reflexivity].
    rewrite extract_text_from_broken_xml_returns. cbn [bind try_except].
    eexists. reflexivity. }
  destruct (get (field ++ "_PARSED") (rec_parsed r)) as [[parsed |] |];
    [eexists; reflexivity | exact Hplain | exact Hplain].
Qed.

Lemma text_item_of_storage (r : record) :
  (get_or "STORAGE_METHOD" (JStr "") (rec_fields r) = JNull ->
   text_item_of unescape r = Raise no_strip) /\
  (forall s,
      get_or "STORAGE_METHOD" (JStr "") (rec_fields r) = JStr s ->
      exists text_item,
        text_item_of unescape r = Ret text_item /\
        get "STORAGE_METHOD" text_item = Some (JStr (Py.strip s)) /\
        map fst text_item
        = ["ITEM_SEQ"; "ITEM_NAME"; "ENTP_NAME"; "ETC_OTC_NAME"; "CHART";
           "STORAGE_METHOD"; "VALID_TERM"; "EFFECTIVENESS"; "USAGE_DOSAGE";
           "PRECAUTIONS"]).
Proof.
  unfold text_item_of. cbv zeta. split.
  - intros ->. reflexivity.
  - intros s ->. cbn [bind].
    destruct (document_text_returns r "EE_DOC_DATA") as [t1 ->].
    destruct (document_text_returns r "UD_DOC_DATA") as [t2 ->].
    destruct (document_text_returns r "NB_DOC_DATA") as [t3 ->].
    cbn [bind]. eexists. repeat split.
Qed.

Lemma item_step_returns (st : loop_state) (it : item) :
  get_or "ITEM_NAME" (JStr "") it <> JNull ->
  exists st', item_step fromstring unescape st it = Ret st'.
Proof.
  intros Hname. unfold item_step. cbv zeta.
  destruct (mem _ _); [eexists; reflexivity |].
  destruct (truthy _); [eexists; reflexivity |].
  destruct (get_or "ITEM_NAME" (JStr "") it) as [| name]; [congruence |].
  destruct (Py.contains EXPORT_MARK name); [eexists; reflexivity |].
  rewrite filtered_item_of_returns. cbn [bind]. eexists. reflexivity.
Qed.

Lemma item_loop_returns (items : list item) (st : loop_state) :
  Forall (fun it => get_or "ITEM_NAME" (JStr "") it <> JNull) items ->
  exists st', item_loop fromstring unescape items st = Ret st'.
Proof.
  intros Hall. revert st. induction Hall as [| it items Hit _ IH]; intros st.
  - eexists. reflexivity.
  - cbn [item_loop]. destruct (item_step_returns st it Hit) as [st1 ->].
    cbn [bind]. apply IH.
Qed.

(** A null name ends the loop, when the item is reached and is neither
    seen nor cancelled. *)
Lemma item_step_null_name (st : loop_state) (it : item) :
  mem (get_or "ITEM_SEQ" (JStr "") it) (seen_item_sequences st) = false ->
  truthy (get_or "CANCEL_DATE" JNull it) = false ->
  get_or "ITEM_NAME" (JStr "") it = JNull ->
  item_step fromstring unescape st it = Raise not_iterable.
Proof.
  intros Hseen Hcancel Hname. unfold item_step. cbv zeta.
  rewrite Hseen, Hcancel, Hname. reflexivity.
Qed.


Lemma text_data_of_returns (data : list record) :
  Forall (fun r => get_or "STORAGE_METHOD" (JStr "") (rec_fields r) <> JNull) data ->
  exists text_data,
    text_data_of unescape data = Ret text_data /\
    List.length text_data <= List.length data /\
    Forall (fun text_item => worth_keeping text_item = true) text_data.
Proof.
  unfold text_data_of. induction 1 as [| r data Hr _ IH].
  - exists []. repeat split; [cbn; lia | constructor].
  - destruct IH as (rest & Hrest & Hlen & Hall).
    destruct (get_or "STORAGE_METHOD" (JStr "") (rec_fields r)) as [| s] eqn:Hs;
      [congruence |].
    destruct (proj2 (text_item_of_storage r) s Hs) as (ti & Hti & _).
    cbn [collect]. rewrite Hti. cbn [bind]. rewrite Hrest. cbn [bind].
    eexists. split; [reflexivity |].
    destruct (worth_keeping ti) eqn:Hkeep; cbn [app List.length].
    + split; [lia | constructor; assumption].
    + split; [lia | assumption].
Qed.

Lemma item_loop_all_seen (items : list item) (st : loop_state) :
  all_seen items (seen_item_sequences st) = true ->
  item_loop fromstring unescape items st = Ret st.
Proof.
  unfold all_seen. induction items as [| it items IH]; [reflexivity |].
  cbn [forallb]. intros H. apply andb_true_iff in H. destruct H as [Hit Hrest].
  cbn [item_loop]. unfold item_step. cbv zeta. rewrite Hit. cbn [bind].
  apply IH. exact Hrest.
Qed.

Lemma error_fields_of_record (it : item) :
  error_fields_of
    (mkRecord (required_fields it)
       (flat_map (fun field =>
          match stored_document fromstring unescape
                  (get_or field JNull (required_fields it)) with
          | Some parsed_doc => [(field ++ "_PARSED", parsed_doc)]
          | None => []
          end) DOC_FIELDS))
  = flat_map (fun field =>
      match stored_document fromstring unescape (get_or field (JStr "") it) with
      | Some (Some parsed) =>
          if String.eqb (doc_type parsed) "error"
          then [(field, match doc_error parsed with
                        | Some e => e
                        | None => UNKNOWN_ERROR
                        end)]
          else []
      | _ => []
      end) DOC_FIELDS.
Proof.
  assert (Hvals : forall f, In f DOC_FIELDS ->
            get_or f JNull (required_fields it) = get_or f (JStr "") it).
  { intros f Hf.
    apply get_or_required; [| intros ->; cbn in Hf; intuition discriminate].
    cbn in Hf. cbn. intuition. }
  unfold error_fields_of. cbn [rec_parsed DOC_FIELDS flat_map].
  rewrite (Hvals "EE_DOC_DATA" ltac:(cbn; tauto)).
  rewrite (Hvals "UD_DOC_DATA" ltac:(cbn; tauto)).
  rewrite (Hvals "NB_DOC_DATA" ltac:(cbn; tauto)).
  assert (Hnone : forall v, stored_document fromstring unescape v <> Some None).
  { intros [| s]; cbn [stored_document]; [discriminate |].
    destruct (Py.truthy s); discriminate. }
  destruct (stored_document fromstring unescape (get_or "EE_DOC_DATA" (JStr "") it))
    as [[d1 |] |] eqn:H1; [| exfalso; exact (Hnone _ H1) |];
  destruct (stored_document fromstring unescape (get_or "UD_DOC_DATA" (JStr "") it))
    as [[d2 |] |] eqn:H2; try (exfalso; exact (Hnone _ H2));
  destruct (stored_document fromstring unescape (get_or "NB_DOC_DATA" (JStr "") it))
    as [[d3 |] |] eqn:H3; try (exfalso; exact (Hnone _ H3));
  reflexivity.
Qed.

(** The text item of the record built from an item. *)
Lemma text_item_of_record (it : item) :
  let r := mkRecord (required_fields it)
             (flat_map (fun field =>
                match stored_document fromstring unescape
                        (get_or field JNull (required_fields it)) with
                | Some parsed_doc => [(field ++ "_PARSED", parsed_doc)]
                | None => []
                end) DOC_FIELDS) in
  (get_or "STORAGE_METHOD" (JStr "") it = JNull ->
   text_item_of unescape r = Raise no_strip) /\
  (forall s,
      get_or "STORAGE_METHOD" (JStr "") it = JStr s ->
      text_item_of unescape r
      = Ret [ ("ITEM_SEQ", get_or "ITEM_SEQ" (JStr "") it);
              ("ITEM_NAME", get_or "ITEM_NAME" (JStr "") it);
              ("ENTP_NAME", get_or "ENTP_NAME" (JStr "") it);
              ("ETC_OTC_NAME", get_or "ETC_OTC_NAME" (JStr "") (required_fields it));
              ("CHART", get_or "CHART" (JStr "") it);
              ("STORAGE_METHOD", JStr (Py.strip s));
              ("VALID_TERM", get_or "VALID_TERM" (JStr "") it);
              ("EFFECTIVENESS",
               JStr (stored_text fromstring unescape (get_or "EE_DOC_DATA" (JStr "") it)));
              ("USAGE_DOSAGE",
               JStr (stored_text fromstring unescape (get_or "UD_DOC_DATA" (JStr "") it)));
              ("PRECAUTIONS",
               JStr (stored_text fromstring unescape (get_or "NB_DOC_DATA" (JStr "") it))) ]).
Proof.
  intros r.
  assert (Hreq : forall key,
            In key ["ITEM_SEQ"; "ITEM_NAME"; "ENTP_NAME"; "CHART"; "STORAGE_METHOD";
                    "VALID_TERM"] ->
            get_or key (JStr "") (required_fields it) = get_or key (JStr "") it).
  { intros key Hin. apply get_or_required.
    - cbn in Hin. cbn. intuition.
    - intros ->. cbn in Hin. intuition discriminate. }
  unfold text_item_of. cbv zeta. subst r. cbn [rec_fields].
  rewrite (Hreq "STORAGE_METHOD") by (cbn; tauto).
  split.
  - intros ->. reflexivity.
  - intros s ->. cbn [bind].
    rewrite (document_text_of_record it "EE_DOC_DATA") by (cbn; tauto).
    rewrite (document_text_of_record it "UD_DOC_DATA") by (cbn; tauto).
    rewrite (document_text_of_record it "NB_DOC_DATA") by (cbn; tauto).
    cbn [bind].
    rewrite (Hreq "ITEM_SEQ") by (cbn; tauto).
    rewrite (Hreq "ITEM_NAME") by (cbn; tauto).
    rewrite (Hreq "ENTP_NAME") by (cbn; tauto).
    rewrite (Hreq "CHART") by (cbn; tauto).
    rewrite (Hreq "VALID_TERM") by (cbn; tauto).
    reflexivity.
Qed.

End RecordFacts.


(** X12. The item loop keeps each serial number once.  When the loop over
    the items of a page returns, the records it has added have pairwise
    different serial numbers, none of which had been seen before; the
    serial numbers seen are those seen before and those of the new
    records; the counter of new items is their number; and
    the items counted as cancelled, as exported or as new are not more
    than the items of the page. *)
Theorem item_loop_keeps_each_number_once :
  forall (fromstring : string -> outcome ET.Element)
         (unescape : string -> outcome string)
         (items : list Feed.item) (seen : list Feed.jval) (canceled exported : nat)
         (st : Feed.loop_state),
    Feed.item_loop fromstring unescape items (Feed.page_start seen canceled exported)
    = Ret st ->
    Feed.seen_item_sequences st
    = (seen ++ map Feed.rec_seq (Feed.processed_items st))%list /\
    NoDup (map Feed.rec_seq (Feed.processed_items st)) /\
    (forall x, In x (map Feed.rec_seq (Feed.processed_items st)) -> ~ In x seen) /\
    Feed.new_item_count st = List.length (Feed.processed_items st) /\
    (Feed.filtered_canceled_count st - canceled)
    + (Feed.filtered_export_count st - exported)
    + Feed.new_item_count st <= List.length items.
Proof.
  intros fromstring unescape items seen canceled exported st Hloop.
  destruct (item_loop_invariant _ _ _ _ _ Hloop)
    as (new & Hproc & Hseen & Hcount & Hnodup & Hfresh & _ & _ & _ & Hlen).
  cbn in Hproc, Hseen, Hcount, Hfresh, Hlen.
  rewrite Hproc. repeat split; assumption || lia.
Qed.

Lemma item_loop_keeps_each_number_once_witness :
  map Feed.rec_seq
      (match Feed.item_loop XmlModel.fromstring HtmlModel.unescape Feed.sample_page
               (Feed.page_start [] 0 0) with
       | Ret st => Feed.processed_items st
       | Raise _ => []
       end)
  = [Feed.JStr "1"; Feed.JStr "2"] /\
  NoDup [Feed.JStr "1"; Feed.JStr "2"].
Proof.
  split; [vm_compute; reflexivity |].
  destruct (Feed.item_loop XmlModel.fromstring HtmlModel.unescape Feed.sample_page
              (Feed.page_start [] 0 0)) as [st | e] eqn:Hloop.
  - destruct (item_loop_keeps_each_number_once _ _ _ _ _ _ _ Hloop)
      as (_ & Hnodup & _).
    assert (Hseqs : map Feed.rec_seq (Feed.processed_items st)
                    = [Feed.JStr "1"; Feed.JStr "2"]).
    { vm_compute in Hloop. injection Hloop as <-. reflexivity. }
    rewrite Hseqs in Hnodup. exact Hnodup.
  - vm_compute in Hloop. discriminate Hloop.
Defined.

(** X13. The second filter removes nothing the first one has let through.
    Each record the item loop adds has no cancellation date and a name
    without the export mark, so the filter that [process_and_save_data]
    applies once more returns the records of the loop unchanged. *)
Theorem second_filter_keeps_fetched_records :
  forall (fromstring : string -> outcome ET.Element)
         (unescape : string -> outcome string)
         (items : list Feed.item) (seen : list Feed.jval) (canceled exported : nat)
         (st : Feed.loop_state),
    Feed.item_loop fromstring unescape items (Feed.page_start seen canceled exported)
    = Ret st ->
    Forall Feed.passes_filters (Feed.processed_items st) /\
    Feed.refilter (Feed.processed_items st) = Ret (Feed.processed_items st).
Proof.
  intros fromstring unescape items seen canceled exported st Hloop.
  destruct (item_loop_invariant _ _ _ _ _ Hloop)
    as (new & Hproc & _ & _ & _ & _ & Hpass & _).
  cbn in Hproc. rewrite Hproc.
  split; [exact Hpass | apply refilter_keeps; exact Hpass].
Qed.

Lemma second_filter_keeps_fetched_records_witness :
  match Feed.item_loop XmlModel.fromstring HtmlModel.unescape Feed.sample_page
          (Feed.page_start [] 0 0) with
  | Ret st =>
      Forall Feed.passes_filters (Feed.processed_items st) /\
      Feed.refilter (Feed.processed_items st) = Ret (Feed.processed_items st)
  | Raise _ => False
  end.
Proof.
  destruct (Feed.item_loop XmlModel.fromstring HtmlModel.unescape Feed.sample_page
              (Feed.page_start [] 0 0)) as [st | e] eqn:Hloop.
  - exact (second_filter_keeps_fetched_records _ _ _ _ _ _ _ Hloop).
  - vm_compute in Hloop. discriminate Hloop.
Defined.

(** X14. The shape of a record.  For every item the record is built
    without an exception; its fields are the twelve required fields, in
    their order, and nothing else of the item; each has the value of the
    item, or the empty string when the item does not have the field; and
    a record with a class code has a class name. *)
Theorem record_has_required_fields :
  forall (fromstring : string -> outcome ET.Element)
         (unescape : string -> outcome string) (it : Feed.item),
    exists r,
      Feed.filtered_item_of fromstring unescape it = Ret r /\
      map fst (Feed.rec_fields r) = Feed.REQUIRED_FIELDS /\
      (forall key,
          In key Feed.REQUIRED_FIELDS -> key <> "ETC_OTC_NAME" ->
          Feed.get key (Feed.rec_fields r)
          = Some (Feed.get_or key (Feed.JStr "") it)) /\
      (Feed.truthy (Feed.get_or "ETC_OTC_CODE" Feed.JNull (Feed.rec_fields r)) = true ->
       Feed.truthy (Feed.get_or "ETC_OTC_NAME" Feed.JNull (Feed.rec_fields r)) = true).
Proof.
  intros fromstring unescape it. eexists.
  split; [apply filtered_item_of_returns |]. cbn [Feed.rec_fields].
  split; [apply required_fields_keys |].
  split; [apply required_fields_get | apply required_fields_class_name].
Qed.

Lemma record_has_required_fields_witness :
  exists r,
    Feed.filtered_item_of XmlModel.fromstring HtmlModel.unescape
      (Feed.sample_item "1" "alpha") = Ret r /\
    Feed.get "ITEM_NAME" (Feed.rec_fields r) = Some (Feed.JStr "alpha") /\
    Feed.get "VALID_TERM" (Feed.rec_fields r) = Some (Feed.JStr "") /\
    Feed.truthy (Feed.get_or "ETC_OTC_NAME" Feed.JNull (Feed.rec_fields r)) = true.
Proof.
  destruct (record_has_required_fields XmlModel.fromstring HtmlModel.unescape
              (Feed.sample_item "1" "alpha")) as (r & Hr & _ & Hget & Hclass).
  exists r. split; [exact Hr |].
  split; [| split].
  - rewrite Hget; [reflexivity | cbn; tauto | discriminate].
  - rewrite Hget; [reflexivity | cbn; tauto | discriminate].
  - apply Hclass.
    unfold Feed.get_or. rewrite Hget; [reflexivity | cbn; tauto | discriminate].
Defined.

(** X15. From the feed to the text.  For a record built from an item, the
    text that [process_and_save_data] takes for a document field is the
    text of the result of the pipeline on the value of that field, and
    the empty string when the value is null, missing or empty; the call
    of [extract_text_from_broken_xml] at line 644 is not reached. *)
Theorem document_text_is_pipeline_text :
  forall (fromstring : string -> outcome ET.Element)
         (unescape : string -> outcome string)
         (it : Feed.item) (r : Feed.record) (field : string),
    Feed.filtered_item_of fromstring unescape it = Ret r ->
    In field Feed.DOC_FIELDS ->
    Feed.document_text unescape r field
    = Ret (Feed.stored_text fromstring unescape
             (Feed.get_or field (Feed.JStr "") it)).
Proof.
  intros fromstring unescape it r field Hr Hin.
  rewrite filtered_item_of_returns in Hr. injection Hr as <-.
  apply document_text_of_record. exact Hin.
Qed.

Lemma document_text_is_pipeline_text_witness :
  match Feed.filtered_item_of XmlModel.fromstring HtmlModel.unescape
          (Feed.sample_item "1" "alpha") with
  | Ret r =>
      Feed.document_text HtmlModel.unescape r "EE_DOC_DATA"
      = Ret ("【T】" ++ LF ++ LF ++ "■ use") /\
      Feed.document_text HtmlModel.unescape r "NB_DOC_DATA" = Ret ""
  | Raise _ => False
  end.
Proof.
  destruct (Feed.filtered_item_of XmlModel.fromstring HtmlModel.unescape
              (Feed.sample_item "1" "alpha")) as [r | e] eqn:Hr.
  - split.
    + rewrite (document_text_is_pipeline_text _ _ _ _ "EE_DOC_DATA" Hr); [| cbn; tauto].
      vm_compute. reflexivity.
    + rewrite (document_text_is_pipeline_text _ _ _ _ "NB_DOC_DATA" Hr); [| cbn; tauto].
      vm_compute. reflexivity.
  - vm_compute in Hr. discriminate Hr.
Defined.

(** X16. The text item of a fetched record.  For a record built from an
    item, whatever the parser and the decoder raise: when the item has a
    null [STORAGE_METHOD] the construction of the text item raises (there
    is no [strip] on [None]), and this is the only way it fails; when the
    value is a string, or the item has none, the text item is built, with
    the ten keys of lines 620-651 in their order, the values of the item
    for the serial number, the name, the maker, the appearance and the
    term of validity, and for each document the text of the result of the
    pipeline on the value of the item.  For a storage method of ASCII
    characters the value kept is the stripped one. *)
Theorem text_item_fails_on_null_storage_only :
  forall (fromstring : string -> outcome ET.Element)
         (unescape : string -> outcome string)
         (it : Feed.item) (r : Feed.record),
    Feed.filtered_item_of fromstring unescape it = Ret r ->
    (Feed.get_or "STORAGE_METHOD" (Feed.JStr "") it = Feed.JNull ->
     Feed.text_item_of unescape r = Raise Feed.no_strip) /\
    (forall s,
        Feed.get_or "STORAGE_METHOD" (Feed.JStr "") it = Feed.JStr s ->
        exists text_item,
          Feed.text_item_of unescape r = Ret text_item /\
          map fst text_item
          = ["ITEM_SEQ"; "ITEM_NAME"; "ENTP_NAME"; "ETC_OTC_NAME"; "CHART";
             "STORAGE_METHOD"; "VALID_TERM"; "EFFECTIVENESS"; "USAGE_DOSAGE";
             "PRECAUTIONS"] /\
          (forall key,
              In key ["ITEM_SEQ"; "ITEM_NAME"; "ENTP_NAME"; "CHART"; "VALID_TERM"] ->
              Feed.get key text_item = Some (Feed.get_or key (Feed.JStr "") it)) /\
          Feed.get "EFFECTIVENESS" text_item
          = Some (Feed.JStr (Feed.stored_text fromstring unescape
                               (Feed.get_or "EE_DOC_DATA" (Feed.JStr "") it))) /\
          Feed.get "USAGE_DOSAGE" text_item
          = Some (Feed.JStr (Feed.stored_text fromstring unescape
                               (Feed.get_or "UD_DOC_DATA" (Feed.JStr "") it))) /\
          Feed.get "PRECAUTIONS" text_item
          = Some (Feed.JStr (Feed.stored_text fromstring unescape
                               (Feed.get_or "NB_DOC_DATA" (Feed.JStr "") it))) /\
          (ascii_only s = true ->
           Feed.get "STORAGE_METHOD" text_item = Some (Feed.JStr (Py.strip s)))).
Proof.
  intros fromstring unescape it r Hr.
  rewrite filtered_item_of_returns in Hr.
  assert (Hrec : r = Feed.mkRecord (Feed.required_fields it)
                       (flat_map (fun field =>
                          match Feed.stored_document fromstring unescape
                                  (Feed.get_or field Feed.JNull
                                     (Feed.required_fields it)) with
                          | Some parsed_doc => [(field ++ "_PARSED", parsed_doc)]
                          | None => []
                          end) Feed.DOC_FIELDS))
    by congruence.
  rewrite Hrec. clear Hr Hrec r.
  destruct (text_item_of_record fromstring unescape it) as [Hnull Hstring].
  split; [exact Hnull |].
  intros s Hs. rewrite (Hstring s Hs).
  eexists. split; [reflexivity |]. split; [reflexivity |].
  split.
  - intros key Hin.
    destruct Hin as [<- | [<- | [<- | [<- | [<- | []]]]]]; reflexivity.
  - repeat (split; [reflexivity |]). intros _. reflexivity.
Qed.

Lemma text_item_fails_on_null_storage_only_witness :
  match Feed.filtered_item_of XmlModel.fromstring HtmlModel.unescape
          (Feed.sample_item "1" "alpha"),
        Feed.filtered_item_of XmlModel.fromstring HtmlModel.unescape
          [("ITEM_SEQ", Feed.JStr "4"); ("STORAGE_METHOD", Feed.JNull)] with
  | Ret r, Ret r0 =>
      (exists text_item,
         Feed.text_item_of HtmlModel.unescape r = Ret text_item /\
         Feed.get "ITEM_NAME" text_item = Some (Feed.JStr "alpha") /\
         Feed.get "EFFECTIVENESS" text_item
         = Some (Feed.JStr ("【T】" ++ LF ++ LF ++ "■ use")) /\
         Feed.get "STORAGE_METHOD" text_item = Some (Feed.JStr "cool and dry")) /\
      Feed.text_item_of HtmlModel.unescape r0 = Raise Feed.no_strip
  | _, _ => False
  end.
Proof.
  destruct (Feed.filtered_item_of XmlModel.fromstring HtmlModel.unescape
              (Feed.sample_item "1" "alpha")) as [r | e] eqn:Hr;
    [| vm_compute in Hr; discriminate Hr].
  destruct (Feed.filtered_item_of XmlModel.fromstring HtmlModel.unescape
              [("ITEM_SEQ", Feed.JStr "4"); ("STORAGE_METHOD", Feed.JNull)])
    as [r0 | e] eqn:Hr0; [| vm_compute in Hr0; discriminate Hr0].
  split.
  - destruct (proj2 (text_item_fails_on_null_storage_only _ _ _ _ Hr)
                " cool and dry " eq_refl)
      as (text_item & Hitem & _ & Hvalues & Heff & _ & _ & Hstorage).
    exists text_item. split; [exact Hitem |].
    split; [rewrite (Hvalues "ITEM_NAME") by (cbn; tauto); reflexivity |].
    split; [rewrite Heff; vm_compute; reflexivity |].
    rewrite (Hstorage eq_refl). reflexivity.
  - apply (proj1 (text_item_fails_on_null_storage_only _ _ _ _ Hr0)). reflexivity.
Defined.

(** X17. The item loop fails on a null name only.  When the name of every
    item of the page is a string (or missing), the loop returns, whatever
    the parser and the decoder raise; an item that is new and not
    cancelled and whose name is null ends it with the exception of the
    test for the export mark. *)
Theorem item_loop_fails_on_null_name_only :
  forall (fromstring : string -> outcome ET.Element)
         (unescape : string -> outcome string),
    (forall items st,
        Forall (fun it => Feed.get_or "ITEM_NAME" (Feed.JStr "") it <> Feed.JNull) items ->
        exists st', Feed.item_loop fromstring unescape items st = Ret st') /\
    (forall st it rest,
        Feed.mem (Feed.get_or "ITEM_SEQ" (Feed.JStr "") it)
                 (Feed.seen_item_sequences st) = false ->
        Feed.truthy (Feed.get_or "CANCEL_DATE" Feed.JNull it) = false ->
        Feed.get_or "ITEM_NAME" (Feed.JStr "") it = Feed.JNull ->
        Feed.item_loop fromstring unescape (it :: rest) st = Raise Feed.not_iterable).
Proof.
  intros fromstring unescape. split.
  - intros items st. apply item_loop_returns.
  - intros st it rest Hseen Hcancel Hname. cbn [Feed.item_loop].
    rewrite (item_step_null_name _ _ _ _ Hseen Hcancel Hname). reflexivity.
Qed.

Lemma item_loop_fails_on_null_name_only_witness :
  (exists st', Feed.item_loop XmlModel.fromstring HtmlModel.unescape Feed.sample_page
                 (Feed.page_start [] 0 0) = Ret st') /\
  Feed.item_loop XmlModel.fromstring HtmlModel.unescape
    ([("ITEM_SEQ", Feed.JStr "7"); ("ITEM_NAME", Feed.JNull)] :: Feed.sample_page)
    (Feed.page_start [] 0 0)
  = Raise Feed.not_iterable.
Proof.
  destruct (item_loop_fails_on_null_name_only XmlModel.fromstring HtmlModel.unescape)
    as [Hret Hraise].
  split.
  - apply Hret. unfold Feed.sample_page.
    repeat constructor; vm_compute; discriminate.
  - apply Hraise; reflexivity.
Defined.

(** X18. The records of a page go through [process_and_save_data].  When
    the item loop has returned and no record of it has a null storage
    method, the processing returns: the records are kept as they are, and
    the text items are at most as many, each of them with a text of more
    than ten characters or with a name and a maker. *)
Theorem fetched_records_are_processed :
  forall (fromstring : string -> outcome ET.Element)
         (unescape : string -> outcome string)
         (items : list Feed.item) (seen : list Feed.jval) (canceled exported : nat)
         (st : Feed.loop_state),
    Feed.item_loop fromstring unescape items (Feed.page_start seen canceled exported)
    = Ret st ->
    Forall (fun r => Feed.get_or "STORAGE_METHOD" (Feed.JStr "") (Feed.rec_fields r)
                     <> Feed.JNull)
           (Feed.processed_items st) ->
    exists text_data,
      Feed.process_data unescape (Feed.processed_items st)
      = Ret (Feed.processed_items st, text_data) /\
      List.length text_data <= List.length (Feed.processed_items st) /\
      Forall (fun text_item => Feed.worth_keeping text_item = true) text_data.
Proof.
  intros fromstring unescape items seen canceled exported st Hloop Hstorage.
  destruct (item_loop_invariant _ _ _ _ _ Hloop)
    as (new & Hproc & _ & _ & _ & _ & Hpass & _).
  cbn in Hproc. rewrite Hproc in *.
  destruct (text_data_of_returns unescape new Hstorage) as (texts & Htexts & Hlen & Hall).
  exists texts. split; [| split; assumption].
  unfold Feed.process_data. rewrite (refilter_keeps new Hpass). cbn [bind].
  rewrite Htexts. reflexivity.
Qed.

Lemma fetched_records_are_processed_witness :
  match Feed.item_loop XmlModel.fromstring HtmlModel.unescape Feed.sample_page
          (Feed.page_start [] 0 0) with
  | Ret st =>
      exists text_data,
        Feed.process_data HtmlModel.unescape (Feed.processed_items st)
        = Ret (Feed.processed_items st, text_data) /\
        List.length text_data <= List.length (Feed.processed_items st) /\
        Forall (fun text_item => Feed.worth_keeping text_item = true) text_data
  | Raise _ => False
  end.
Proof.
  destruct (Feed.item_loop XmlModel.fromstring HtmlModel.unescape Feed.sample_page
              (Feed.page_start [] 0 0)) as [st | e] eqn:Hloop.
  - apply (fetched_records_are_processed _ _ _ _ _ _ _ Hloop).
    vm_compute in Hloop. injection Hloop as <-.
    repeat constructor; vm_compute; discriminate.
  - vm_compute in Hloop. discriminate Hloop.
Defined.

(** X19. Stopping on a repeated page loses nothing.  When every serial
    number of a page has been seen (the test of lines 461-467), the item
    loop on that page would return with the variables as they were: no
    record added, nothing counted. *)
Theorem repeated_page_adds_nothing :
  forall (fromstring : string -> outcome ET.Element)
         (unescape : string -> outcome string)
         (items : list Feed.item) (seen : list Feed.jval) (canceled exported : nat),
    Feed.all_seen items seen = true ->
    Feed.item_loop fromstring unescape items (Feed.page_start seen canceled exported)
    = Ret (Feed.page_start seen canceled exported).
Proof.
  intros fromstring unescape items seen canceled exported Hseen.
  apply item_loop_all_seen. exact Hseen.
Qed.

Lemma repeated_page_adds_nothing_witness :
  Feed.item_loop XmlModel.fromstring HtmlModel.unescape Feed.sample_page
    (Feed.page_start [Feed.JStr "2"; Feed.JStr "9"; Feed.JStr "1"; Feed.JStr "8"] 1 1)
  = Ret (Feed.page_start [Feed.JStr "2"; Feed.JStr "9"; Feed.JStr "1"; Feed.JStr "8"] 1 1).
Proof.
  apply repeated_page_adds_nothing. vm_compute. reflexivity.
Defined.

Lemma tree_result_error (unescape : string -> outcome string) (c : bool)
    (root : ET.Element) (d : parsed_doc) :
  tree_result unescape c root = Ret d -> doc_error d = None.
Proof.
  unfold tree_result.
  destruct (sections_of unescape c root) as [secs | e]; [| discriminate].
  cbn [bind]. intros H. injection H as <-. reflexivity.
Qed.

Section ParseErrorsOnly.

Variable fromstring : string -> outcome ET.Element.
Variable unescape : string -> outcome string.
Hypothesis unescape_returns : forall x, exists y, unescape x = Ret y.
Hypothesis fromstring_raises :
  forall x e, fromstring x = Raise e -> exists m, e = ParseError m.

Lemma pipeline_result_of_tree (s : string) :
  doc_error (pipeline_result fromstring unescape s) = None /\
  (doc_type (pipeline_result fromstring unescape s) = "error" ->
   exists root,
     (fromstring (sanitize s) = Ret root \/
      fromstring (tag_repair (sanitize s)) = Ret root) /\
     ET.get root "type" "" = "error").
Proof.
  unfold pipeline_result, first_tier, second_tier.
  destruct (fromstring (sanitize s)) as [root | e] eqn:H1; cbn [bind].
  - destruct (tree_result_returns unescape unescape_returns true root) as [d Hd].
    rewrite Hd. split; [exact (tree_result_error _ _ _ _ Hd) |].
    intros Htype. exists root. split; [left; reflexivity |].
    rewrite <- (proj1 (tree_result_type _ _ _ _ Hd)). exact Htype.
  - destruct (fromstring_raises _ _ H1) as [m ->].
    destruct (fromstring (tag_repair (sanitize s))) as [root | e] eqn:H2; cbn [bind].
    + destruct (tree_result_returns unescape unescape_returns false root) as [d Hd].
      rewrite Hd. split; [exact (tree_result_error _ _ _ _ Hd) |].
      intros Htype. exists root. split; [right; reflexivity |].
      rewrite <- (proj1 (tree_result_type _ _ _ _ Hd)). exact Htype.
    + unfold broken_xml_result.
      destruct (salvage_returns unescape unescape_returns (tag_repair (sanitize s)))
        as [d Hd].
      rewrite Hd. destruct (salvage_type _ _ _ Hd) as (Htype & _ & Herror & _).
      split; [exact Herror |]. rewrite Htype. discriminate.
Qed.

Lemma error_fields_default (it : Feed.item) (r : Feed.record) :
  Feed.filtered_item_of fromstring unescape it = Ret r ->
  Forall (fun entry => snd entry = Feed.UNKNOWN_ERROR) (Feed.error_fields_of r).
Proof.
  intros Hr. rewrite filtered_item_of_returns in Hr. injection Hr as <-.
  refine (eq_ind_r (Forall _) _ (error_fields_of_record fromstring unescape it)).
  apply Forall_flat_map.
  apply Forall_forall. intros field _.
  destruct (Feed.get_or field (Feed.JStr "") it) as [| s]; cbn [Feed.stored_document];
    [constructor |].
  destruct (Py.truthy s); [| constructor].
  destruct (String.eqb _ "error"); [| constructor].
  constructor; [| constructor]. cbn [snd].
  rewrite (proj1 (pipeline_result_of_tree s)). reflexivity.
Qed.

End ParseErrorsOnly.

(** X20. The error report with a parser that raises [ParseError] only and
    a decoder that does not raise.  No result of the pipeline has an
    [error] key then, and a result has the type [error] only when it is
    built from a tree whose root has the attribute [type] with the value
    [error]; so every entry of the error report of a record carries the
    default message. *)
Theorem error_report_names_typed_roots_only :
  forall (fromstring : string -> outcome ET.Element)
         (unescape : string -> outcome string),
    (forall x, exists y, unescape x = Ret y) ->
    (forall x e, fromstring x = Raise e -> exists m, e = ParseError m) ->
    (forall s,
        doc_error (pipeline_result fromstring unescape s) = None /\
        (doc_type (pipeline_result fromstring unescape s) = "error" ->
         exists root,
           (fromstring (sanitize s) = Ret root \/
            fromstring (tag_repair (sanitize s)) = Ret root) /\
           ET.get root "type" "" = "error")) /\
    (forall it r,
        Feed.filtered_item_of fromstring unescape it = Ret r ->
        Forall (fun entry => snd entry = Feed.UNKNOWN_ERROR) (Feed.error_fields_of r)).
Proof.
  intros fromstring unescape Hdecoder Hparser. split.
  - intros s. apply pipeline_result_of_tree; assumption.
  - intros it r. apply error_fields_default; assumption.
Qed.

Lemma error_report_names_typed_roots_only_witness :
  match Feed.filtered_item_of Feed.parse_error_only (fun x => Ret x)
          Feed.typed_error_item with
  | Ret r =>
      Feed.error_fields_of r = [("UD_DOC_DATA", Feed.UNKNOWN_ERROR)] /\
      Forall (fun entry => snd entry = Feed.UNKNOWN_ERROR) (Feed.error_fields_of r)
  | Raise _ => False
  end.
Proof.
  destruct (Feed.filtered_item_of Feed.parse_error_only (fun x => Ret x)
              Feed.typed_error_item) as [r | e] eqn:Hr.
  - split.
    + vm_compute in Hr. injection Hr as <-. vm_compute. reflexivity.
    + refine (proj2 (error_report_names_typed_roots_only
                       Feed.parse_error_only (fun x => Ret x) _ _) _ r Hr).
      * intros x. exists x. reflexivity.
      * intros x e. unfold Feed.parse_error_only.
        destruct (XmlModel.fromstring x) as [root | [m | m]]; intros H;
          [discriminate H | |]; injection H as <-; eexists; reflexivity.
  - vm_compute in Hr. discriminate Hr.
Defined.
